(** * GlassBox Python SDK: a shallow embedding of the core and its properties

    The development follows the SDK module by module:
    - [Py]        : the Python built-ins the SDK relies on (str methods,
                    truthiness, [str()], [repr()], ordering of strings);
    - [hashlib]   : SHA-256 and MD5 over the UTF-8 encoding of a [str];
    - [json]      : [json.dumps(..., sort_keys=True)];
    - [datetime]  : [isoformat] / [fromisoformat] / aware comparison;
    - [Tokenizer] : glassbox/dsl_parser.py, the tokenizer of [DSLParser];
    - [Evidence]  : glassbox/evidence_manager.py;
    - [Audit]     : glassbox/audit_trail.py;
    - [DSL]       : glassbox/dsl_parser.py, [DSLEvaluator];
    - [Bundle]    : glassbox/decision_bundle.py (validation);
    - [Engine]    : glassbox/rule_engine.py;
    - [EvidenceQueries], [AuditQueries] : the time-range queries, evidence
                    chains and the verification of audit bundles;
    - [BundleAccess], [Builder] : the lookups of [DecisionBundle] and
                    [DecisionBundleBuilder];
    - [EngineBundle] : [ExecutionContext] and [RuleEngine.execute_bundle];
    - [Parser]    : glassbox/dsl_parser.py, the parser of [DSLParser].

    Python [str] values are modelled by [string]; a character is a code
    point below 256.  Python [int] is [Z] and [float] is a binary64
    [PrimFloat.float]. *)

From Stdlib Require Import ZArith List String Ascii Bool Lia Floats.
From stdpp Require Import gmap strings pretty list fin_maps.

Local Open Scope Z_scope.

(** The double quote character. *)
Abbreviation dquote := (Ascii false true false false false true false false).

(* ===================================================================== *)
(** ** hashlib: SHA-256 and MD5                                           *)
(* ===================================================================== *)

Module hashlib.

(** [str.encode()]: UTF-8 of a string of code points below 256. *)
Definition utf8_char (c : ascii) : list Z :=
  let n := Z.of_N (N_of_ascii c) in
  if n <? 128 then [n]
  else [Z.lor 0xC0 (Z.shiftr n 6); Z.lor 0x80 (Z.land n 0x3F)].

Fixpoint encode (s : string) : list Z :=
  match s with
  | EmptyString => []
  | String c r => utf8_char c ++ encode r
  end.

Definition w32 (x : Z) : Z := x mod 2 ^ 32.
Definition add32 (x y : Z) : Z := w32 (x + y).
Definition not32 (x : Z) : Z := Z.lxor x 0xffffffff.
Definition rotr32 (n x : Z) : Z :=
  Z.lor (Z.shiftr x n) (w32 (Z.shiftl x (32 - n))).
Definition rotl32 (n x : Z) : Z :=
  Z.lor (w32 (Z.shiftl x n)) (Z.shiftr x (32 - n)).

(** Big-endian and little-endian views of byte strings. *)
Definition be_bytes (nbytes : nat) (x : Z) : list Z :=
  map (fun i => Z.land (Z.shiftr x (8 * Z.of_nat i)) 0xff) (rev (seq 0 nbytes)).
Definition le_bytes (nbytes : nat) (x : Z) : list Z :=
  map (fun i => Z.land (Z.shiftr x (8 * Z.of_nat i)) 0xff) (seq 0 nbytes).
Definition be_word (bs : list Z) : Z :=
  fold_left (fun acc b => Z.lor (Z.shiftl acc 8) b) bs 0.
Definition le_word (bs : list Z) : Z := be_word (rev bs).

Fixpoint chunks {A} (fuel n : nat) (l : list A) : list (list A) :=
  match fuel with
  | O => []
  | S fuel' =>
      match l with
      | [] => []
      | _ => firstn n l :: chunks fuel' n (skipn n l)
      end
  end.

(** Merkle-Damgaard padding shared by both digests; [enc] writes the
    64-bit message length. *)
Definition pad (enc : nat -> Z -> list Z) (msg : list Z) : list Z :=
  let len := Z.of_nat (length msg) in
  let k := (55 - len) mod 64 in
  msg ++ [0x80] ++ repeat 0 (Z.to_nat k) ++ enc 8%nat ((8 * len) mod 2 ^ 64).

Definition hex_digit (n : Z) : ascii :=
  ascii_of_N (Z.to_N (if n <? 10 then 48 + n else 87 + n)).

Definition hex_byte (b : Z) : string :=
  String (hex_digit (Z.shiftr b 4)) (String (hex_digit (Z.land b 0xf)) EmptyString).

Definition hex_of_bytes (bs : list Z) : string :=
  fold_right (fun b acc => hex_byte b +:+ acc) EmptyString bs.

(** *** SHA-256 (FIPS 180-4) *)

(** The round constants and the initial hash value are the first 32 bits
    of the fractional parts of the cube roots of the first 64 primes and of
    the square roots of the first 8 primes. *)
Definition primes64 : list Z :=
  [2; 3; 5; 7; 11; 13; 17; 19; 23; 29; 31; 37; 41; 43; 47; 53; 59; 61; 67; 71; 73; 79;
   83; 89; 97; 101; 103; 107; 109; 113; 127; 131; 137; 139; 149; 151; 157; 163; 167;
   173; 179; 181; 191; 193; 197; 199; 211; 223; 227; 229; 233; 239; 241; 251; 257; 263;
   269; 271; 277; 281; 283; 293; 307; 311].

(** The integer cube root of [n < 2^123], one bit at a time. *)
Definition cube_root (n : Z) : Z :=
  fold_left (fun r k => let r' := r + 2 ^ Z.of_nat k in
                        if r' * r' * r' <=? n then r' else r)
            (rev (seq 0 41)) 0.

Definition K256 : list Z :=
  Eval vm_compute in map (fun p => cube_root (p * 2 ^ 96) mod 2 ^ 32) primes64.

Definition H256 : list Z :=
  Eval vm_compute in map (fun p => Z.sqrt (p * 2 ^ 64) mod 2 ^ 32) (firstn 8 primes64).

Definition bsig0 x := Z.lxor (Z.lxor (rotr32 2 x) (rotr32 13 x)) (rotr32 22 x).
Definition bsig1 x := Z.lxor (Z.lxor (rotr32 6 x) (rotr32 11 x)) (rotr32 25 x).
Definition ssig0 x := Z.lxor (Z.lxor (rotr32 7 x) (rotr32 18 x)) (Z.shiftr x 3).
Definition ssig1 x := Z.lxor (Z.lxor (rotr32 17 x) (rotr32 19 x)) (Z.shiftr x 10).
Definition Ch x y z := Z.lxor (Z.land x y) (Z.land (not32 x) z).
Definition Maj x y z := Z.lxor (Z.lxor (Z.land x y) (Z.land x z)) (Z.land y z).

(** The message schedule, kept newest-first while it is extended. *)
Fixpoint schedule (n : nat) (rev_w : list Z) : list Z :=
  match n with
  | O => rev_w
  | S n' =>
      let w := add32 (add32 (ssig1 (nth 1 rev_w 0)) (nth 6 rev_w 0))
                     (add32 (ssig0 (nth 14 rev_w 0)) (nth 15 rev_w 0)) in
      schedule n' (w :: rev_w)
  end.

Definition sha_round (st : list Z) (kw : Z * Z) : list Z :=
  match st with
  | [a; b; c; d; e; f; g; h] =>
      let t1 := add32 (add32 (add32 h (bsig1 e)) (add32 (Ch e f g) (fst kw))) (snd kw) in
      let t2 := add32 (bsig0 a) (Maj a b c) in
      [add32 t1 t2; a; b; c; add32 d t1; e; f; g]
  | _ => st
  end.

Definition sha_block (h : list Z) (block : list Z) : list Z :=
  let w0 := map be_word (chunks 16 4 block) in
  let w := rev (schedule 48 (rev w0)) in
  let st := fold_left sha_round (combine K256 w) h in
  map (fun p => add32 (fst p) (snd p)) (combine h st).

Definition sha256_bytes (msg : list Z) : list Z :=
  let p := pad be_bytes msg in
  let h := fold_left sha_block (chunks (length p) 64 p) H256 in
  flat_map (be_bytes 4) h.

(** [hashlib.sha256(s.encode()).hexdigest()] *)
Definition sha256_hex (s : string) : string := hex_of_bytes (sha256_bytes (encode s)).

(** *** MD5 (RFC 1321) *)

Definition T5 : list Z :=
  [0xd76aa478; 0xe8c7b756; 0x242070db; 0xc1bdceee; 0xf57c0faf; 0x4787c62a;
   0xa8304613; 0xfd469501; 0x698098d8; 0x8b44f7af; 0xffff5bb1; 0x895cd7be;
   0x6b901122; 0xfd987193; 0xa679438e; 0x49b40821; 0xf61e2562; 0xc040b340;
   0x265e5a51; 0xe9b6c7aa; 0xd62f105d; 0x02441453; 0xd8a1e681; 0xe7d3fbc8;
   0x21e1cde6; 0xc33707d6; 0xf4d50d87; 0x455a14ed; 0xa9e3e905; 0xfcefa3f8;
   0x676f02d9; 0x8d2a4c8a; 0xfffa3942; 0x8771f681; 0x6d9d6122; 0xfde5380c;
   0xa4beea44; 0x4bdecfa9; 0xf6bb4b60; 0xbebfbc70; 0x289b7ec6; 0xeaa127fa;
   0xd4ef3085; 0x04881d05; 0xd9d4d039; 0xe6db99e5; 0x1fa27cf8; 0xc4ac5665;
   0xf4292244; 0x432aff97; 0xab9423a7; 0xfc93a039; 0x655b59c3; 0x8f0ccc92;
   0xffeff47d; 0x85845dd1; 0x6fa87e4f; 0xfe2ce6e0; 0xa3014314; 0x4e0811a1;
   0xf7537e82; 0xbd3af235; 0x2ad7d2bb; 0xeb86d391].

Definition S5 : list Z :=
  [7; 12; 17; 22; 7; 12; 17; 22; 7; 12; 17; 22; 7; 12; 17; 22;
   5; 9; 14; 20; 5; 9; 14; 20; 5; 9; 14; 20; 5; 9; 14; 20;
   4; 11; 16; 23; 4; 11; 16; 23; 4; 11; 16; 23; 4; 11; 16; 23;
   6; 10; 15; 21; 6; 10; 15; 21; 6; 10; 15; 21; 6; 10; 15; 21].

Definition md5_round (m : list Z) (st : list Z) (i : nat) : list Z :=
  match st with
  | [a; b; c; d] =>
      let zi := Z.of_nat i in
      let '(f, g) :=
        if zi <? 16 then (Z.lor (Z.land b c) (Z.land (not32 b) d), zi)
        else if zi <? 32 then (Z.lor (Z.land d b) (Z.land (not32 d) c), (5 * zi + 1) mod 16)
        else if zi <? 48 then (Z.lxor (Z.lxor b c) d, (3 * zi + 5) mod 16)
        else (Z.lxor c (Z.lor b (not32 d)), (7 * zi) mod 16) in
      let x := add32 (add32 a f) (add32 (nth i T5 0) (nth (Z.to_nat g) m 0)) in
      [d; add32 b (rotl32 (nth i S5 0) x); b; c]
  | _ => st
  end.

Definition md5_block (h : list Z) (block : list Z) : list Z :=
  let m := map le_word (chunks 16 4 block) in
  let st := fold_left (md5_round m) (seq 0 64) h in
  map (fun p => add32 (fst p) (snd p)) (combine h st).

Definition md5_bytes (msg : list Z) : list Z :=
  let p := pad le_bytes msg in
  let h := fold_left md5_block (chunks (length p) 64 p)
             [0x67452301; 0xefcdab89; 0x98badcfe; 0x10325476] in
  flat_map (le_bytes 4) h.

(** [hashlib.md5(s.encode()).hexdigest()] *)
Definition md5_hex (s : string) : string := hex_of_bytes (md5_bytes (encode s)).

End hashlib.

(* ===================================================================== *)
(** ** Py: the Python built-ins the SDK relies on                         *)
(* ===================================================================== *)

Module Py.

(** *** Exceptions and the exception monad *)

Inductive builtin_exn :=
| TypeError | ValueError | NameError | KeyError | AttributeError
| OverflowError | IndexError | re_error.

(** The SDK's own exception classes (glassbox/exceptions.py) keep the
    attributes their constructors store. *)
Inductive exn :=
| PyExn (cls : builtin_exn) (msg : string)
| DSLParserException (message : string) (line column : option Z)
| RuleExecutionException (message : string) (rule_id : option string)
    (* [rule_id] is kept as its text; the [context] attribute is not kept *)
| ValidationException (message : string) (field : option string)
| EvidenceException (message : string) (evidence_id : option string)
| AuditException (message : string) (audit_id : option string).

Inductive res (A : Type) :=
| Ok (a : A)
| Raise (e : exn).
Arguments Ok {A} a.
Arguments Raise {A} e.

#[global] Instance res_ret : MRet res := fun A a => Ok a.
#[global] Instance res_bind : MBind res :=
  fun A B f m => match m with Ok a => f a | Raise e => Raise e end.


(** [try: r except (TypeError, ValueError): h] *)
Definition catch_type_value {A} (r : res A) (h : A) : res A :=
  match r with
  | Raise (PyExn TypeError _) | Raise (PyExn ValueError _) => Ok h
  | _ => r
  end.

(** *** Characters and [str] methods *)

Definition ord (c : ascii) : Z := Z.of_N (N_of_ascii c).
Definition chr (n : Z) : ascii := ascii_of_N (Z.to_N n).

Definition in_range (lo hi : Z) (c : ascii) : bool :=
  (lo <=? ord c) && (ord c <=? hi).

Definition isspace (c : ascii) : bool :=
  in_range 9 13 c || in_range 28 32 c || (ord c =? 133) || (ord c =? 160).
Definition isdigit (c : ascii) : bool :=
  in_range 48 57 c || in_range 178 179 c || (ord c =? 185).
Definition isalpha (c : ascii) : bool :=
  in_range 65 90 c || in_range 97 122 c || (ord c =? 170) || (ord c =? 181)
  || (ord c =? 186) || in_range 192 214 c || in_range 216 246 c
  || in_range 248 255 c.
Definition isalnum (c : ascii) : bool :=
  isalpha c || isdigit c || in_range 188 190 c.
Definition isprintable (c : ascii) : bool :=
  in_range 32 126 c || in_range 161 172 c || in_range 174 255 c.

(** [str.upper()] on the characters whose upper case is again a code
    point below 256 (the two others, 181 and 255, are left as they are). *)
Definition upper_char (c : ascii) : string :=
  if in_range 97 122 c then String (chr (ord c - 32)) EmptyString
  else if ord c =? 223 then "SS"
  else if (in_range 224 246 c || in_range 248 254 c)
       then String (chr (ord c - 32)) EmptyString
  else String c EmptyString.

Fixpoint upper (s : string) : string :=
  match s with
  | EmptyString => EmptyString
  | String c r => upper_char c +:+ upper r
  end.

Definition lower_char (c : ascii) : ascii :=
  if in_range 65 90 c || in_range 192 214 c || in_range 216 222 c
  then chr (ord c + 32) else c.

(** [s.replace(old, new)] for a one-character [old]. *)
Fixpoint replace (old : ascii) (new : string) (s : string) : string :=
  match s with
  | EmptyString => EmptyString
  | String c r =>
      if Ascii.eqb c old then new +:+ replace old new r
      else String c (replace old new r)
  end.

(** [s.split(sep)] for a one-character separator. *)
Fixpoint split (sep : ascii) (s : string) : list string :=
  match s with
  | EmptyString => [EmptyString]
  | String c r =>
      if Ascii.eqb c sep then EmptyString :: split sep r
      else match split sep r with
           | [] => [String c EmptyString]
           | p :: ps => String c p :: ps
           end
  end.

(** [sep.join(parts)] *)
Fixpoint join (sep : string) (parts : list string) : string :=
  match parts with
  | [] => EmptyString
  | [p] => p
  | p :: ps => p +:+ sep +:+ join sep ps
  end.

(** [sub in s] for strings. *)
Fixpoint str_contains_fuel (n : nat) (sub s : string) : bool :=
  String.prefix sub s ||
  match n, s with
  | S n', String _ r => str_contains_fuel n' sub r
  | _, _ => false
  end.
Definition str_contains (sub s : string) : bool :=
  str_contains_fuel (String.length s) sub s.

(** [s[:n]] and [s[n:]] for [n >= 0]. *)
Definition take (n : nat) (s : string) : string := String.substring 0 n s.
Definition drop (n : nat) (s : string) : string :=
  String.substring n (String.length s - n) s.

(** [str(n)] of an [int]. *)
Definition str_int (z : Z) : string := pretty z.

(** Zero-padded decimal, as in [f"{n:04d}"], for [0 <= n]. *)
Definition zfill (width : nat) (z : Z) : string :=
  let s := str_int z in
  String.concat "" (repeat "0" (width - String.length s)) +:+ s.

(** Two lower-case hexadecimal digits of a byte. *)
Definition hex2 (n : Z) : string := hashlib.hex_byte n.

(** [str(e)], as the constructors of glassbox/exceptions.py build it. *)
Definition with_id (kind label : string) (id : option string) (message : string) : string :=
  match id with
  | Some i =>
      if String.eqb i "" then kind +:+ ": " +:+ message
      else kind +:+ " (" +:+ label +:+ ": " +:+ i +:+ "): " +:+ message
  | None => kind +:+ ": " +:+ message
  end.

Definition exn_str (e : exn) : string :=
  match e with
  | PyExn _ msg => msg
  | DSLParserException message (Some line) (Some column) =>
      "DSL Parser Error at line " +:+ str_int line +:+ ", column "
      +:+ str_int column +:+ ": " +:+ message
  | DSLParserException message _ _ => "DSL Parser Error: " +:+ message
  | RuleExecutionException message rule_id =>
      with_id "Rule Execution Error" "Rule" rule_id message
  | ValidationException message field =>
      with_id "Validation Error" "Field" field message
  | EvidenceException message evidence_id =>
      with_id "Evidence Error" "ID" evidence_id message
  | AuditException message audit_id =>
      with_id "Audit Error" "ID" audit_id message
  end.

End Py.

(* ===================================================================== *)
(** ** DSL tokenizer: glassbox/dsl_parser.py, class DSLParser             *)
(* ===================================================================== *)

Module Tokenizer.
Import Py.

Definition KEYWORDS : list string :=
  ["WHEN"; "IF"; "THEN"; "MUST"; "SHOULD"; "DO"; "AND"; "OR"; "NOT";
   "IN"; "CONTAINS"; "MATCHES"; "BEFORE"; "AFTER"; "WITHIN"; "EXPIRES";
   "BETWEEN"; "REQUIRE"; "ENSURE"; "VALIDATE"; "FLAG"; "ALERT"; "BLOCK";
   "ALLOW"; "LOG"; "NOTIFY"; "TRUE"; "FALSE"].

Definition OPERATORS : list string := ["="; "!="; ">"; ">="; "<"; "<="; "LIKE"].

Definition TIME_UNITS : list string :=
  ["SECOND"; "SECONDS"; "MINUTE"; "MINUTES"; "HOUR"; "HOURS";
   "DAY"; "DAYS"; "WEEK"; "WEEKS"; "MONTH"; "MONTHS"; "YEAR"; "YEARS"].

(** [value in S] for a set of strings. *)
Definition mem (v : string) (S : list string) : bool := existsb (String.eqb v) S.

(** The ['type'] tag of a token dictionary. *)
Inductive token_type :=
| TNumber | TString | TIdentifier | TKeyword | TTimeUnit | TOperator | TSymbol.

Record token := Token {
  tok_type : token_type;
  tok_value : string;
  tok_position : nat
}.

(** [text[a:b]] *)
Definition slice (text : string) (a b : nat) : string :=
  String.substring a (b - a) text.

(** [while pos < len(text) and p(text[pos]): pos += 1] *)
Fixpoint scan_while (fuel : nat) (p : ascii -> bool) (text : string) (pos : nat) : nat :=
  match fuel with
  | O => pos
  | S fuel' =>
      match String.get pos text with
      | Some c => if p c then scan_while fuel' p text (S pos) else pos
      | None => pos
      end
  end.

Definition scan (p : ascii -> bool) (text : string) (pos : nat) : nat :=
  scan_while (String.length text - pos) p text pos.

Definition char_at_is (text : string) (pos : nat) (p : ascii -> bool) : bool :=
  match String.get pos text with Some c => p c | None => false end.

Definition _parse_number (text : string) (pos : nat) : token :=
  let start := pos in
  (* integer part *)
  let pos := scan isdigit text pos in
  (* decimal part *)
  let pos :=
    if char_at_is text pos (Ascii.eqb ".")
    then scan isdigit text (S pos) else pos in
  (* exponent *)
  let pos :=
    if char_at_is text pos (fun c => Ascii.eqb (lower_char c) "e")
    then
      let pos := S pos in
      let pos :=
        if char_at_is text pos (fun c => Ascii.eqb c "+" || Ascii.eqb c "-")
        then S pos else pos in
      scan isdigit text pos
    else pos in
  Token TNumber (slice text start pos) start.

(** The body of the [while] of [_parse_string]: an escape skips two
    positions, any other character one. *)
Fixpoint string_end (fuel : nat) (quote_char : ascii) (text : string) (pos : nat) : nat :=
  match fuel with
  | O => pos
  | S fuel' =>
      match String.get pos text with
      | Some c =>
          if Ascii.eqb c quote_char then pos
          else if Ascii.eqb c "\" then string_end fuel' quote_char text (pos + 2)
          else string_end fuel' quote_char text (pos + 1)
      | None => pos
      end
  end.

Definition _parse_string (text : string) (pos : nat) : res token :=
  match String.get pos text with
  | None => Raise (PyExn IndexError "string index out of range")
  | Some quote_char =>
      let start := pos in
      let pos := string_end (String.length text - pos) quote_char text (S pos) in
      if String.length text <=? pos then
        Raise (DSLParserException "Unterminated string" (Some 1%Z) (Some (Z.of_nat start + 1)%Z))
      else
        Ok (Token TString (slice text start (S pos)) start)
  end%nat.

Definition _parse_identifier (text : string) (pos : nat) : token :=
  let start := pos in
  let pos := scan (fun c => isalnum c || Ascii.eqb c "_") text pos in
  let value := slice text start pos in
  if mem (upper value) KEYWORDS then Token TKeyword (upper value) start
  else if mem (upper value) TIME_UNITS then Token TTimeUnit (upper value) start
  else Token TIdentifier value start.

Definition _parse_operator (text : string) (pos : nat) : res token :=
  let start := pos in
  let two_char := slice text pos (pos + 2) in
  if (pos + 1 <? String.length text)%nat && mem two_char OPERATORS then
    Ok (Token TOperator two_char start)
  else
    match String.get pos text with
    | None => Raise (PyExn IndexError "string index out of range")
    | Some c =>
        if mem (String c EmptyString) OPERATORS then
          Ok (Token TOperator (String c EmptyString) start)
        else
          Raise (DSLParserException ("Unknown operator: " +:+ String c EmptyString)
                   (Some 1%Z) (Some (Z.of_nat pos + 1)%Z))
    end.

Definition is_one_of (cs : string) (c : ascii) : bool :=
  existsb (Ascii.eqb c) (list_ascii_of_string cs).

(** The [while pos < len(text)] loop of [_tokenize]; [None] is the loop
    running out of [fuel], which [_tokenize] never lets happen. *)
Fixpoint tokenize_loop (fuel : nat) (text : string) (pos : nat) (tokens : list token)
  : option (res (list token)) :=
  match String.get pos text with
  | None => Some (Ok tokens)
  | Some char =>
      match fuel with
      | O => None
      | S fuel' =>
          if isspace char then tokenize_loop fuel' text (S pos) tokens
          else if isdigit char then
            let number := _parse_number text pos in
            tokenize_loop fuel' text (pos + String.length (tok_value number))
                          (tokens ++ [number])
          else if is_one_of (String dquote "'") char then
            match _parse_string text pos with
            | Raise e => Some (Raise e)
            | Ok string =>
                tokenize_loop fuel' text (pos + String.length (tok_value string))
                              (tokens ++ [string])
            end
          else if isalpha char || Ascii.eqb char "_" then
            let identifier := _parse_identifier text pos in
            tokenize_loop fuel' text (pos + String.length (tok_value identifier))
                          (tokens ++ [identifier])
          else if is_one_of "=!><" char then
            match _parse_operator text pos with
            | Raise e => Some (Raise e)
            | Ok operator =>
                tokenize_loop fuel' text (pos + String.length (tok_value operator))
                              (tokens ++ [operator])
            end
          else if is_one_of "()[],.@" char then
            tokenize_loop fuel' text (S pos)
                          (tokens ++ [Token TSymbol (String char EmptyString) pos])
          else
            Some (Raise (DSLParserException
                           ("Unknown character: " +:+ String char EmptyString)
                           (Some 1%Z) (Some (Z.of_nat pos + 1)%Z)))
      end
  end.

Definition _tokenize (text : string) : option (res (list token)) :=
  tokenize_loop (String.length text) text 0 [].

End Tokenizer.

(* ===================================================================== *)
(** ** Python values                                                      *)
(* ===================================================================== *)

Module PyValue.
Import Py.

(** JSON-like data: what a context, a details mapping or a bundle
    document holds.  A [dict] keeps its items in insertion order and its
    keys are strings. *)
#[warnings="-register-all"]
Inductive value : Type :=
| VNone
| VBool (b : bool)
| VInt (z : Z)
| VFloat (f : PrimFloat.float)
| VStr (s : string)
| VList (l : list value)
| VDict (d : list (string * value)).

(** *** [float]: exact comparison with [int], and [repr] *)

(** The exact value of a finite double as [(-1)^s * m * 2^e]. *)
Definition float_cmp_int (f : PrimFloat.float) (z : Z) : option comparison :=
  match Prim2SF f with
  | S754_nan => None
  | S754_zero _ => Some (0 ?= z)
  | S754_infinity s => Some (if s then Lt else Gt)
  | S754_finite s m e =>
      let n := if s then Z.neg m else Z.pos m in
      Some (if 0 <=? e then (n * 2 ^ e ?= z) else (n ?= z * 2 ^ (- e)))
  end.

Definition float_cmp (f g : PrimFloat.float) : option comparison :=
  match PrimFloat.compare f g with
  | FEq => Some Eq | FLt => Some Lt | FGt => Some Gt | FNotComparable => None
  end.

(** A positive rational [n / d], [d > 0]. *)
Definition rat_le (a b : Z * Z) : bool := fst a * snd b <=? fst b * snd a.
Definition rat_lt (a b : Z * Z) : bool := fst a * snd b <? fst b * snd a.
Definition rat_scale2 (a : Z * Z) (e : Z) : Z * Z :=
  if 0 <=? e then (fst a * 2 ^ e, snd a) else (fst a, snd a * 2 ^ (- e)).
Definition rat_scale10 (a : Z * Z) (e : Z) : Z * Z :=
  if 0 <=? e then (fst a * 10 ^ e, snd a) else (fst a, snd a * 10 ^ (- e)).

(** [floor (log10 (m * 2^e))], from an estimate corrected upwards. *)
Fixpoint log10_adjust (fuel : nat) (x : Z * Z) (k : Z) : Z :=
  match fuel with
  | O => k
  | S fuel' =>
      if rat_le (rat_scale10 (1, 1) (k + 1)) x then log10_adjust fuel' x (k + 1) else k
  end.
Definition floor_log10 (m e : Z) : Z :=
  log10_adjust 8 (rat_scale2 (m, 1) e) (((Z.log2 m + e) * 30103) / 100000 - 2).

(** The shortest decimal [d * 10^j] that reads back as the double
    [m * 2^e], the closest one when two have that length. *)
Definition roundtrips (m e : Z) (c : Z * Z) : bool :=
  let lower :=
    if (m =? 2 ^ 52) && (-1074 <? e)
    then rat_scale2 (4 * m - 1, 1) (e - 2)
    else rat_scale2 (2 * m - 1, 1) (e - 1) in
  let upper := rat_scale2 (2 * m + 1, 1) (e - 1) in
  if Z.even m then rat_le lower c && rat_le c upper
  else rat_lt lower c && rat_lt c upper.

Fixpoint shortest_digits (fuel : nat) (p : Z) (m e k : Z) : Z * Z :=
  let j := k - p + 1 in
  let scaled := rat_scale10 (rat_scale2 (m, 1) e) (- j) in
  let d_lo := fst scaled / snd scaled in
  let d_hi := d_lo + 1 in
  let ok_lo := roundtrips m e (rat_scale10 (d_lo, 1) j) in
  let ok_hi := roundtrips m e (rat_scale10 (d_hi, 1) j) in
  let toward := (2 * fst scaled ?= (2 * d_lo + 1) * snd scaled) in
  let pick :=
    match ok_lo, ok_hi with
    | true, true =>
        match toward with
        | Lt => Some d_lo
        | Gt => Some d_hi
        | Eq => Some (if Z.even d_lo then d_lo else d_hi)
        end
    | true, false => Some d_lo
    | false, true => Some d_hi
    | false, false => None
    end in
  match pick, fuel with
  | Some d, _ => (d, j)
  | None, S fuel' => shortest_digits fuel' (p + 1) m e k
  | None, O => (d_lo, j)
  end.

Fixpoint strip_zeros (fuel : nat) (d j : Z) : Z * Z :=
  match fuel with
  | O => (d, j)
  | S fuel' => if (d mod 10 =? 0) && negb (d =? 0) then strip_zeros fuel' (d / 10) (j + 1) else (d, j)
  end.

(** [repr(f)] for a finite non-zero magnitude [m * 2^e]. *)
Definition repr_finite (m e : Z) : string :=
  let '(d, j) := shortest_digits 17 1 m e (floor_log10 m e) in
  let '(d, j) := strip_zeros 20 d j in
  let ds := str_int d in
  let n := Z.of_nat (String.length ds) in
  let decpt := n + j in
  if (decpt <=? -4) || (16 <? decpt) then
    let ex := decpt - 1 in
    let mant :=
      if n =? 1 then ds else take 1 ds +:+ "." +:+ drop 1 ds in
    mant +:+ "e" +:+ (if ex <? 0 then "-" else "+") +:+ zfill 2 (Z.abs ex)
  else if decpt <=? 0 then
    "0." +:+ String.concat "" (repeat "0" (Z.to_nat (- decpt))) +:+ ds
  else if n <=? decpt then
    ds +:+ String.concat "" (repeat "0" (Z.to_nat (decpt - n))) +:+ ".0"
  else
    take (Z.to_nat decpt) ds +:+ "." +:+ drop (Z.to_nat decpt) ds.

Definition float_repr (f : PrimFloat.float) : string :=
  match Prim2SF f with
  | S754_nan => "nan"
  | S754_zero s => if s then "-0.0" else "0.0"
  | S754_infinity s => if s then "-inf" else "inf"
  | S754_finite s m e => (if s then "-" else "") +:+ repr_finite (Z.pos m) e
  end.

(** *** Dictionaries *)

Definition dict := list (string * value).

(** [d.get(k)]; [None] when [k not in d]. *)
Fixpoint dict_get (k : string) (d : dict) : option value :=
  match d with
  | [] => None
  | (k', v) :: r => if String.eqb k k' then Some v else dict_get k r
  end.

(** [k in d] *)
Definition dict_has (k : string) (d : dict) : bool :=
  match dict_get k d with Some _ => true | None => false end.

(** [d[k] = v]: an existing key keeps its place, a new one goes last. *)
Fixpoint dict_set (k : string) (v : value) (d : dict) : dict :=
  match d with
  | [] => [(k, v)]
  | (k', v') :: r =>
      if String.eqb k k' then (k, v) :: r else (k', v') :: dict_set k v r
  end.

(** [d.update(other)] *)
Definition dict_update (d other : dict) : dict :=
  fold_left (fun acc kv => dict_set (fst kv) (snd kv) acc) other d.

(** [d.get(k, default)] *)
Definition dict_get_default (k : string) (default : value) (d : dict) : value :=
  match dict_get k d with Some v => v | None => default end.

(** *** Truthiness, equality and ordering *)

(** [bool(v)] *)
Definition py_bool (v : value) : bool :=
  match v with
  | VNone => false
  | VBool b => b
  | VInt z => negb (z =? 0)
  | VFloat f => negb (PrimFloat.eqb f PrimFloat.zero)
  | VStr s => negb (String.eqb s "")
  | VList l => match l with [] => false | _ => true end
  | VDict d => match d with [] => false | _ => true end
  end.

(** [type(v).__name__] *)
Definition type_name (v : value) : string :=
  match v with
  | VNone => "NoneType"
  | VBool _ => "bool"
  | VInt _ => "int"
  | VFloat _ => "float"
  | VStr _ => "str"
  | VList _ => "list"
  | VDict _ => "dict"
  end.

(** The numeric tower: [bool] is an [int], and [int] compares exactly
    with [float]. *)
Inductive num := NInt (z : Z) | NFloat (f : PrimFloat.float).

Definition as_num (v : value) : option num :=
  match v with
  | VBool b => Some (NInt (if b then 1 else 0))
  | VInt z => Some (NInt z)
  | VFloat f => Some (NFloat f)
  | _ => None
  end.

Definition num_cmp (a b : num) : option comparison :=
  match a, b with
  | NInt x, NInt y => Some (x ?= y)
  | NFloat f, NInt y => float_cmp_int f y
  | NInt x, NFloat g => option_map CompOpp (float_cmp_int g x)
  | NFloat f, NFloat g => float_cmp f g
  end.

(** [a == b], by value.  (Python first compares the elements of two
    containers by identity, so that a list holding NaN equals itself;
    values have no identity here.) *)
Fixpoint py_eq (a b : value) {struct a} : bool :=
  match as_num a, as_num b with
  | Some x, Some y => match num_cmp x y with Some Eq => true | _ => false end
  | _, _ =>
      match a, b with
      | VNone, VNone => true
      | VStr s, VStr t => String.eqb s t
      | VList l, VList m =>
          (fix list_eq (l m : list value) : bool :=
             match l, m with
             | [], [] => true
             | x :: l', y :: m' => py_eq x y && list_eq l' m'
             | _, _ => false
             end) l m
      | VDict d, VDict e =>
          (length d =? length e)%nat &&
          (fix items_eq (d : list (string * value)) : bool :=
             match d with
             | [] => true
             | (k, v) :: d' =>
                 match dict_get k e with
                 | Some w => py_eq v w && items_eq d'
                 | None => false
                 end
             end) d
      | _, _ => false
      end
  end.

(** [x in l] for a list [l] *)
Definition py_in_list (x : value) (l : list value) : bool :=
  existsb (fun y => py_eq y x) l.

(** The four rich comparisons. *)
Inductive cmp_op := OpLt | OpLe | OpGt | OpGe.

Definition cmp_symbol (op : cmp_op) : string :=
  match op with OpLt => "<" | OpLe => "<=" | OpGt => ">" | OpGe => ">=" end.

Definition cmp_holds (op : cmp_op) (c : comparison) : bool :=
  match op, c with
  | OpLt, Lt | OpLe, Lt | OpLe, Eq | OpGt, Gt | OpGe, Gt | OpGe, Eq => true
  | _, _ => false
  end.

Definition not_supported (op : cmp_op) (a b : value) : exn :=
  PyExn TypeError ("'" +:+ cmp_symbol op +:+ "' not supported between instances of '"
                   +:+ type_name a +:+ "' and '" +:+ type_name b +:+ "'").

(** [a op b]; lists compare at their first differing position. *)
Fixpoint py_cmp (op : cmp_op) (a b : value) {struct a} : res bool :=
  match as_num a, as_num b with
  | Some x, Some y =>
      Ok (match num_cmp x y with Some c => cmp_holds op c | None => false end)
  | _, _ =>
      match a, b with
      | VStr s, VStr t => Ok (cmp_holds op (String.compare s t))
      | VList l, VList m =>
          (fix list_cmp (l m : list value) : res bool :=
             match l, m with
             | x :: l', y :: m' =>
                 if py_eq x y then list_cmp l' m' else py_cmp op x y
             | [], [] => Ok (cmp_holds op Eq)
             | [], _ :: _ => Ok (cmp_holds op Lt)
             | _ :: _, [] => Ok (cmp_holds op Gt)
             end) l m
      | _, _ => Raise (not_supported op a b)
      end
  end.

(** *** The container protocol on arbitrary values *)

(** [key in v] for a string [key]: a key of a [dict], an element of a
    [list], a substring of a [str]; any other value is not iterable. *)
Definition py_contains (key : string) (v : value) : res bool :=
  match v with
  | VDict d => Ok (dict_has key d)
  | VList l => Ok (py_in_list (VStr key) l)
  | VStr s => Ok (str_contains key s)
  | _ => Raise (PyExn TypeError
                 ("argument of type '" +:+ type_name v +:+ "' is not iterable"))
  end.

(** [v[key]] for a string [key] *)
Definition py_getitem (key : string) (v : value) : res value :=
  match v with
  | VDict d =>
      match dict_get key d with
      | Some x => Ok x
      | None => Raise (PyExn KeyError ("'" +:+ key +:+ "'"))
      end
  | VList _ => Raise (PyExn TypeError "list indices must be integers or slices, not str")
  | VStr _ => Raise (PyExn TypeError "string indices must be integers, not 'str'")
  | _ => Raise (PyExn TypeError ("'" +:+ type_name v +:+ "' object is not subscriptable"))
  end.

(** [for x in v]: the elements of a [list], the keys of a [dict], the
    characters of a [str]. *)
Definition py_iter (v : value) : res (list value) :=
  match v with
  | VList l => Ok l
  | VDict d => Ok (map (fun kv => VStr (fst kv)) d)
  | VStr s => Ok (map (fun c => VStr (String c EmptyString)) (list_ascii_of_string s))
  | _ => Raise (PyExn TypeError ("'" +:+ type_name v +:+ "' object is not iterable"))
  end.

(** [v.get(key, default)]: only a [dict] has the method. *)
Definition py_get (key : string) (default : value) (v : value) : res value :=
  match v with
  | VDict d => Ok (dict_get_default key default d)
  | _ => Raise (PyExn AttributeError
                 ("'" +:+ type_name v +:+ "' object has no attribute 'get'"))
  end.

(** *** [sorted] *)

(** [sorted(l, key=key)] for string keys: stable, by [<] on the keys. *)
Fixpoint insert_by {A} (key : A -> string) (x : A) (l : list A) : list A :=
  match l with
  | [] => [x]
  | y :: r =>
      if String.ltb (key y) (key x) then y :: insert_by key x r else x :: y :: r
  end.

Fixpoint sorted_by {A} (key : A -> string) (l : list A) : list A :=
  match l with
  | [] => []
  | x :: r => insert_by key x (sorted_by key r)
  end.

(** *** [repr] and [str] *)

Definition repr_char (quote : ascii) (c : ascii) : string :=
  if Ascii.eqb c "\" then "\\"
  else if Ascii.eqb c quote then String "\" (String c EmptyString)
  else if ord c =? 9 then "\t"
  else if ord c =? 10 then "\n"
  else if ord c =? 13 then "\r"
  else if isprintable c then String c EmptyString
  else "\x" +:+ hex2 (ord c).

Definition has_char (c : ascii) (s : string) : bool :=
  existsb (Ascii.eqb c) (list_ascii_of_string s).

Definition repr_str (s : string) : string :=
  let quote : ascii :=
    if has_char "'" s && negb (has_char dquote s) then dquote else "'"%char in
  String quote (String.concat "" (map (repr_char quote) (list_ascii_of_string s)))
  +:+ String quote EmptyString.

Fixpoint py_repr (v : value) : string :=
  match v with
  | VNone => "None"
  | VBool b => if b then "True" else "False"
  | VInt z => str_int z
  | VFloat f => float_repr f
  | VStr s => repr_str s
  | VList l => "[" +:+ join ", " (map py_repr l) +:+ "]"
  | VDict d =>
      "{" +:+ join ", "
        ((fix items (d : list (string * value)) : list string :=
            match d with
            | [] => []
            | (k, v) :: d' => (repr_str k +:+ ": " +:+ py_repr v) :: items d'
            end) d) +:+ "}"
  end.

(** [str(v)] *)
Definition py_str (v : value) : string :=
  match v with
  | VStr s => s
  | _ => py_repr v
  end.

(** [str(sorted(d.items()))]: a list of [(key, value)] tuples. *)
Definition repr_sorted_items (d : dict) : string :=
  "[" +:+ join ", "
    (map (fun kv => "(" +:+ repr_str (fst kv) +:+ ", " +:+ py_repr (snd kv) +:+ ")")
         (sorted_by fst d)) +:+ "]".

End PyValue.

(* ===================================================================== *)
(** ** json.dumps                                                         *)
(* ===================================================================== *)

Module json.
Import Py PyValue.

(** [ensure_ascii] escaping of one character. *)
Definition escape_char (c : ascii) : string :=
  if Ascii.eqb c dquote then String "\" (String dquote EmptyString)
  else if Ascii.eqb c "\" then "\\"
  else if ord c =? 10 then "\n"
  else if ord c =? 13 then "\r"
  else if ord c =? 9 then "\t"
  else if ord c =? 8 then "\b"
  else if ord c =? 12 then "\f"
  else if in_range 32 126 c then String c EmptyString
  else "\u00" +:+ hex2 (ord c).

Definition encode_str (s : string) : string :=
  String dquote EmptyString
  +:+ String.concat "" (map escape_char (list_ascii_of_string s))
  +:+ String dquote EmptyString.

Definition encode_float (f : PrimFloat.float) : string :=
  match Prim2SF f with
  | S754_nan => "NaN"
  | S754_infinity s => if s then "-Infinity" else "Infinity"
  | _ => float_repr f
  end.

(** [json.dumps(v, sort_keys=True)] with the default separators. *)
Fixpoint dumps_sorted (v : value) : string :=
  match v with
  | VNone => "null"
  | VBool b => if b then "true" else "false"
  | VInt z => str_int z
  | VFloat f => encode_float f
  | VStr s => encode_str s
  | VList l => "[" +:+ join ", " (map dumps_sorted l) +:+ "]"
  | VDict d =>
      let rendered :=
        (fix items (d : list (string * value)) : list (string * string) :=
           match d with
           | [] => []
           | (k, v) :: d' => (k, dumps_sorted v) :: items d'
           end) d in
      "{" +:+ join ", "
        (map (fun kv => encode_str (fst kv) +:+ ": " +:+ snd kv)
             (sorted_by fst rendered)) +:+ "}"
  end.

End json.

(* ===================================================================== *)
(** ** datetime                                                           *)
(* ===================================================================== *)

Module datetime.
Import Py PyValue.

(** A [datetime.datetime].  [tzinfo] is the UTC offset of an aware value
    in whole minutes ([Some 0] for [timezone.utc]); [None] is a naive
    value. *)
Record t := DateTime {
  year : Z; month : Z; day : Z;
  hour : Z; minute : Z; second : Z; microsecond : Z;
  tzinfo : option Z
}.

(** A [datetime.timedelta], in microseconds. *)
Definition timedelta := Z.

Definition is_leap (y : Z) : bool :=
  (y mod 4 =? 0) && (negb (y mod 100 =? 0) || (y mod 400 =? 0)).

Definition days_in_month (y m : Z) : Z :=
  if m =? 2 then (if is_leap y then 29 else 28)
  else if (m =? 4) || (m =? 6) || (m =? 9) || (m =? 11) then 30 else 31.

Definition valid (d : t) : bool :=
  (1 <=? year d) && (year d <=? 9999) && (1 <=? month d) && (month d <=? 12)
  && (1 <=? day d) && (day d <=? days_in_month (year d) (month d))
  && (0 <=? hour d) && (hour d <? 24) && (0 <=? minute d) && (minute d <? 60)
  && (0 <=? second d) && (second d <? 60)
  && (0 <=? microsecond d) && (microsecond d <? 1000000)
  && match tzinfo d with
     | None => true
     | Some off => (-1440 <? off) && (off <? 1440)
     end.

(** Fixed-width decimal: the [w] low digits of [n], as [f"{n:0wd}"]
    prints a number [0 <= n < 10^w]. *)
Definition digit_char (d : Z) : ascii := chr (48 + d).

Fixpoint fixed_dec (w : nat) (n : Z) : list ascii :=
  match w with
  | O => []
  | S w' => fixed_dec w' (n / 10) ++ [digit_char (n mod 10)]
  end.

Definition tz_suffix (tz : option Z) : list ascii :=
  match tz with
  | None => []
  | Some off =>
      (if off <? 0 then "-"%char else "+"%char)
        :: fixed_dec 2 (Z.abs off / 60) ++ ":"%char :: fixed_dec 2 (Z.abs off mod 60)
  end.

Definition isoformat_chars (d : t) : list ascii :=
  fixed_dec 4 (year d) ++ "-"%char :: fixed_dec 2 (month d) ++ "-"%char
    :: fixed_dec 2 (day d) ++ "T"%char :: fixed_dec 2 (hour d) ++ ":"%char
    :: fixed_dec 2 (minute d) ++ ":"%char :: fixed_dec 2 (second d)
    ++ (if microsecond d =? 0 then [] else "."%char :: fixed_dec 6 (microsecond d))
    ++ tz_suffix (tzinfo d).

(** [d.isoformat()] *)
Definition isoformat (d : t) : string := string_of_list_ascii (isoformat_chars d).

(** Reading exactly [w] decimal digits. *)
Definition digit_val (c : ascii) : option Z :=
  if in_range 48 57 c then Some (ord c - 48) else None.

Fixpoint take_num (w : nat) (acc : Z) (cs : list ascii) : option (Z * list ascii) :=
  match w with
  | O => Some (acc, cs)
  | S w' =>
      match cs with
      | c :: r =>
          match digit_val c with
          | Some d => take_num w' (10 * acc + d) r
          | None => None
          end
      | [] => None
      end
  end.

Definition expect (c : ascii) (cs : list ascii) : option (list ascii) :=
  match cs with
  | c' :: r => if Ascii.eqb c' c then Some r else None
  | [] => None
  end.

Definition parse_tz (cs : list ascii) : option (option Z) :=
  match cs with
  | [] => Some None
  | s :: r =>
      if Ascii.eqb s "+" || Ascii.eqb s "-" then
        '(hh, r) ← take_num 2 0 r;
        r ← expect ":" r;
        '(mm, r) ← take_num 2 0 r;
        match r with
        | [] => Some (Some ((if Ascii.eqb s "-" then -1 else 1) * (60 * hh + mm)))
        | _ => None
        end
      else None
  end.

Definition parse_fraction (cs : list ascii) : option (Z * list ascii) :=
  match cs with
  | "."%char :: r => take_num 6 0 r
  | _ => Some (0, cs)
  end.

Definition parse_chars (cs : list ascii) : option t :=
  '(y, cs) ← take_num 4 0 cs;
  cs ← expect "-" cs;
  '(mo, cs) ← take_num 2 0 cs;
  cs ← expect "-" cs;
  '(d, cs) ← take_num 2 0 cs;
  match cs with
  | [] => Some (DateTime y mo d 0 0 0 0 None)
  | _sep :: cs =>
      '(h, cs) ← take_num 2 0 cs;
      cs ← expect ":" cs;
      '(mi, cs) ← take_num 2 0 cs;
      cs ← expect ":" cs;
      '(s, cs) ← take_num 2 0 cs;
      '(us, cs) ← parse_fraction cs;
      tz ← parse_tz cs;
      Some (DateTime y mo d h mi s us tz)
  end.

(** [datetime.fromisoformat(s)], for the strings [isoformat] produces
    (date, any separator, [HH:MM:SS], an optional six-digit fraction, an
    optional [+HH:MM] offset) and for a date alone; any other string is
    answered with [ValueError].  (Python accepts a few more forms, such
    as a time without seconds; they are outside this model.) *)
Definition fromisoformat (s : string) : res t :=
  match parse_chars (list_ascii_of_string s) with
  | Some d =>
      if valid d then Ok d
      else Raise (PyExn ValueError ("Invalid isoformat string: " +:+ repr_str s))
  | None => Raise (PyExn ValueError ("Invalid isoformat string: " +:+ repr_str s))
  end.

(** *** Arithmetic and comparison *)

Definition days_before_year (y : Z) : Z :=
  (y - 1) * 365 + (y - 1) / 4 - (y - 1) / 100 + (y - 1) / 400.

Definition days_before_month (y m : Z) : Z :=
  fold_left (fun acc k => acc + days_in_month y (Z.of_nat k)) (seq 1 (Z.to_nat (m - 1))) 0.

Definition toordinal (d : t) : Z :=
  days_before_year (year d) + days_before_month (year d) (month d) + day d.

(** Microseconds since the start of day 0 on the value's own clock. *)
Definition local_us (d : t) : Z :=
  (((toordinal d * 24 + hour d) * 60 + minute d) * 60 + second d) * 1000000
  + microsecond d.

(** A point in time: what [d + delta] yields; every [datetime] is one. *)
Record instant := Instant { i_local : Z; i_offset : option Z }.

Definition to_instant (d : t) : instant := Instant (local_us d) (tzinfo d).

Definition instant_cmp (a b : instant) : res comparison :=
  match i_offset a, i_offset b with
  | None, None => Ok (i_local a ?= i_local b)
  | Some x, Some y =>
      Ok (i_local a - x * 60000000 ?= i_local b - y * 60000000)
  | _, _ => Raise (PyExn TypeError "can't compare offset-naive and offset-aware datetimes")
  end.

(** [a - b] for two datetimes *)
Definition sub (a b : instant) : res timedelta :=
  match i_offset a, i_offset b with
  | None, None => Ok (i_local a - i_local b)
  | Some x, Some y =>
      Ok ((i_local a - x * 60000000) - (i_local b - y * 60000000))
  | _, _ => Raise (PyExn TypeError "can't subtract offset-naive and offset-aware datetimes")
  end.

Definition min_local : Z := local_us (DateTime 1 1 1 0 0 0 0 None).
Definition max_local : Z := local_us (DateTime 9999 12 31 23 59 59 999999 None).

(** [a + delta] *)
Definition add (a : instant) (delta : timedelta) : res instant :=
  let r := i_local a + delta in
  if (min_local <=? r) && (r <=? max_local) then Ok (Instant r (i_offset a))
  else Raise (PyExn OverflowError "date value out of range").

(** [timedelta(seconds=v)] for an [int]: the day count has to fit. *)
Definition timedelta_of_us (us : Z) : res timedelta :=
  let days := us / 86400000000 in
  if (days <? - 2 ^ 31) || (2 ^ 31 <=? days) then
    Raise (PyExn OverflowError "Python int too large to convert to C int")
  else if (days <? -999999999) || (999999999 <? days) then
    Raise (PyExn OverflowError
             ("days=" +:+ str_int days +:+ "; must have magnitude <= 999999999"))
  else Ok us.

(** The microseconds of [timedelta(seconds=f)] for a finite [float]: the
    whole seconds exactly, the fraction times [1e6] in double arithmetic,
    what is left rounded half to even. *)
Definition trunc_float (f : PrimFloat.float) : Z :=
  match Prim2SF f with
  | S754_finite s m e =>
      let n := if 0 <=? e then Z.pos m * 2 ^ e else Z.pos m / 2 ^ (- e) in
      if s then - n else n
  | _ => 0
  end.

Definition float_of_Z (z : Z) : PrimFloat.float :=
  SF2Prim (binary_normalize prec emax z 0 false).

Definition round_half_even (f : PrimFloat.float) (x_is_odd : bool) : Z :=
  let lo := trunc_float (if PrimFloat.ltb f 0 then PrimFloat.sub f 1 else f) in
  let lo := if PrimFloat.eqb (float_of_Z (lo + 1)) f then lo + 1 else lo in
  let frac := PrimFloat.sub f (float_of_Z lo) in
  match PrimFloat.compare frac 0.5 with
  | FLt => lo
  | FGt => lo + 1
  | _ => if Bool.eqb (Z.odd lo) x_is_odd then lo else lo + 1
  end.

Definition float_seconds_us (f : PrimFloat.float) : Z :=
  let whole := trunc_float f in
  let fracpart := PrimFloat.sub f (float_of_Z whole) in
  let x := whole * 1000000 in
  if PrimFloat.eqb fracpart 0 then x
  else
    let dnum := PrimFloat.mul 1000000 fracpart in
    let whole_us := trunc_float dnum in
    let leftover := PrimFloat.sub dnum (float_of_Z whole_us) in
    let x := x + whole_us in
    if PrimFloat.eqb leftover 0 then x else x + round_half_even leftover (Z.odd x).

(** [timedelta(seconds=v)] when [isinstance(v, (int, float))] *)
Definition timedelta_seconds (v : value) : res timedelta :=
  match v with
  | VInt z => timedelta_of_us (z * 1000000)
  | VBool b => timedelta_of_us (if b then 1000000 else 0)
  | VFloat f =>
      match Prim2SF f with
      | S754_nan => Raise (PyExn ValueError "cannot convert float NaN to integer")
      | S754_infinity _ =>
          Raise (PyExn OverflowError "cannot convert float infinity to integer")
      | _ => timedelta_of_us (float_seconds_us f)
      end
  | _ => Raise (PyExn TypeError
                 ("unsupported type for timedelta seconds component: " +:+ type_name v))
  end.

End datetime.

(* ===================================================================== *)
(** ** Secondary indexes shared by the two managers                       *)
(* ===================================================================== *)

Module Index.

(** An index maps a property value to the list of record ids. *)
Abbreviation index := (gmap string (list string)).

(** [if k not in idx: idx[k] = []] followed by [idx[k].append(id)] *)
Definition append (k id : string) (idx : index) : index :=
  <[k := default [] (idx !! k) ++ [id]]> idx.

(** [l.remove(x)]: the first occurrence goes. *)
Fixpoint remove_first (x : string) (l : list string) : list string :=
  match l with
  | [] => []
  | y :: r => if String.eqb y x then r else y :: remove_first x r
  end.

(** [if k in idx: if id in idx[k]: idx[k].remove(id)] *)
Definition remove (k id : string) (idx : index) : index :=
  match idx !! k with
  | Some l => <[k := remove_first id l]> idx
  | None => idx
  end.

(** [idx.get(k, []).copy()] *)
Definition get (k : string) (idx : index) : list string := default [] (idx !! k).

End Index.

(* ===================================================================== *)
(** ** glassbox/evidence_manager.py                                       *)
(* ===================================================================== *)

Module Evidence.
Import Py PyValue.

Definition VALID_EVIDENCE_TYPES : list string :=
  ["log"; "document"; "metric"; "user_input"; "system_event"].

(** An evidence dictionary. *)
Record evidence := MkEvidence {
  ev_id : string;
  ev_type : string;
  ev_content : value;
  ev_timestamp : string;
  ev_source : string;
  ev_hash : string
}.

(** The manager: [evidence_store] and [indexes]. *)
Record manager := Manager {
  evidence_store : gmap string evidence;
  by_type : Index.index;
  by_source : Index.index;
  by_timestamp : Index.index
}.

Definition init : manager := Manager ∅ ∅ ∅ ∅.

(** The result of a verification. *)
Record verification := Verification {
  valid : bool;
  stored_hash : option string;
  calculated_hash : option string;
  reason : string
}.

Definition _calculate_hash (content : value) : string :=
  hashlib.sha256_hex (json.dumps_sorted content).

Definition _update_indexes (e : evidence) (m : manager) : manager :=
  let date_key := take 10 (ev_timestamp e) in
  Manager (evidence_store m)
          (Index.append (ev_type e) (ev_id e) (by_type m))
          (Index.append (ev_source e) (ev_id e) (by_source m))
          (Index.append date_key (ev_id e) (by_timestamp m)).

Definition _store_evidence (e : evidence) (m : manager) : manager :=
  _update_indexes e
    (Manager (<[ev_id e := e]> (evidence_store m)) (by_type m) (by_source m) (by_timestamp m)).

Definition is_empty_opt (o : option string) : bool :=
  match o with None => true | Some s => String.eqb s "" end.

(** [create_evidence]; [now_local] is what [datetime.now()] reads when an
    id has to be generated, [now_utc] what [datetime.now(timezone.utc)]
    reads for the time stamp. *)
Definition create_evidence (now_local now_utc : datetime.t)
    (evidence_type : string) (content : value) (source : string)
    (evidence_id : option string) (m : manager) : res evidence * manager :=
  if negb (existsb (String.eqb evidence_type) VALID_EVIDENCE_TYPES) then
    (Raise (EvidenceException ("Invalid evidence type: " +:+ evidence_type) None), m)
  else if negb (py_bool content) then
    (Raise (EvidenceException "Evidence content cannot be empty" None), m)
  else
    let evidence_id :=
      if is_empty_opt evidence_id then
        "evd_" +:+ take 16 (hashlib.md5_hex
          (evidence_type +:+ "_" +:+ source +:+ "_" +:+ datetime.isoformat now_local))
      else default "" evidence_id in
    let timestamp := now_utc in
    let e := MkEvidence evidence_id evidence_type content
               (datetime.isoformat timestamp) source (_calculate_hash content) in
    (Ok e, _store_evidence e m).

Definition get_evidence (evidence_id : string) (m : manager) : option evidence :=
  evidence_store m !! evidence_id.

Definition get_evidence_by_type (evidence_type : string) (m : manager) : list string :=
  Index.get evidence_type (by_type m).
Definition get_evidence_by_source (source : string) (m : manager) : list string :=
  Index.get source (by_source m).

Definition verify_evidence_integrity (evidence_id : string) (m : manager) : verification :=
  match get_evidence evidence_id m with
  | None => Verification false None None "Evidence not found"
  | Some e =>
      let current_hash := _calculate_hash (ev_content e) in
      let stored_hash := ev_hash e in
      if String.eqb stored_hash "" then
        Verification false None None "No hash stored for evidence"
      else
        let is_valid := String.eqb current_hash stored_hash in
        Verification is_valid (Some stored_hash) (Some current_hash)
          (if is_valid then "Hashes match" else "Hashes do not match")
  end.

Definition _remove_from_indexes (e : evidence) (m : manager) : manager :=
  let date_key := take 10 (ev_timestamp e) in
  Manager (evidence_store m)
          (Index.remove (ev_type e) (ev_id e) (by_type m))
          (Index.remove (ev_source e) (ev_id e) (by_source m))
          (Index.remove date_key (ev_id e) (by_timestamp m)).

Definition delete_evidence (evidence_id : string) (m : manager) : bool * manager :=
  match get_evidence evidence_id m with
  | None => (false, m)
  | Some e =>
      (true,
       _remove_from_indexes e
         (Manager (delete evidence_id (evidence_store m))
                  (by_type m) (by_source m) (by_timestamp m)))
  end.

End Evidence.

(* ===================================================================== *)
(** ** glassbox/audit_trail.py                                            *)
(* ===================================================================== *)

Module Audit.
Import Py PyValue.

(** An audit entry dictionary. *)
Record entry := MkEntry {
  ae_id : string;
  ae_timestamp : string;
  ae_action : string;
  ae_user : string;
  ae_details : value;
  ae_bundle_id : option string;
  ae_hash : string
}.

Definition set_bundle_id (b : option string) (e : entry) : entry :=
  MkEntry (ae_id e) (ae_timestamp e) (ae_action e) (ae_user e) (ae_details e) b (ae_hash e).

(** An audit bundle dictionary.  Its ['entries'] are the entry objects of
    the store themselves, so they are kept as references. *)
Record bundle := MkBundle {
  b_id : string;
  b_name : string;
  b_description : string;
  b_created : string;
  b_modified : string;
  b_version : string;
  b_entry_count : nat;
  b_bundle_hash : string;
  b_entries : list nat;
  b_checksum : string
}.

(** The trail.  [objects] holds the entry dictionaries the store and the
    bundles refer to; [audit_store] maps an id to its object. *)
Record trail := Trail {
  objects : gmap nat entry;
  audit_store : gmap string nat;
  bundles : gmap string bundle;
  by_user : Index.index;
  by_action : Index.index;
  by_timestamp : Index.index;
  by_bundle : Index.index
}.

Definition init : trail := Trail ∅ ∅ ∅ ∅ ∅ ∅ ∅.

Record verification := Verification {
  valid : bool;
  stored_hash : option string;
  calculated_hash : option string;
  reason : string
}.

Definition _calculate_hash (action user : string) (details : value)
    (timestamp : datetime.t) : string :=
  hashlib.sha256_hex
    (action +:+ ":" +:+ user +:+ ":" +:+ json.dumps_sorted details +:+ ":"
     +:+ datetime.isoformat timestamp).

(** [sorted(entries, key=lambda x: x['timestamp'])], then the digest of
    the hashes fed in that order. *)
Definition _calculate_bundle_checksum (entries : list entry) : string :=
  hashlib.sha256_hex
    (String.concat "" (map ae_hash (sorted_by ae_timestamp entries))).

Definition _update_indexes (e : entry) (t : trail) : trail :=
  let date_key := take 10 (ae_timestamp e) in
  Trail (objects t) (audit_store t) (bundles t)
        (Index.append (ae_user e) (ae_id e) (by_user t))
        (Index.append (ae_action e) (ae_id e) (by_action t))
        (Index.append date_key (ae_id e) (by_timestamp t))
        (match ae_bundle_id e with
         | Some b => if String.eqb b "" then by_bundle t
                     else Index.append b (ae_id e) (by_bundle t)
         | None => by_bundle t
         end).

(** A reference no object of the trail has yet. *)
Definition new_ref (t : trail) : nat := fresh (dom (objects t)).

(** [self.audit_store[audit_id] = audit_entry.copy()], then the indexes. *)
Definition _store_audit_entry (e : entry) (t : trail) : trail :=
  let r := new_ref t in
  _update_indexes e
    (Trail (<[r := e]> (objects t)) (<[ae_id e := r]> (audit_store t)) (bundles t)
           (by_user t) (by_action t) (by_timestamp t) (by_bundle t)).

Definition is_empty_opt (o : option string) : bool :=
  match o with None => true | Some s => String.eqb s "" end.

Definition create_audit_entry (now_local now_utc : datetime.t)
    (action user : string) (details : value)
    (audit_id bundle_id : option string) (t : trail) : res entry * trail :=
  if String.eqb action "" then
    (Raise (AuditException "Action cannot be empty" None), t)
  else if String.eqb user "" then
    (Raise (AuditException "User cannot be empty" None), t)
  else
    let audit_id :=
      if is_empty_opt audit_id then
        "aud_" +:+ take 16 (hashlib.md5_hex
          (action +:+ "_" +:+ user +:+ "_" +:+ datetime.isoformat now_local))
      else default "" audit_id in
    let timestamp := now_utc in
    let e := MkEntry audit_id (datetime.isoformat timestamp) action user details
               bundle_id (_calculate_hash action user details timestamp) in
    (Ok e, _store_audit_entry e t).

(** [self.audit_store.get(audit_id)]: the object and its reference. *)
Definition get_audit_entry_ref (audit_id : string) (t : trail) : option nat :=
  audit_store t !! audit_id.

Definition get_audit_entry (audit_id : string) (t : trail) : option entry :=
  r ← get_audit_entry_ref audit_id t; objects t !! r.

Definition get_audit_entries_by_user (user : string) (t : trail) : list string :=
  Index.get user (by_user t).
Definition get_audit_entries_by_action (action : string) (t : trail) : list string :=
  Index.get action (by_action t).
Definition get_audit_entries_by_bundle (bundle_id : string) (t : trail) : list string :=
  Index.get bundle_id (by_bundle t).

Definition verify_audit_entry_integrity (audit_id : string) (t : trail) : res verification :=
  match get_audit_entry audit_id t with
  | None => Ok (Verification false None None "Audit entry not found")
  | Some e =>
      timestamp ← datetime.fromisoformat (replace "Z" "+00:00" (ae_timestamp e));
      let current_hash :=
        _calculate_hash (ae_action e) (ae_user e) (ae_details e) timestamp in
      let stored_hash := ae_hash e in
      if String.eqb stored_hash "" then
        Ok (Verification false None None "No hash stored for audit entry")
      else
        let is_valid := String.eqb current_hash stored_hash in
        Ok (Verification is_valid (Some stored_hash) (Some current_hash)
              (if is_valid then "Hashes match" else "Hashes do not match"))
  end.

(** The first loop of [create_audit_bundle]: look each id up, verify it,
    collect the object and feed its hash to the running digest (kept here
    as the text fed so far). *)
Fixpoint collect_entries (audit_ids : list string) (t : trail)
    (entries : list nat) (fed : string) : res (list nat * string) :=
  match audit_ids with
  | [] => Ok (entries, fed)
  | audit_id :: rest =>
      match get_audit_entry_ref audit_id t, get_audit_entry audit_id t with
      | Some r, Some e =>
          verification ← verify_audit_entry_integrity audit_id t;
          if negb (valid verification) then
            Raise (AuditException ("Audit entry integrity check failed: " +:+ audit_id) None)
          else
            collect_entries rest t (entries ++ [r]) (fed +:+ ae_hash e)
      | _, _ => Raise (AuditException ("Audit entry not found: " +:+ audit_id) None)
      end
  end.

(** The objects a list of references denotes. *)
Definition deref (t : trail) (refs : list nat) : list entry :=
  omap (fun r => objects t !! r) refs.

(** The last loop of [create_audit_bundle]: [entry['bundle_id'] = bundle_id]
    on the stored object of every id. *)
Fixpoint mark_entries (audit_ids : list string) (bundle_id : string)
    (objs : gmap nat entry) (store : gmap string nat) : gmap nat entry :=
  match audit_ids with
  | [] => objs
  | audit_id :: rest =>
      let objs' :=
        match store !! audit_id with
        | Some r => alter (set_bundle_id (Some bundle_id)) r objs
        | None => objs
        end in
      mark_entries rest bundle_id objs' store
  end.

Definition create_audit_bundle (now_local now_utc : datetime.t)
    (name description : string) (audit_ids : list string)
    (bundle_id : option string) (t : trail) : res bundle * trail :=
  if String.eqb name "" then
    (Raise (AuditException "Bundle name cannot be empty" None), t)
  else if match audit_ids with [] => true | _ => false end then
    (Raise (AuditException "Audit IDs list cannot be empty" None), t)
  else
    let bundle_id :=
      if is_empty_opt bundle_id then
        "bundle_" +:+ take 16 (hashlib.md5_hex
          (name +:+ "_" +:+ datetime.isoformat now_local))
      else default "" bundle_id in
    match collect_entries audit_ids t [] "" with
    | Raise e => (Raise e, t)
    | Ok (entries, fed) =>
        let timestamp := now_utc in
        let b := MkBundle bundle_id name description
                   (datetime.isoformat timestamp) (datetime.isoformat timestamp)
                   "1.0" (length entries) (hashlib.sha256_hex fed) entries
                   (_calculate_bundle_checksum (deref t entries)) in
        (Ok b,
         Trail (mark_entries audit_ids bundle_id (objects t) (audit_store t))
               (audit_store t) (<[bundle_id := b]> (bundles t))
               (by_user t) (by_action t) (by_timestamp t) (by_bundle t))
    end.

Definition get_audit_bundle (bundle_id : string) (t : trail) : option bundle :=
  bundles t !! bundle_id.

End Audit.

(* ===================================================================== *)
(** ** DSL evaluator: glassbox/dsl_parser.py, class DSLEvaluator          *)
(* ===================================================================== *)

Module DSL.
Import Py PyValue.

(** *** The AST, one variant per ['type'] tag the parser builds *)

Inductive node :=
| VariableNode (name : string)
| StringValue (value : string)
| NumberValue (value : value)
| BooleanValue (value : bool)
| DatetimeValue (value : string)
| OtherNode (type : string).

Inductive condition :=
| SimpleCondition (left : node) (operator : string) (right : node)
| ListCondition (variable : node) (values : list node)
| PatternCondition (variable : node) (operator : string) (pattern : node)
| TemporalCondition (variable : node) (operator : string) (value : node)
| CompoundCondition (left : condition) (operator : string) (right : condition)
| NotCondition (inner : condition)
| VariableCondition (variable : node)
| OtherCondition (type : string).

Inductive bexpr :=
| NotExpression (expression : bexpr)
| BooleanExpression (left : bexpr) (operator : string) (right : bexpr)
| BooleanLiteral (value : bool)
| VariableExpression (variable : node).

Inductive consequence :=
| Constraint (variable : node) (operator : string) (value : node)
| InConstraint (variable : node) (values : list node)
| NotInConstraint (variable : node) (values : list node)
| BetweenConstraint (variable lower upper : node)
| Requirement (keyword : string) (variable : node)
| Expression (e : bexpr)
| OtherConsequence (type : string).

Record action := Action { action_type : string; action_variable : node }.

Inductive ast :=
| Rule (cond : condition) (conseq : option consequence) (act : option action)
| OtherAst (type : string).

(** *** Results *)

(** A value of a temporal condition: as found, or converted by
    [datetime.fromisoformat]. *)
Inductive tval := TVal (v : value) | TDatetime (d : datetime.t).

Inductive cond_result :=
| RSimple (result : bool) (left : value) (operator : string) (right : value)
| RList (result : bool) (variable : value) (list_values : list value)
| RPattern (result : bool) (variable pattern operator : string)
| RTemporal (result : bool) (variable : tval) (operator : string) (value : tval)
| RCompound (result : bool) (left right : cond_result) (operator : string)
| RNot (result : bool) (inner : cond_result)
| RVariable (result : bool) (variable : value).

(** [r['result']] *)
Definition cr_result (r : cond_result) : bool :=
  match r with
  | RSimple b _ _ _ | RList b _ _ | RPattern b _ _ _ | RTemporal b _ _ _
  | RCompound b _ _ _ | RNot b _ | RVariable b _ => b
  end.

Inductive bexpr_result :=
| BNot (result : bool) (inner : bexpr_result)
| BBin (result : bool) (left right : bexpr_result) (operator : string)
| BLeaf (result : bool) (reason : string).

Definition br_result (r : bexpr_result) : bool :=
  match r with BNot b _ | BBin b _ _ _ | BLeaf b _ => b end.

Inductive cons_result :=
| KConstraint (result : bool) (variable : value) (operator : string) (value : value)
| KList (result : bool) (variable : value) (list_values : list value)
| KBetween (result : bool) (variable lower upper : value)
| KRequirement (result : bool) (variable : value) (requirement : string)
| KExpression (r : bexpr_result).

Definition kr_result (r : cons_result) : bool :=
  match r with
  | KConstraint b _ _ _ | KList b _ _ | KBetween b _ _ _ | KRequirement b _ _ => b
  | KExpression r => br_result r
  end.

(** [r.get('reason', 'Consequence evaluated')] *)
Definition kr_reason (r : cons_result) : string :=
  match r with
  | KExpression (BLeaf _ reason) => reason
  | _ => "Consequence evaluated"
  end.

Record action_result := ActionResult {
  ar_action_type : string; ar_variable : value; ar_executed : bool
}.

Inductive details :=
| DCondition (condition : cond_result)
| DConsequence (condition : cond_result) (consequence : cons_result)
| DAction (condition : cond_result) (action : action_result).

(** What [evaluate] returns. *)
Record outcome := Outcome {
  result : bool;
  reason : string;
  outcome_details : option details;
  error : option string
}.

(** *** Names the module can see *)

(** The global names of glassbox/dsl_parser.py: its imports and its two
    classes.  No other name is bound there, and none of the names used
    below is a built-in. *)
Definition module_globals : list string :=
  ["re"; "json"; "datetime"; "timedelta"; "Dict"; "List"; "Any"; "Optional";
   "Union"; "Callable"; "DSLParserException"; "DSLParser"; "DSLEvaluator"].

Definition load_global (name : string) : res unit :=
  if existsb (String.eqb name) module_globals then Ok tt
  else Raise (PyExn NameError ("name '" +:+ name +:+ "' is not defined")).

Section Evaluator.

(** The host's [re.search(pattern, s)] and [re.match(pattern, s)], as
    the truth value of the match object or the exception raised. *)
Variable re_search re_match : string -> string -> res bool.

(** What the clock would answer to [datetime.now(...)]. *)
Variable now : datetime.t.

Definition _get_variable_value (variable_name : string) (context : dict) : value :=
  (fix walk (parts : list string) (v : value) : value :=
     match parts with
     | [] => v
     | part :: rest =>
         match v with
         | VDict d =>
             match dict_get part d with
             | Some v' => walk rest v'
             | None => VNone
             end
         | _ => VNone
         end
     end) (split "." variable_name) (VDict context).

Definition _get_value (n : node) (context : dict) : res value :=
  match n with
  | VariableNode name => Ok (_get_variable_value name context)
  | StringValue v => Ok (VStr v)
  | NumberValue v => Ok v
  | BooleanValue v => Ok (VBool v)
  | DatetimeValue v => Ok (VStr v)
  | OtherNode type => Raise (PyExn ValueError ("Unknown node type: " +:+ type))
  end.

Definition _apply_operator (left : value) (operator : string) (right : value) : res bool :=
  catch_type_value
    (if String.eqb operator "=" then Ok (py_eq left right)
     else if String.eqb operator "!=" then Ok (negb (py_eq left right))
     else if String.eqb operator ">" then py_cmp OpGt left right
     else if String.eqb operator ">=" then py_cmp OpGe left right
     else if String.eqb operator "<" then py_cmp OpLt left right
     else if String.eqb operator "<=" then py_cmp OpLe left right
     else if String.eqb operator "LIKE" then
       match right with
       | VStr r =>
           let pattern := replace "_" "." (replace "%" ".*" r) in
           re_match ("^" +:+ pattern +:+ "$") (py_str left)
       | _ => Raise (PyExn AttributeError
                       ("'" +:+ type_name right +:+ "' object has no attribute 'replace'"))
       end
     else Ok false)
    false.

(** [[self._get_value(v, context) for v in values]] *)
Fixpoint get_values (values : list node) (context : dict) : res (list value) :=
  match values with
  | [] => Ok []
  | v :: rest =>
      x ← _get_value v context;
      xs ← get_values rest context;
      Ok (x :: xs)
  end.

Definition _evaluate_simple_condition (left : node) (operator : string) (right : node)
    (context : dict) : res cond_result :=
  left_value ← _get_value left context;
  right_value ← _get_value right context;
  result ← _apply_operator left_value operator right_value;
  Ok (RSimple result left_value operator right_value).

Definition _evaluate_list_condition (variable : node) (values : list node)
    (context : dict) : res cond_result :=
  variable_value ← _get_value variable context;
  list_values ← get_values values context;
  Ok (RList (py_in_list variable_value list_values) variable_value list_values).

Definition _evaluate_pattern_condition (variable : node) (operator : string)
    (pattern : node) (context : dict) : res cond_result :=
  v ← _get_value variable context;
  p ← _get_value pattern context;
  let variable_value := py_str v in
  let pattern := py_str p in
  result ←
    (if String.eqb operator "CONTAINS" then Ok (str_contains pattern variable_value)
     else if String.eqb operator "MATCHES" then
       match re_search pattern variable_value with
       | Raise (PyExn re_error _) => Ok false
       | r => r
       end
     else Ok false);
  Ok (RPattern result variable_value pattern operator).

(** [if isinstance(v, str): try: v = datetime.fromisoformat(...) except
    ValueError: pass] *)
Definition to_datetime (v : value) : res tval :=
  match v with
  | VStr s =>
      match datetime.fromisoformat (replace "Z" "+00:00" s) with
      | Ok d => Ok (TDatetime d)
      | Raise (PyExn ValueError _) => Ok (TVal v)
      | Raise e => Raise e
      end
  | _ => Ok (TVal v)
  end.

Definition tval_type_name (v : tval) : string :=
  match v with TVal x => type_name x | TDatetime _ => "datetime.datetime" end.

(** [a op b] on the values of a temporal condition *)
Definition tval_cmp (op : cmp_op) (a b : tval) : res bool :=
  match a, b with
  | TVal x, TVal y => py_cmp op x y
  | TDatetime x, TDatetime y =>
      c ← datetime.instant_cmp (datetime.to_instant x) (datetime.to_instant y);
      Ok (cmp_holds op c)
  | _, _ =>
      Raise (PyExn TypeError
               ("'" +:+ cmp_symbol op +:+ "' not supported between instances of '"
                +:+ tval_type_name a +:+ "' and '" +:+ tval_type_name b +:+ "'"))
  end.

(** [isinstance(v, (int, float))] *)
Definition is_number (v : tval) : option value :=
  match v with
  | TVal (VInt z) => Some (VInt z)
  | TVal (VBool b) => Some (VBool b)
  | TVal (VFloat f) => Some (VFloat f)
  | _ => None
  end.

Definition _evaluate_temporal_condition (variable : node) (operator : string)
    (value : node) (context : dict) : res cond_result :=
  v ← _get_value variable context;
  w ← _get_value value context;
  variable_value ← to_datetime v;
  value ← to_datetime w;
  result ←
    (if String.eqb operator "BEFORE" then tval_cmp OpLt variable_value value
     else if String.eqb operator "AFTER" then tval_cmp OpGt variable_value value
     else if String.eqb operator "WITHIN" then
       match is_number value with
       | Some seconds =>
           duration ← datetime.timedelta_seconds seconds;
           (* now = datetime.now(timezone.utc) *)
           _ ← load_global "timezone";
           (* result = (now - variable_value) <= duration *)
           match variable_value with
           | TDatetime d =>
               elapsed ← datetime.sub (datetime.to_instant now) (datetime.to_instant d);
               Ok (elapsed <=? duration)
           | TVal x =>
               Raise (PyExn TypeError
                        ("unsupported operand type(s) for -: 'datetime.datetime' and '"
                         +:+ type_name x +:+ "'"))
           end
       | None => Ok false
       end
     else if String.eqb operator "EXPIRES" then
       match is_number value with
       | Some seconds =>
           duration ← datetime.timedelta_seconds seconds;
           (* now = datetime.now(timezone.utc) *)
           _ ← load_global "timezone";
           (* result = variable_value > (now + duration) *)
           deadline ← datetime.add (datetime.to_instant now) duration;
           match variable_value with
           | TDatetime d =>
               c ← datetime.instant_cmp (datetime.to_instant d) deadline;
               Ok (cmp_holds OpGt c)
           | TVal x =>
               Raise (PyExn TypeError
                        ("'>' not supported between instances of '"
                         +:+ type_name x +:+ "' and 'datetime.datetime'"))
           end
       | None => Ok false
       end
     else Ok false);
  Ok (RTemporal result variable_value operator value).

Definition _evaluate_variable_condition (variable : node) (context : dict) : res cond_result :=
  variable_value ← _get_value variable context;
  Ok (RVariable (py_bool variable_value) variable_value).

Fixpoint _evaluate_condition (c : condition) (context : dict) : res cond_result :=
  match c with
  | SimpleCondition lhs operator rhs =>
      _evaluate_simple_condition lhs operator rhs context
  | ListCondition variable values => _evaluate_list_condition variable values context
  | PatternCondition variable operator pattern =>
      _evaluate_pattern_condition variable operator pattern context
  | TemporalCondition variable operator value =>
      _evaluate_temporal_condition variable operator value context
  | CompoundCondition lhs operator rhs =>
      (* _evaluate_compound_condition *)
      left_result ← _evaluate_condition lhs context;
      right_result ← _evaluate_condition rhs context;
      let result :=
        if String.eqb operator "AND" then cr_result left_result && cr_result right_result
        else if String.eqb operator "OR" then cr_result left_result || cr_result right_result
        else false in
      Ok (RCompound result left_result right_result operator)
  | NotCondition inner =>
      (* _evaluate_not_condition *)
      inner_result ← _evaluate_condition inner context;
      Ok (RNot (negb (cr_result inner_result)) inner_result)
  | VariableCondition variable => _evaluate_variable_condition variable context
  | OtherCondition type => Raise (PyExn ValueError ("Unknown condition type: " +:+ type))
  end.

Definition _evaluate_constraint (variable : node) (operator : string) (value : node)
    (context : dict) : res cons_result :=
  variable_value ← _get_value variable context;
  value ← _get_value value context;
  result ← _apply_operator variable_value operator value;
  Ok (KConstraint result variable_value operator value).

Definition _evaluate_in_constraint (variable : node) (values : list node)
    (context : dict) : res cons_result :=
  variable_value ← _get_value variable context;
  list_values ← get_values values context;
  Ok (KList (py_in_list variable_value list_values) variable_value list_values).

Definition _evaluate_not_in_constraint (variable : node) (values : list node)
    (context : dict) : res cons_result :=
  variable_value ← _get_value variable context;
  list_values ← get_values values context;
  Ok (KList (negb (py_in_list variable_value list_values)) variable_value list_values).

(** [lower <= variable_value <= upper]: the second comparison is made
    only when the first holds. *)
Definition _evaluate_between_constraint (variable lower upper : node)
    (context : dict) : res cons_result :=
  variable_value ← _get_value variable context;
  lower ← _get_value lower context;
  upper ← _get_value upper context;
  lower_holds ← py_cmp OpLe lower variable_value;
  result ← (if lower_holds : bool then py_cmp OpLe variable_value upper else Ok false);
  Ok (KBetween result variable_value lower upper).

Definition _evaluate_requirement (keyword : string) (variable : node)
    (context : dict) : res cons_result :=
  variable_value ← _get_value variable context;
  Ok (KRequirement (py_bool variable_value) variable_value keyword).

Fixpoint _evaluate_boolean_expression (e : bexpr) (context : dict) : res bexpr_result :=
  match e with
  | NotExpression expression =>
      inner_result ← _evaluate_boolean_expression expression context;
      Ok (BNot (negb (br_result inner_result)) inner_result)
  | BooleanExpression lhs operator rhs =>
      left_result ← _evaluate_boolean_expression lhs context;
      right_result ← _evaluate_boolean_expression rhs context;
      let result :=
        if String.eqb operator "AND" then br_result left_result && br_result right_result
        else if String.eqb operator "OR" then br_result left_result || br_result right_result
        else false in
      Ok (BBin result left_result right_result operator)
  | BooleanLiteral value => Ok (BLeaf value "Boolean literal")
  | VariableExpression variable =>
      value ← _get_value variable context;
      Ok (BLeaf (py_bool value) ("Variable expression: " +:+ py_str value))
  end.

Definition _evaluate_consequence (c : consequence) (context : dict) : res cons_result :=
  match c with
  | Constraint variable operator value =>
      _evaluate_constraint variable operator value context
  | InConstraint variable values => _evaluate_in_constraint variable values context
  | NotInConstraint variable values => _evaluate_not_in_constraint variable values context
  | BetweenConstraint variable lower upper =>
      _evaluate_between_constraint variable lower upper context
  | Requirement keyword variable => _evaluate_requirement keyword variable context
  | Expression (BooleanExpression lhs operator rhs) =>
      r ← _evaluate_boolean_expression (BooleanExpression lhs operator rhs) context;
      Ok (KExpression r)
  | Expression (BooleanLiteral value) => Ok (KExpression (BLeaf value "Boolean literal"))
  | Expression (VariableExpression variable) =>
      value ← _get_value variable context;
      Ok (KExpression (BLeaf (py_bool value) ("Variable expression: " +:+ py_str value)))
  | Expression (NotExpression _) =>
      Raise (PyExn ValueError "Unknown consequence type: not_expression")
  | OtherConsequence type =>
      Raise (PyExn ValueError ("Unknown consequence type: " +:+ type))
  end.

Definition _evaluate_action (a : action) (context : dict) : res action_result :=
  variable_value ← _get_value (action_variable a) context;
  Ok (ActionResult (action_type a) variable_value true).

(** The body of the [try] of [evaluate]. *)
Definition evaluate_body (a : ast) (context : dict) : res outcome :=
  match a with
  | Rule cond conseq act =>
      condition_result ← _evaluate_condition cond context;
      if negb (cr_result condition_result) then
        Ok (Outcome true "Condition not met" (Some (DCondition condition_result)) None)
      else
        match conseq, act with
        | Some c, _ =>
            consequence_result ← _evaluate_consequence c context;
            Ok (Outcome (kr_result consequence_result) (kr_reason consequence_result)
                  (Some (DConsequence condition_result consequence_result)) None)
        | None, Some a =>
            action_result ← _evaluate_action a context;
            Ok (Outcome true ("Action executed: " +:+ ar_action_type action_result)
                  (Some (DAction condition_result action_result)) None)
        | None, None => Ok (Outcome false "Invalid AST structure" None None)
        end
  | OtherAst _ => Ok (Outcome false "Invalid AST structure" None None)
  end.

(** [evaluate(ast, context)]: [except Exception as e] turns any exception
    into a failed outcome. *)
Definition evaluate (a : ast) (context : dict) : outcome :=
  match evaluate_body a context with
  | Ok o => o
  | Raise e =>
      Outcome false ("Evaluation error: " +:+ exn_str e) None (Some (exn_str e))
  end.

End Evaluator.

End DSL.

(* ===================================================================== *)
(** ** glassbox/decision_bundle.py                                        *)
(* ===================================================================== *)

Module Bundle.
Import Py PyValue.

(** [for field in required: if field not in d: raise ValidationException(
    message + field, path + field)] *)
Fixpoint require_fields (fields : list string) (d : value) (message path : string)
  : res unit :=
  match fields with
  | [] => Ok tt
  | field :: rest =>
      present ← py_contains field d;
      if present : bool then require_fields rest d message path
      else Raise (ValidationException (message +:+ field) (Some (path +:+ field)))
  end.

Definition valid_domains : list value :=
  [VStr "finance"; VStr "health"; VStr "esg"; VStr "general"].
Definition valid_types : list value :=
  [VStr "dsl"; VStr "expression"; VStr "decision_table"; VStr "decision_tree"].

Definition _validate_rule (rule : value) (index : nat) : res unit :=
  let prefix := "rules[" +:+ pretty index +:+ "]." in
  _ ← require_fields ["id"; "name"; "type"; "definition"] rule
        "Missing required rule field: " prefix;
  type ← py_getitem "type" rule;
  if negb (py_in_list type valid_types) then
    Raise (ValidationException ("Invalid rule type: " +:+ py_str type)
             (Some (prefix +:+ "type")))
  else Ok tt.

Definition _validate_decision (decision : value) (index : nat) : res unit :=
  let prefix := "decisions[" +:+ pretty index +:+ "]." in
  _ ← require_fields ["id"; "ruleId"; "input"; "output"; "timestamp"] decision
        "Missing required decision field: " prefix;
  output ← py_getitem "output" decision;
  present ← py_contains "result" output;
  if present : bool then Ok tt
  else Raise (ValidationException "Missing output.result"
                (Some (prefix +:+ "output.result"))).

(** [for i, x in enumerate(xs): check(x, i)] *)
Fixpoint for_enumerate (check : value -> nat -> res unit) (xs : list value) (i : nat)
  : res unit :=
  match xs with
  | [] => Ok tt
  | x :: rest => _ ← check x i; for_enumerate check rest (S i)
  end.

Definition _validate (data : value) : res unit :=
  _ ← require_fields ["version"; "metadata"; "rules"; "decisions"] data
        "Missing required field: " "";
  (* version *)
  version ← py_getitem "version" data;
  if negb (py_eq version (VStr "1.0")) then
    Raise (ValidationException ("Unsupported version: " +:+ py_str version) (Some "version"))
  else
  (* metadata *)
  metadata ← py_getitem "metadata" data;
  _ ← require_fields ["id"; "name"; "description"; "created"; "jurisdiction"; "domain"]
        metadata "Missing required metadata field: " "metadata.";
  (* domain *)
  domain ← py_getitem "domain" metadata;
  if negb (py_in_list domain valid_domains) then
    Raise (ValidationException ("Invalid domain: " +:+ py_str domain) (Some "metadata.domain"))
  else
  (* rules *)
  rules ← py_getitem "rules" data;
  rules ← py_iter rules;
  _ ← for_enumerate _validate_rule rules 0;
  (* decisions *)
  decisions ← py_getitem "decisions" data;
  decisions ← py_iter decisions;
  for_enumerate _validate_decision decisions 0.

(** A constructed bundle: the object exists only when [_validate] passed. *)
Record DecisionBundle := MkBundle { _data : value }.

(** [DecisionBundle(bundle_data)] *)
Definition new (bundle_data : value) : res DecisionBundle :=
  _ ← _validate bundle_data;
  Ok (MkBundle bundle_data).

(** The properties [metadata] and [rules] of a constructed bundle. *)
Definition metadata (b : DecisionBundle) : res value := py_getitem "metadata" (_data b).
Definition rules (b : DecisionBundle) : res value := py_getitem "rules" (_data b).

End Bundle.

(* ===================================================================== *)
(** ** glassbox/rule_engine.py                                            *)
(* ===================================================================== *)

Module Engine.
Import Py PyValue.

Record ExecutionContext := Context {
  data : dict;
  variables : dict;
  execution_id : string;
  timestamp : datetime.t;
  results : list dict;
  errors : list dict;
  metadata : dict
}.

(** [ExecutionContext(data, variables)]; [uuid] and [now] are what
    [uuid.uuid4()] and the clock answer. *)
Definition new_context (uuid : string) (now : datetime.t) (data : dict)
    (variables : option dict) : ExecutionContext :=
  Context data (default [] variables) uuid now [] [] [].

Definition get_context_data (c : ExecutionContext) : dict :=
  let context := dict_update (data c) (variables c) in
  dict_set "_execution"
    (VDict [("id", VStr (execution_id c));
            ("timestamp", VStr (datetime.isoformat (timestamp c)))])
    context.

Definition add_result (r : dict) (c : ExecutionContext) : ExecutionContext :=
  Context (data c) (variables c) (execution_id c) (timestamp c)
          (results c ++ [r]) (errors c) (metadata c).

Definition add_error (e : dict) (c : ExecutionContext) : ExecutionContext :=
  Context (data c) (variables c) (execution_id c) (timestamp c)
          (results c) (errors c ++ [e]) (metadata c).

(** A registered handler is called with the rule and with the context
    object itself, which it may change: it answers a record or raises, and
    leaves the context as it made it.  (The rule is the caller's own
    dictionary; handlers are taken to read it only.) *)
Definition handler := dict -> ExecutionContext -> res dict * ExecutionContext.

Record RuleEngine := Engine {
  custom_handlers : gmap string handler;
  cache : gmap string dict
}.

Definition init : RuleEngine := Engine ∅ ∅.

Definition register_handler (rule_type : string) (h : handler) (e : RuleEngine) : RuleEngine :=
  Engine (<[rule_type := h]> (custom_handlers e)) (cache e).

Definition clear_cache (e : RuleEngine) : RuleEngine := Engine (custom_handlers e) ∅.

(** The text a [RuleExecutionException] keeps of its [rule_id]. *)
Definition rule_id_text (rule_id : value) : option string :=
  if py_bool rule_id then Some (py_str rule_id) else None.

Definition _get_nested_value (field_path : value) (data : dict) : res value :=
  match field_path with
  | VStr path =>
      Ok ((fix walk (parts : list string) (v : value) : value :=
             match parts with
             | [] => v
             | part :: rest =>
                 match v with
                 | VDict d =>
                     match dict_get part d with
                     | Some v' => walk rest v'
                     | None => VNone
                     end
                 | _ => VNone
                 end
             end) (split "." path) (VDict data))
  | _ => Raise (PyExn AttributeError
                 ("'" +:+ type_name field_path +:+ "' object has no attribute 'split'"))
  end.

Definition is_op (operator : value) (s : string) : bool := py_eq operator (VStr s).

Definition _evaluate_condition (field_value operator value : value) : bool :=
  let r :=
    if is_op operator "=" then Ok (py_eq field_value value)
    else if is_op operator "!=" then Ok (negb (py_eq field_value value))
    else if is_op operator ">" then py_cmp OpGt field_value value
    else if is_op operator ">=" then py_cmp OpGe field_value value
    else if is_op operator "<" then py_cmp OpLt field_value value
    else if is_op operator "<=" then py_cmp OpLe field_value value
    else if is_op operator "contains" then
      Ok (str_contains (py_str value) (py_str field_value))
    else if is_op operator "exceeds" then py_cmp OpGt field_value value
    else Ok false in
  match r with Ok b => b | Raise _ => false end.

(** The loop over the conditions of a decision table. *)
Fixpoint table_conditions (conditions : list value) (context_data : dict)
    (all_conditions_met : bool) (condition_results : list value)
  : res (bool * list value) :=
  match conditions with
  | [] => Ok (all_conditions_met, condition_results)
  | condition :: rest =>
      field ← py_get "field" (VStr "") condition;
      operator ← py_get "operator" (VStr "") condition;
      value ← py_get "value" (VStr "") condition;
      field_value ← _get_nested_value field context_data;
      let condition_met := _evaluate_condition field_value operator value in
      table_conditions rest context_data
        (if condition_met then all_conditions_met else false)
        (condition_results ++
           [VDict [("field", field); ("operator", operator); ("value", value);
                   ("field_value", field_value); ("met", VBool condition_met)]])
  end.

Fixpoint table_actions (actions : list value) (action_results : list value)
  : res (list value) :=
  match actions with
  | [] => Ok action_results
  | action :: rest =>
      action_type ← py_get "result" (VBool false) action;
      reason ← py_get "reason" (VStr "Decision table action") action;
      table_actions rest (action_results ++ [VDict [("type", action_type); ("reason", reason)]])
  end.

Definition _execute_decision_table_rule (rule : dict) (context : ExecutionContext) : res dict :=
  let definition := dict_get_default "definition" (VDict []) rule in
  table ← py_get "table" (VDict []) definition;
  if negb (py_bool table) then
    Raise (RuleExecutionException "Decision table rule missing table"
             (rule_id_text (dict_get_default "id" VNone rule)))
  else
    conditions ← py_get "conditions" (VList []) table;
    actions ← py_get "actions" (VList []) table;
    let context_data := get_context_data context in
    conditions ← py_iter conditions;
    '(all_conditions_met, condition_results) ← table_conditions conditions context_data true [];
    action_results ←
      (if all_conditions_met : bool then actions ← py_iter actions; table_actions actions []
       else Ok []);
    Ok [("result", VBool all_conditions_met);
        ("reason", VStr (if all_conditions_met then "Decision table conditions met"
                         else "Decision table conditions not met"));
        ("details", VDict [("conditions", VList condition_results);
                           ("actions", VList action_results);
                           ("table", table)])].

Definition no_branch (next_node_key : string) (path : list value) (node : value) : dict :=
  [("result", VBool false);
   ("reason", VStr ("No " +:+ next_node_key +:+ " found at node"));
   ("path", VList path); ("final_node", node)].

Fixpoint _traverse_decision_tree (node : value) (context_data : dict) (path : list value)
    {struct node} : res dict :=
  is_leaf ← py_contains "result" node;
  if is_leaf : bool then
    r ← py_getitem "result" node;
    reason ← py_get "reason" (VStr "Leaf node reached") node;
    Ok [("result", r); ("reason", reason); ("path", VList path); ("final_node", node)]
  else
    condition ← py_get "condition" (VDict []) node;
    field ← py_get "field" (VStr "") condition;
    operator ← py_get "operator" (VStr "") condition;
    value ← py_get "value" (VStr "") condition;
    field_value ← _get_nested_value field context_data;
    let condition_met := _evaluate_condition field_value operator value in
    let next_node_key := if condition_met then "true_branch" else "false_branch" in
    let current_path :=
      path ++ [VStr ("Condition: " +:+ py_str field +:+ " " +:+ py_str operator +:+ " "
                     +:+ py_str value +:+ " = " +:+ py_str (VBool condition_met))] in
    match node with
    | VDict d =>
        (* next_node = node.get(next_node_key) *)
        (fix get_next (items : dict) : res dict :=
           match items with
           | [] => Ok (no_branch next_node_key path node)
           | (k, next_node) :: items' =>
               if String.eqb next_node_key k then
                 if py_bool next_node
                 then _traverse_decision_tree next_node context_data current_path
                 else Ok (no_branch next_node_key path node)
               else get_next items'
           end) d
    | _ => Raise (PyExn AttributeError
                   ("'" +:+ type_name node +:+ "' object has no attribute 'get'"))
    end.

Definition _execute_decision_tree_rule (rule : dict) (context : ExecutionContext) : res dict :=
  let definition := dict_get_default "definition" (VDict []) rule in
  tree ← py_get "tree" (VDict []) definition;
  if negb (py_bool tree) then
    Raise (RuleExecutionException "Decision tree rule missing tree"
             (rule_id_text (dict_get_default "id" VNone rule)))
  else
    let context_data := get_context_data context in
    r ← _traverse_decision_tree tree context_data [];
    Ok [("result", dict_get_default "result" (VBool false) r);
        ("reason", dict_get_default "reason" (VStr "Decision tree traversal completed") r);
        ("details", VDict [("tree", tree);
                           ("path", dict_get_default "path" (VList []) r);
                           ("final_node", dict_get_default "final_node" VNone r)])].

Definition _get_cache_key (rule : dict) (context : ExecutionContext) : string :=
  let rule_id := dict_get_default "id" (VStr "unknown") rule in
  let context_str := repr_sorted_items (get_context_data context) in
  let key_data := py_str rule_id +:+ ":" +:+ context_str in
  hashlib.md5_hex key_data.

Section Execution.

(** [_execute_dsl_rule] runs the parser and the DSL evaluator, and
    [_execute_expression_rule] runs Python's [eval]; the engine only needs
    them as functions of the rule, the context and the clock. *)
Variable _execute_dsl_rule _execute_expression_rule :
  datetime.t -> dict -> ExecutionContext -> res dict.

(** [rule_type in self.custom_handlers]: the key has to be hashable. *)
Definition find_handler (rule_type : value) (e : RuleEngine) : res (option handler) :=
  match rule_type with
  | VStr s => Ok (custom_handlers e !! s)
  | VList _ | VDict _ =>
      Raise (PyExn TypeError ("unhashable type: '" +:+ type_name rule_type +:+ "'"))
  | _ => Ok None
  end.

(** The rule-type dispatch of [execute_rule]: what the executor answers
    and the context it leaves.  The built-in executors only read the
    context. *)
Definition dispatch (now : datetime.t) (rule : dict) (rule_id rule_type : value)
    (e : RuleEngine) (context : ExecutionContext) : res dict * ExecutionContext :=
  if is_op rule_type "dsl" then (_execute_dsl_rule now rule context, context)
  else if is_op rule_type "expression" then (_execute_expression_rule now rule context, context)
  else if is_op rule_type "decision_table" then (_execute_decision_table_rule rule context, context)
  else if is_op rule_type "decision_tree" then (_execute_decision_tree_rule rule context, context)
  else
    match find_handler rule_type e with
    | Ok (Some h) => h rule context
    | Ok None =>
        (Raise (RuleExecutionException ("Unsupported rule type: " +:+ py_str rule_type)
                  (rule_id_text rule_id)),
         context)
    | Raise x => (Raise x, context)
    end.

(** What a call leaves behind: the value returned or the exception
    raised, the engine and the context. *)
Record run := Run {
  returned : res dict;
  engine_after : RuleEngine;
  context_after : ExecutionContext
}.

(** [execute_rule(rule, context)]; [now] is the clock's answer. *)
Definition execute_rule (now : datetime.t) (rule : dict)
    (e : RuleEngine) (context : ExecutionContext) : run :=
  let rule_id := dict_get_default "id" (VStr "unknown") rule in
  let rule_name := dict_get_default "name" (VStr "unknown") rule in
  let rule_type := dict_get_default "type" (VStr "unknown") rule in
  let result : dict :=
    [("rule_id", rule_id); ("rule_name", rule_name); ("rule_type", rule_type);
     ("timestamp", VStr (datetime.isoformat now)); ("result", VBool false);
     ("reason", VStr ""); ("details", VDict []); ("confidence", VFloat 1.0)] in
  (* Check cache first *)
  let cache_key := _get_cache_key rule context in
  match cache e !! cache_key with
  | Some cached_result =>
      let result := dict_update result cached_result in
      let result := dict_set "cached" (VBool true) result in
      Run (Ok result) e context
  | None =>
      (* Execute based on rule type *)
      match dispatch now rule rule_id rule_type e context with
      | (Ok execution_result, context) =>
          let result := dict_update result execution_result in
          (* Cache the result *)
          let e' := Engine (custom_handlers e) (<[cache_key := execution_result]> (cache e)) in
          (* Add to context results *)
          Run (Ok result) e' (add_result result context)
      | (Raise ex, context) =>
          let error_msg := "Rule execution failed: " +:+ exn_str ex in
          Run (Raise (RuleExecutionException error_msg (rule_id_text rule_id))) e context
      end
  end.

End Execution.

End Engine.

(* ===================================================================== *)
(** ** evidence_manager.py: time ranges and chains                        *)
(* ===================================================================== *)

Module EvidenceQueries.
Import Py PyValue Evidence.

(** [start_time <= t <= end_time] on datetimes. *)
Definition within_range (start_time end_time t : datetime.t) : res bool :=
  c ← datetime.instant_cmp (datetime.to_instant start_time) (datetime.to_instant t);
  if cmp_holds OpLe c then
    c' ← datetime.instant_cmp (datetime.to_instant t) (datetime.to_instant end_time);
    Ok (cmp_holds OpLe c')
  else Ok false.

(** [datetime.fromisoformat(x['timestamp'].replace('Z', '+00:00'))] for an
    element [x] of an index list.  The index lists hold ids, so [x] is a
    [str]. *)
Definition indexed_time (x : string) : res datetime.t :=
  ts ← py_getitem "timestamp" (VStr x);
  match ts with
  | VStr s => datetime.fromisoformat (replace "Z" "+00:00" s)
  | _ => Raise (PyExn AttributeError
                  ("'" +:+ type_name ts +:+ "' object has no attribute 'replace'"))
  end.

(** The two nested loops of a time-range query, over the index lists
    laid end to end. *)
Fixpoint timerange_scan (xs : list string) (start_time end_time : datetime.t)
    (found : list string) : res (list string) :=
  match xs with
  | [] => Ok found
  | x :: rest =>
      t ← indexed_time x;
      keep ← within_range start_time end_time t;
      timerange_scan rest start_time end_time (if keep : bool then found ++ [x] else found)
  end.

(** [l.sort(key=lambda x: x['timestamp'])] on such a list: the keys are
    computed first, one per element. *)
Fixpoint sort_keys (xs : list string) : res (list (value * string)) :=
  match xs with
  | [] => Ok []
  | x :: rest =>
      k ← py_getitem "timestamp" (VStr x);
      ks ← sort_keys rest;
      Ok ((k, x) :: ks)
  end.

Fixpoint insert_keyed (kx : value * string) (l : list (value * string))
  : res (list (value * string)) :=
  match l with
  | [] => Ok [kx]
  | ky :: r =>
      before ← py_cmp OpLt (fst ky) (fst kx);
      if before : bool then (r' ← insert_keyed kx r; Ok (ky :: r')) else Ok (kx :: ky :: r)
  end.

Fixpoint sort_keyed (l : list (value * string)) : res (list (value * string)) :=
  match l with
  | [] => Ok []
  | kx :: r => r' ← sort_keyed r; insert_keyed kx r'
  end.

(** The body shared by [get_evidence_by_timerange] and
    [get_audit_entries_by_timerange].  The lists of the index are visited
    in the order of the dictionary; the first id met decides the outcome,
    which is the same for every id, so the order is immaterial. *)
Definition timerange_query (by_timestamp : Index.index) (start_time end_time : datetime.t)
  : res (list string) :=
  let xs : list string := concat (map snd (map_to_list by_timestamp)) in
  found ← timerange_scan xs start_time end_time [];
  keyed ← sort_keys found;
  sorted ← sort_keyed keyed;
  Ok (map snd sorted).

Definition get_evidence_by_timerange (start_time end_time : datetime.t) (m : manager)
  : res (list string) :=
  timerange_query (by_timestamp m) start_time end_time.

(** One element of the ['chain'] list of an evidence chain. *)
Record link := Link {
  link_evidence_id : string;
  link_evidence : evidence;
  link_verification : verification
}.

Record chain := Chain {
  chain_id : string;
  evidence_count : nat;
  chain_hash : string;
  chain_links : list link;
  chain_created : string
}.

(** The loop of [create_evidence_chain]; [fed] is the text fed to the
    running digest so far. *)
Fixpoint chain_loop (evidence_ids : list string) (m : manager)
    (links : list link) (fed : string) : res (list link * string) :=
  match evidence_ids with
  | [] => Ok (links, fed)
  | evidence_id :: rest =>
      match get_evidence evidence_id m with
      | None => Raise (EvidenceException ("Evidence not found: " +:+ evidence_id) None)
      | Some e =>
          let verification := verify_evidence_integrity evidence_id m in
          if negb (valid verification) then
            Raise (EvidenceException
                     ("Evidence integrity check failed: " +:+ evidence_id) None)
          else
            chain_loop rest m (links ++ [Link evidence_id e verification])
                       (fed +:+ ev_hash e)
      end
  end.

Definition create_evidence_chain (now_utc : datetime.t) (evidence_ids : list string)
    (m : manager) : res chain :=
  '(links, fed) ← chain_loop evidence_ids m [] "";
  let digest := hashlib.sha256_hex fed in
  Ok (Chain ("chain_" +:+ take 16 digest) (length links) digest links
            (datetime.isoformat now_utc)).

End EvidenceQueries.

(* ===================================================================== *)
(** ** audit_trail.py: time ranges and bundle verification                *)
(* ===================================================================== *)

Module AuditQueries.
Import Py PyValue Audit.

Definition get_audit_entries_by_timerange (start_time end_time : datetime.t) (t : trail)
  : res (list string) :=
  EvidenceQueries.timerange_query (by_timestamp t) start_time end_time.

(** What [verify_audit_bundle_integrity] returns: the short dictionary of
    a bundle that is not there, or the full one. *)
Inductive bundle_verification :=
| BundleNotFound
| BundleChecked (all_entries_valid checksum_valid : bool)
                (stored_checksum calculated_checksum : string)
                (entry_verifications : list verification).

Definition bundle_valid (v : bundle_verification) : bool :=
  match v with
  | BundleNotFound => false
  | BundleChecked all_entries_valid checksum_valid _ _ _ =>
      all_entries_valid && checksum_valid
  end.

Definition bundle_reason (v : bundle_verification) : string :=
  match v with
  | BundleNotFound => "Audit bundle not found"
  | _ => if bundle_valid v then "Bundle integrity verified"
         else "Bundle integrity check failed"
  end.

(** [for entry in bundle['entries']]: each entry is verified through its
    id, that is, through what the store holds under that id now. *)
Fixpoint verify_entries (entries : list entry) (t : trail) (all_entries_valid : bool)
    (entry_verifications : list verification) : res (bool * list verification) :=
  match entries with
  | [] => Ok (all_entries_valid, entry_verifications)
  | e :: rest =>
      verification ← verify_audit_entry_integrity (ae_id e) t;
      verify_entries rest t
        (if valid verification then all_entries_valid else false)
        (entry_verifications ++ [verification])
  end.

Definition verify_audit_bundle_integrity (bundle_id : string) (t : trail)
  : res bundle_verification :=
  match get_audit_bundle bundle_id t with
  | None => Ok BundleNotFound
  | Some b =>
      let entries := deref t (b_entries b) in
      '(all_entries_valid, entry_verifications) ← verify_entries entries t true [];
      let current_checksum := _calculate_bundle_checksum entries in
      let stored_checksum := b_checksum b in
      Ok (BundleChecked all_entries_valid (String.eqb current_checksum stored_checksum)
            stored_checksum current_checksum entry_verifications)
  end.

End AuditQueries.

(* ===================================================================== *)
(** ** decision_bundle.py: accessors and the builder                      *)
(* ===================================================================== *)

Module BundleAccess.
Import Py PyValue Bundle.

Definition version (b : DecisionBundle) : res value := py_getitem "version" (_data b).
Definition decisions (b : DecisionBundle) : res value := py_getitem "decisions" (_data b).
Definition evidence (b : DecisionBundle) : res value :=
  py_get "evidence" (VList []) (_data b).
Definition audit (b : DecisionBundle) : res value := py_get "audit" VNone (_data b).

(** [for x in xs: if x[key] == wanted: return x] and [return None] *)
Fixpoint first_with (key : string) (wanted : value) (xs : list value)
  : res (option value) :=
  match xs with
  | [] => Ok None
  | x :: rest =>
      v ← py_getitem key x;
      if py_eq v wanted then Ok (Some x) else first_with key wanted rest
  end.

(** [[x for x in xs if x[key] == wanted]] *)
Fixpoint all_with (key : string) (wanted : value) (xs : list value) : res (list value) :=
  match xs with
  | [] => Ok []
  | x :: rest =>
      v ← py_getitem key x;
      found ← all_with key wanted rest;
      Ok (if py_eq v wanted then x :: found else found)
  end.

Definition get_rule_by_id (rule_id : value) (b : DecisionBundle) : res (option value) :=
  rs ← rules b; rs ← py_iter rs; first_with "id" rule_id rs.

Definition get_decisions_by_rule_id (rule_id : value) (b : DecisionBundle)
  : res (list value) :=
  ds ← decisions b; ds ← py_iter ds; all_with "ruleId" rule_id ds.

Definition get_evidence_by_id (evidence_id : value) (b : DecisionBundle)
  : res (option value) :=
  es ← evidence b; es ← py_iter es; first_with "id" evidence_id es.

End BundleAccess.

Module Builder.
Import Py PyValue Bundle.

(** The builder holds the dictionary it builds. *)
Record DecisionBundleBuilder := MkBuilder { _bundle : dict }.

(** [DecisionBundleBuilder()]; [uuid] is what [uuid.uuid4()] answers and
    [t1], [t2], [t3] are the three readings of the clock. *)
Definition init (uuid : string) (t1 t2 t3 : datetime.t) : DecisionBundleBuilder :=
  MkBuilder
    [("version", VStr "1.0");
     ("metadata",
      VDict [("id", VStr uuid); ("name", VStr ""); ("description", VStr "");
             ("created", VStr (datetime.isoformat t1)); ("jurisdiction", VStr "");
             ("domain", VStr "general"); ("tags", VList [])]);
     ("rules", VList []);
     ("decisions", VList []);
     ("evidence", VList []);
     ("audit",
      VDict [("created", VStr (datetime.isoformat t2));
             ("modified", VStr (datetime.isoformat t3));
             ("version", VStr "1.0"); ("trail", VList [])])].

(** [d[outer][inner] = v] *)
Definition set_inner (outer inner : string) (v : value) (d : dict) : res dict :=
  o ← py_getitem outer (VDict d);
  match o with
  | VDict i => Ok (dict_set outer (VDict (dict_set inner v i)) d)
  | _ => Raise (PyExn TypeError
                  ("'" +:+ type_name o +:+ "' object does not support item assignment"))
  end.

(** [v.append(x)]: only a list has the method. *)
Definition py_append (x : value) (v : value) : res value :=
  match v with
  | VList l => Ok (VList (l ++ [x]))
  | _ => Raise (PyExn AttributeError
                  ("'" +:+ type_name v +:+ "' object has no attribute 'append'"))
  end.

(** [d[key].append(x)] *)
Definition append_to (key : string) (x : value) (d : dict) : res dict :=
  l ← py_getitem key (VDict d);
  l' ← py_append x l;
  Ok (dict_set key l' d).

(** [d[outer][inner].append(x)] *)
Definition append_to_inner (outer inner : string) (x : value) (d : dict) : res dict :=
  o ← py_getitem outer (VDict d);
  l ← py_getitem inner o;
  l' ← py_append x l;
  set_inner outer inner l' d.

(** What a method leaves: the value returned or the exception raised, and
    the builder. *)
Definition outcome := (res unit * DecisionBundleBuilder)%type.

Definition after (b : DecisionBundleBuilder) (r : res dict) : outcome :=
  match r with
  | Ok d => (Ok tt, MkBuilder d)
  | Raise e => (Raise e, b)
  end.

Definition set_name (name : value) (b : DecisionBundleBuilder) : outcome :=
  after b (set_inner "metadata" "name" name (_bundle b)).
Definition set_description (description : value) (b : DecisionBundleBuilder) : outcome :=
  after b (set_inner "metadata" "description" description (_bundle b)).
Definition set_jurisdiction (jurisdiction : value) (b : DecisionBundleBuilder) : outcome :=
  after b (set_inner "metadata" "jurisdiction" jurisdiction (_bundle b)).
Definition set_author (author : value) (b : DecisionBundleBuilder) : outcome :=
  after b (set_inner "metadata" "author" author (_bundle b)).

Definition set_domain (domain : value) (b : DecisionBundleBuilder) : outcome :=
  if negb (py_in_list domain valid_domains) then
    (Raise (ValidationException ("Invalid domain: " +:+ py_str domain) None), b)
  else after b (set_inner "metadata" "domain" domain (_bundle b)).

(** [x in container] *)
Definition value_in (x container : value) : res bool :=
  match container with
  | VList l => Ok (py_in_list x l)
  | VDict d =>
      match x with
      | VStr k => Ok (dict_has k d)
      | VList _ | VDict _ =>
          Raise (PyExn TypeError ("unhashable type: '" +:+ type_name x +:+ "'"))
      | _ => Ok false
      end
  | VStr s =>
      match x with
      | VStr k => Ok (str_contains k s)
      | _ => Raise (PyExn TypeError
                      ("'in <string>' requires string as left operand, not "
                       +:+ type_name x))
      end
  | _ => Raise (PyExn TypeError
                  ("argument of type '" +:+ type_name container +:+ "' is not iterable"))
  end.

Definition add_tag (tag : value) (b : DecisionBundleBuilder) : outcome :=
  after b
    (metadata ← py_getitem "metadata" (VDict (_bundle b));
     tags ← py_getitem "tags" metadata;
     present ← value_in tag tags;
     if negb present
     then append_to_inner "metadata" "tags" tag (_bundle b)
     else Ok (_bundle b)).

(** [_add_audit_trail(action, details)]; [t1] and [t2] are the two
    readings of the clock. *)
Definition _add_audit_trail (t1 t2 : datetime.t) (action details : string) (d : dict)
  : res unit * dict :=
  match set_inner "audit" "modified" (VStr (datetime.isoformat t1)) d with
  | Raise e => (Raise e, d)
  | Ok d1 =>
      match append_to_inner "audit" "trail"
              (VDict [("timestamp", VStr (datetime.isoformat t2));
                      ("action", VStr action); ("user", VStr "builder");
                      ("details", VDict [("reason", VStr details)])]) d1 with
      | Raise e => (Raise e, d1)
      | Ok d2 => (Ok tt, d2)
      end
  end.

(** The three [add_*] methods: the item is appended first; its id is read
    for the trail after that, so an item without a [get] method is kept
    but not recorded in the trail. *)
Definition add_item (key action label : string) (t1 t2 : datetime.t) (item : value)
    (b : DecisionBundleBuilder) : outcome :=
  match append_to key item (_bundle b) with
  | Raise e => (Raise e, b)
  | Ok d =>
      match py_get "id" (VStr "unknown") item with
      | Raise e => (Raise e, MkBuilder d)
      | Ok id =>
          let '(r, d') := _add_audit_trail t1 t2 action (label +:+ py_str id) d in
          (r, MkBuilder d')
      end
  end.

Definition add_rule := add_item "rules" "rule_added" "Added rule: ".
Definition add_decision := add_item "decisions" "decision_added" "Added decision: ".
Definition add_evidence := add_item "evidence" "evidence_added" "Added evidence: ".

(** [build()].  The bundle is made from a shallow copy, so it shares the
    lists of rules, decisions and evidence with the builder; the value
    returned here is the bundle as long as the builder is not used again. *)
Definition build (b : DecisionBundleBuilder) : res DecisionBundle :=
  Bundle.new (VDict (_bundle b)).

Definition to_dict (b : DecisionBundleBuilder) : dict := _bundle b.

End Builder.

(* ===================================================================== *)
(** ** rule_engine.py: executing a bundle                                 *)
(* ===================================================================== *)

Module EngineBundle.
Import Py PyValue Engine.

(** The dictionary [execute_bundle] returns. *)
Record summary := Summary {
  bundle_id : value;
  bundle_name : value;
  summary_execution_id : string;
  summary_timestamp : string;
  rules_executed : Z;
  rules_passed : Z;
  rules_failed : Z;
  rule_results : list dict;
  overall_result : bool
}.

(** [results['rule_results'].append(r)] and [results['rules_executed'] += 1] *)
Definition record (rule_result : dict) (s : summary) : summary :=
  Summary (bundle_id s) (bundle_name s) (summary_execution_id s) (summary_timestamp s)
          (rules_executed s + 1) (rules_passed s) (rules_failed s)
          (rule_results s ++ [rule_result]) (overall_result s).

(** [results['rules_passed'] += 1] *)
Definition passed (s : summary) : summary :=
  Summary (bundle_id s) (bundle_name s) (summary_execution_id s) (summary_timestamp s)
          (rules_executed s) (rules_passed s + 1) (rules_failed s)
          (rule_results s) (overall_result s).

(** [results['rules_failed'] += 1] and [results['overall_result'] = False] *)
Definition failed (s : summary) : summary :=
  Summary (bundle_id s) (bundle_name s) (summary_execution_id s) (summary_timestamp s)
          (rules_executed s) (rules_passed s) (rules_failed s + 1)
          (rule_results s) false.

Definition ExecutionContext_get_metadata (key : string) (c : ExecutionContext) : value :=
  dict_get_default key VNone (metadata c).

Definition ExecutionContext_set_metadata (key : string) (v : value) (c : ExecutionContext)
  : ExecutionContext :=
  Context (data c) (variables c) (execution_id c) (timestamp c) (results c) (errors c)
          (dict_set key v (metadata c)).

Section Execution.

Variable _execute_dsl_rule _execute_expression_rule :
  datetime.t -> dict -> ExecutionContext -> res dict.

(** The clock: [clock n] is what the [n]-th reading answers. *)
Variable clock : nat -> datetime.t.

(** What the loop carries: the summary, the engine, the context and the
    number of clock readings so far. *)
Record loop_state := LoopState {
  ls_summary : summary;
  ls_engine : RuleEngine;
  ls_context : ExecutionContext;
  ls_ticks : nat
}.

(** The [except Exception as e] branch: two more readings of the clock. *)
Definition handle (r : dict) (e : exn) (s : summary) (engine : RuleEngine)
    (context : ExecutionContext) (ticks : nat) : loop_state :=
  let error_result : dict :=
    [("rule_id", dict_get_default "id" (VStr "unknown") r);
     ("rule_name", dict_get_default "name" (VStr "unknown") r);
     ("result", VBool false);
     ("error", VStr (exn_str e));
     ("timestamp", VStr (datetime.isoformat (clock ticks)))] in
  let error : dict :=
    [("rule_id", dict_get_default "id" (VStr "unknown") r);
     ("error", VStr (exn_str e));
     ("timestamp", VStr (datetime.isoformat (clock (S ticks))))] in
  LoopState (failed (record error_result s)) engine (add_error error context)
            (S (S ticks)).

(** One round of [for rule in bundle.rules].  [rule.get] needs a mapping:
    for anything else the [AttributeError] of [execute_rule] is raised
    again inside the handler and leaves [execute_bundle]. *)
Definition execute_one (rule : value) (st : loop_state) : res loop_state :=
  match rule with
  | VDict r =>
      let run := execute_rule _execute_dsl_rule _execute_expression_rule
                   (clock (ls_ticks st)) r (ls_engine st) (ls_context st) in
      let ticks := S (ls_ticks st) in
      match returned run with
      | Ok rule_result =>
          let s := record rule_result (ls_summary st) in
          match dict_get "result" rule_result with
          | Some v =>
              Ok (LoopState (if py_bool v then passed s else failed s)
                            (engine_after run) (context_after run) ticks)
          | None =>
              Ok (handle r (PyExn KeyError "'result'") s
                         (engine_after run) (context_after run) ticks)
          end
      | Raise e =>
          Ok (handle r e (ls_summary st) (engine_after run) (context_after run) ticks)
      end
  | _ => Raise (PyExn AttributeError
                  ("'" +:+ type_name rule +:+ "' object has no attribute 'get'"))
  end.

Fixpoint execute_all (rules : list value) (st : loop_state) : res loop_state * loop_state :=
  match rules with
  | [] => (Ok st, st)
  | rule :: rest =>
      match execute_one rule st with
      | Ok st' => execute_all rest st'
      | Raise e => (Raise e, st)
      end
  end.

(** [execute_bundle(bundle, context)]: the summary or the exception, and
    the state the call leaves. *)
Definition execute_bundle (bundle : Bundle.DecisionBundle) (e : RuleEngine)
    (context : ExecutionContext) (ticks : nat) : res summary * loop_state :=
  let start (s : summary) := LoopState s e context ticks in
  let blank := Summary VNone VNone "" "" 0 0 0 [] true in
  match
    (metadata ← Bundle.metadata bundle;
     bundle_id ← py_getitem "id" metadata;
     metadata ← Bundle.metadata bundle;
     bundle_name ← py_getitem "name" metadata;
     rules ← Bundle.rules bundle;
     rules ← py_iter rules;
     Ok (Summary bundle_id bundle_name (execution_id context)
           (datetime.isoformat (timestamp context)) 0 0 0 [] true, rules))
  with
  | Raise x => (Raise x, start blank)
  | Ok (s, rules) =>
      match execute_all rules (start s) with
      | (Ok st, _) => (Ok (ls_summary st), st)
      | (Raise x, st) => (Raise x, st)
      end
  end.

(** [get_cache_stats()]: ['cache_size'] and ['cache_enabled'] *)
Definition get_cache_stats (e : RuleEngine) : nat * bool := (size (cache e), true).

End Execution.

End EngineBundle.

(* ===================================================================== *)
(** ** DSL parser: glassbox/dsl_parser.py, class DSLParser                *)
(* ===================================================================== *)

Module Parser.
Import Py PyValue Tokenizer DSL.

(** *** [int(s)] and [float(s)] on the text of a number token *)

Definition is_ascii_digit (c : ascii) : bool := in_range 48 57 c.

Fixpoint digits_value (acc : Z) (s : string) : Z :=
  match s with
  | EmptyString => acc
  | String c r => digits_value (acc * 10 + (ord c - 48)) r
  end.

Definition all_digits (s : string) : bool :=
  forallb is_ascii_digit (list_ascii_of_string s).

(** [int(s)]: decimal digits only (CPython refuses more than 4300 of
    them). *)
Definition py_int (s : string) : res value :=
  if negb (String.eqb s "") && all_digits s then
    if (4300 <? String.length s)%nat then
      Raise (PyExn ValueError
               ("Exceeds the limit (4300 digits) for integer string conversion: value has "
                +:+ pretty (String.length s)
                +:+ " digits; use sys.set_int_max_str_digits() to increase the limit"))
    else Ok (VInt (digits_value 0 s))
  else Raise (PyExn ValueError
                ("invalid literal for int() with base 10: " +:+ repr_str s)).

(** The text before and after the first occurrence of a character. *)
Fixpoint split_at (p : ascii -> bool) (s : string) : string * option string :=
  match s with
  | EmptyString => (EmptyString, None)
  | String c r =>
      if p c then (EmptyString, Some r)
      else let '(a, b) := split_at p r in (String c a, b)
  end.

(** The double nearest to [m * 10 ^ e] for [0 < m]. *)
Definition nearest_double (m e : Z) : PrimFloat.float :=
  let digits := Z.of_nat (String.length (str_int m)) in
  if 310 <? digits + e then PrimFloat.infinity
  else if digits + e <? -330 then PrimFloat.zero
  else if 0 <=? e then datetime.float_of_Z (m * 10 ^ e)
  else
    let den := 10 ^ (- e) in
    let s := Z.max 0 (Z.log2 den - Z.log2 m + 70) in
    let num := m * 2 ^ s in
    let q := num / den in
    let sticky := if num mod den =? 0 then 0 else 1 in
    SF2Prim (binary_normalize prec emax (2 * q + sticky) (- (s + 1)) false).

(** [float(s)] for a text that starts with a digit: digits, a point,
    digits, and an exponent with at least one digit or none at all. *)
Definition py_float (s : string) : res value :=
  let invalid :=
    Raise (PyExn ValueError ("could not convert string to float: " +:+ repr_str s)) in
  let '(mantissa, exponent) :=
    split_at (fun c => Ascii.eqb (lower_char c) "e") s in
  let '(whole, fraction) := split_at (Ascii.eqb ".") mantissa in
  let fraction := default "" fraction in
  let exponent_value : option Z :=
    match exponent with
    | None => Some 0
    | Some x =>
        let '(negative, x) :=
          match x with
          | String "-" r => (true, r)
          | String "+" r => (false, r)
          | _ => (false, x)
          end in
        if negb (String.eqb x "") && all_digits x
        then Some (if negative : bool then - digits_value 0 x else digits_value 0 x)
        else None
    end in
  match exponent_value with
  | Some e =>
      if negb (String.eqb whole "") && all_digits whole && all_digits fraction then
        let m := digits_value 0 (whole +:+ fraction) in
        if m =? 0 then Ok (VFloat PrimFloat.zero)
        else Ok (VFloat (nearest_double m (e - Z.of_nat (String.length fraction))))
      else invalid
  | None => invalid
  end.


(** *** Parser results *)

(** A parsing method returns, raises, or recurses until the interpreter
    stops it with [RecursionError]. *)
Inductive presult (A : Type) :=
| Parsed (a : A)
| Failed (e : exn)
| TooDeep.
Arguments Parsed {A} a.
Arguments Failed {A} e.
Arguments TooDeep {A}.

#[global] Instance presult_ret : MRet presult := fun A a => Parsed a.
#[global] Instance presult_bind : MBind presult :=
  fun A B f m =>
    match m with Parsed a => f a | Failed e => Failed e | TooDeep => TooDeep end.

Definition error {A} (message : string) : presult A :=
  Failed (DSLParserException message None None).

Definition lift {A} (r : res A) : presult A :=
  match r with Ok a => Parsed a | Raise e => Failed e end.

Definition type_name (t : token_type) : string :=
  match t with
  | TNumber => "number" | TString => "string" | TIdentifier => "identifier"
  | TKeyword => "keyword" | TTimeUnit => "time_unit" | TOperator => "operator"
  | TSymbol => "symbol"
  end.

Definition type_eqb (a b : token_type) : bool := String.eqb (type_name a) (type_name b).

(** [re.match(r'\d{4}-\d{2}-\d{2}T\d{2}:\d{2}:\d{2}', value)]; [\d] on a
    [str] of code points below 256 is an ASCII digit. *)
Fixpoint match_pattern (pattern : list (option ascii)) (s : string) : bool :=
  match pattern, s with
  | [], _ => true
  | None :: p, String c r => is_ascii_digit c && match_pattern p r
  | Some x :: p, String c r => Ascii.eqb c x && match_pattern p r
  | _ :: _, EmptyString => false
  end.

Definition _looks_like_datetime (value : string) : bool :=
  let d := None in
  match_pattern
    [d; d; d; d; Some "-"; d; d; Some "-"; d; d; Some "T";
     d; d; Some ":"; d; d; Some ":"; d; d]%char value.

(** [value[1:-1]] *)
Definition unquote (value : string) : string :=
  String.substring 1 (String.length value - 2) value.

Section Tokens.

(** [self.tokens]; the state of the parser is [self.token_index], and
    [self.current_token] is the token there or [None]. *)
Variable tokens : list token.

Definition current_token (token_index : nat) : option token := tokens !! token_index.

Definition _advance (token_index : nat) : nat := S token_index.

(** [self.current_token and self.current_token['value'] in values] *)
Definition value_in (values : list string) (i : nat) : bool :=
  match current_token i with
  | Some t => mem (tok_value t) values
  | None => false
  end.

(** [self.current_token and self.current_token['type'] == token_type] *)
Definition type_is (token_type : token_type) (i : nat) : bool :=
  match current_token i with
  | Some t => type_eqb (tok_type t) token_type
  | None => false
  end.

Definition _expect (token_type : token_type) (value : option string) (i : nat)
  : presult (token * nat) :=
  match current_token i with
  | None => error ("Expected " +:+ type_name token_type +:+ ", got end of input")
  | Some t =>
      if negb (type_eqb (tok_type t) token_type) then
        error ("Expected " +:+ type_name token_type +:+ ", got " +:+ type_name (tok_type t))
      else
        match value with
        | Some v =>
            if negb (String.eqb (upper (tok_value t)) (upper v)) then
              error ("Expected " +:+ v +:+ ", got " +:+ tok_value t)
            else Parsed (t, _advance i)
        | None => Parsed (t, _advance i)
        end
  end.

(** The [while] of [_parse_variable].  Every round moves past a token,
    so [length tokens - i] rounds reach the end of the tokens. *)
Fixpoint variable_loop (rounds : nat) (parts : list string) (i : nat) : list string * nat :=
  match rounds with
  | O => (parts, i)
  | S rounds' =>
      match current_token i with
      | Some t =>
          if type_eqb (tok_type t) TIdentifier then
            let parts := parts ++ [tok_value t] in
            let i := _advance i in
            if value_in ["."] i then variable_loop rounds' parts (_advance i)
            else (parts, i)
          else (parts, i)
      | None => (parts, i)
      end
  end.

Definition _parse_variable (i : nat) : presult (node * nat) :=
  let '(parts, i) := variable_loop (length tokens - i) [] i in
  match parts with
  | [] => error "Expected variable"
  | _ => Parsed (VariableNode (join "." parts), i)
  end.

Definition _parse_value (i : nat) : presult (node * nat) :=
  match current_token i with
  | Some t =>
      if type_eqb (tok_type t) TString then
        Parsed (StringValue (unquote (tok_value t)), _advance i)
      else if type_eqb (tok_type t) TNumber then
        n ← lift (if str_contains "." (tok_value t) then py_float (tok_value t)
                  else py_int (tok_value t));
        Parsed (NumberValue n, _advance i)
      else if mem (tok_value t) ["TRUE"; "FALSE"] then
        '(value, i) ← _expect TKeyword None i;
        Parsed (BooleanValue (String.eqb (tok_value value) "TRUE"), i)
      else if type_eqb (tok_type t) TIdentifier then
        if _looks_like_datetime (tok_value t) then
          Parsed (DatetimeValue (tok_value t), _advance i)
        else _parse_variable i
      else error ("Expected value, got " +:+ type_name (tok_type t))
  | None => error "Expected value, got nothing"
  end.

(** The [while] of [_parse_list]; a round that returns moves past a
    token. *)
Fixpoint list_loop (rounds : nat) (values : list node) (i : nat) : presult (list node * nat) :=
  match rounds with
  | O => Parsed (values, i)
  | S rounds' =>
      match current_token i with
      | Some t =>
          if negb (String.eqb (tok_value t) "]") then
            '(value, i) ← _parse_value i;
            let values := values ++ [value] in
            list_loop rounds' values (if value_in [","] i then _advance i else i)
          else Parsed (values, i)
      | None => Parsed (values, i)
      end
  end.

Definition _parse_list (i : nat) : presult (list node * nat) :=
  '(_, i) ← _expect TSymbol (Some "[") i;
  '(values, i) ← list_loop (length tokens - i) [] i;
  '(_, i) ← _expect TSymbol (Some "]") i;
  Parsed (values, i).

(** [any(p(self.tokens[j]) for j in range(a, min(b, len(self.tokens))))] *)
Definition lookahead (p : token -> bool) (a b : nat) : bool :=
  existsb (fun j => match tokens !! j with Some t => p t | None => false end)
          (seq a (Nat.min b (length tokens) - a)).

Definition _is_temporal_condition (i : nat) : bool :=
  type_is TIdentifier i &&
  lookahead (fun t => type_eqb (tok_type t) TKeyword
                      && mem (tok_value t) ["BEFORE"; "AFTER"; "WITHIN"; "EXPIRES"])
            i (i + 3).

Definition _parse_simple_condition (left : node) (i : nat) : presult (condition * nat) :=
  '(operator, i) ← _expect TOperator None i;
  '(rhs, i) ← _parse_value i;
  Parsed (SimpleCondition left (tok_value operator) rhs, i).

Definition _parse_list_condition (left : node) (i : nat) : presult (condition * nat) :=
  '(_, i) ← _expect TKeyword (Some "IN") i;
  '(values, i) ← _parse_list i;
  Parsed (ListCondition left values, i).

Definition _parse_pattern_condition (left : node) (i : nat) : presult (condition * nat) :=
  '(operator, i) ← _expect TKeyword None i;
  '(pattern, i) ← _parse_value i;
  Parsed (PatternCondition left (tok_value operator) pattern, i).

Definition _parse_temporal_condition (i : nat) : presult (condition * nat) :=
  '(variable, i) ← _parse_variable i;
  '(operator, i) ← _expect TKeyword None i;
  '(_, i) ← (if String.eqb (tok_value operator) "EXPIRES"
             then _expect TKeyword (Some "AFTER") i
             else Parsed (operator, i));
  '(value, i) ← _parse_value i;
  Parsed (TemporalCondition variable (tok_value operator) value, i).

(** [_parse_compound_condition], given [_parse_condition] for its
    recursive calls. *)
Definition _parse_compound_condition
    (_parse_condition : nat -> presult (condition * nat)) (i : nat)
  : presult (condition * nat) :=
  if value_in ["NOT"] i then
    '(condition, i) ← _parse_condition (_advance i);
    Parsed (NotCondition condition, i)
  else if value_in ["("] i then
    '(condition, i) ← _parse_condition (_advance i);
    '(_, i) ← _expect TSymbol (Some ")") i;
    Parsed (condition, i)
  else
    '(lhs, i) ← _parse_condition i;
    if value_in ["AND"; "OR"] i then
      '(operator, i) ← _expect TKeyword None i;
      '(rhs, i) ← _parse_condition i;
      Parsed (CompoundCondition lhs (tok_value operator) rhs, i)
    else Parsed (lhs, i).

(** [depth] bounds the calls of [_parse_condition] that are active at
    once: the interpreter's recursion limit. *)
Fixpoint _parse_condition (depth : nat) (i : nat) : presult (condition * nat) :=
  match depth with
  | O => TooDeep
  | S depth' =>
      if value_in ["NOT"] i then _parse_compound_condition (_parse_condition depth') i
      else if value_in ["("] i then _parse_compound_condition (_parse_condition depth') i
      else if _is_temporal_condition i then _parse_temporal_condition i
      else
        '(lhs, i) ← _parse_variable i;
        if type_is TOperator i then _parse_simple_condition lhs i
        else if value_in ["IN"] i then _parse_list_condition lhs i
        else if value_in ["CONTAINS"; "MATCHES"] i then _parse_pattern_condition lhs i
        else Parsed (VariableCondition lhs, i)
  end.

Definition _parse_condition_clause (depth : nat) (i : nat) : presult (condition * nat) :=
  if value_in ["WHEN"; "IF"] i then _parse_condition depth (_advance i)
  else error "Expected WHEN or IF".

Definition _is_constraint (i : nat) : bool :=
  type_is TIdentifier i &&
  lookahead (fun t => type_eqb (tok_type t) TOperator
                      || mem (tok_value t) ["IN"; "BETWEEN"])
            (i + 1) (i + 3).

Definition _parse_constraint (i : nat) : presult (consequence * nat) :=
  '(variable, i) ← _parse_variable i;
  if value_in ["IN"] i then
    let i := _advance i in
    if value_in ["NOT"] i then
      '(values, i) ← _parse_list (_advance i);
      Parsed (NotInConstraint variable values, i)
    else
      '(values, i) ← _parse_list i;
      Parsed (InConstraint variable values, i)
  else if value_in ["BETWEEN"] i then
    '(lower, i) ← _parse_value (_advance i);
    '(_, i) ← _expect TKeyword (Some "AND") i;
    '(upper, i) ← _parse_value i;
    Parsed (BetweenConstraint variable lower upper, i)
  else
    '(operator, i) ← _expect TOperator None i;
    '(value, i) ← _parse_value i;
    Parsed (Constraint variable (tok_value operator) value, i).

Definition _parse_requirement (i : nat) : presult (consequence * nat) :=
  '(keyword, i) ← _expect TKeyword None i;
  '(variable, i) ← _parse_variable i;
  Parsed (Requirement (tok_value keyword) variable, i).

(** [depth] bounds the active calls of [_parse_boolean_expression]. *)
Fixpoint _parse_boolean_expression (depth : nat) (i : nat) : presult (bexpr * nat) :=
  match depth with
  | O => TooDeep
  | S depth' =>
      if value_in ["TRUE"; "FALSE"] i then
        '(value, i) ← _expect TKeyword None i;
        Parsed (BooleanLiteral (String.eqb (tok_value value) "TRUE"), i)
      else if type_is TIdentifier i then
        '(variable, i) ← _parse_variable i;
        Parsed (VariableExpression variable, i)
      else if value_in ["NOT"] i then
        '(expression, i) ← _parse_boolean_expression depth' (_advance i);
        Parsed (NotExpression expression, i)
      else
        '(lhs, i) ← _parse_boolean_expression depth' i;
        if value_in ["AND"; "OR"] i then
          '(operator, i) ← _expect TKeyword None i;
          '(rhs, i) ← _parse_boolean_expression depth' i;
          Parsed (BooleanExpression lhs (tok_value operator) rhs, i)
        else Parsed (lhs, i)
  end.

Definition _parse_consequence (depth : nat) (i : nat) : presult (consequence * nat) :=
  if value_in ["REQUIRE"; "ENSURE"; "VALIDATE"] i then _parse_requirement i
  else if _is_constraint i then _parse_constraint i
  else
    '(e, i) ← _parse_boolean_expression depth i;
    Parsed (Expression e, i).

Definition _parse_consequence_clause (depth : nat) (i : nat) : presult (consequence * nat) :=
  if value_in ["THEN"] i then
    let i := _advance i in
    let i := if value_in ["MUST"; "SHOULD"] i then _advance i else i in
    _parse_consequence depth i
  else error "Expected THEN".

Definition _parse_action (i : nat) : presult (action * nat) :=
  '(action_type, i) ← _expect TKeyword None i;
  '(variable, i) ← _parse_variable i;
  Parsed (Action (tok_value action_type) variable, i).

Definition _parse_action_clause (i : nat) : presult (action * nat) :=
  if value_in ["THEN"] i then
    '(_, i) ← _expect TKeyword (Some "DO") (_advance i);
    _parse_action i
  else error "Expected THEN DO".

Definition _parse_rule (depth : nat) (i : nat) : presult (ast * nat) :=
  '(condition, i) ← _parse_condition_clause depth i;
  if type_is TKeyword i && value_in ["THEN"; "MUST"; "SHOULD"] i then
    '(consequence, i) ← _parse_consequence_clause depth i;
    Parsed (Rule condition (Some consequence) None, i)
  else if type_is TKeyword i && value_in ["DO"] i then
    '(action, i) ← _parse_action_clause i;
    Parsed (Rule condition None (Some action), i)
  else error "Expected consequence or action clause".

End Tokens.

(** [str.strip()] *)
Fixpoint lstrip (s : string) : string :=
  match s with
  | String c r => if isspace c then lstrip r else s
  | EmptyString => EmptyString
  end.

Fixpoint rstrip (s : string) : string :=
  match s with
  | String c r =>
      let r := rstrip r in
      if String.eqb r "" && isspace c then EmptyString else String c r
  | EmptyString => EmptyString
  end.

Definition strip (s : string) : string := rstrip (lstrip s).

(** [parse]; [None] is the tokenizer's loop bound, which [_tokenize]
    never reaches. *)
Definition parse (depth : nat) (dsl_text : string) : option (presult ast) :=
  let dsl_text := strip dsl_text in
  if String.eqb dsl_text "" then Some (error "Empty DSL rule")
  else
    match _tokenize dsl_text with
    | None => None
    | Some (Raise e) => Some (Failed e)
    | Some (Ok tokens) =>
        Some
          match
            '(ast, i) ← _parse_rule tokens depth 0;
            match current_token tokens i with
            | Some t => error ("Unexpected token: " +:+ tok_value t)
            | None => Parsed ast
            end
          with
          | Failed (PyExn IndexError _) => error "Unexpected end of input"
          | r => r
          end
    end.

End Parser.

(* ===================================================================== *)
(** * Properties                                                          *)
(* ===================================================================== *)

(** ** The tokenizer *)

Module TokenizerFacts.
Import Py Tokenizer.

Lemma substring_length_le (n m : nat) (s : string) :
  (String.length (String.substring n m s) <= m)%nat.
Proof.
  revert n m. induction s as [|c s IH]; intros n m.
  - destruct n, m; simpl; lia.
  - destruct n as [|n]; destruct m as [|m]; simpl; try lia.
    + specialize (IH 0%nat m). lia.
    + apply IH.
    + apply IH.
Qed.

Lemma _parse_operator_short text pos t :
  _parse_operator text pos = Ok t ->
  tok_type t = TOperator /\ (String.length (tok_value t) <= 2)%nat.
Proof.
  unfold _parse_operator.
  destruct ((pos + 1 <? String.length text)%nat && _) eqn:E.
  - intros [= <-]. split; [reflexivity|]. simpl. unfold slice.
    pose proof (substring_length_le pos (pos + 2 - pos) text). lia.
  - destruct (String.get pos text) as [c|]; [|discriminate].
    destruct (mem (String c EmptyString) OPERATORS); [|discriminate].
    intros [= <-]. split; [reflexivity|]. simpl. lia.
Qed.

Lemma _parse_identifier_type text pos :
  tok_type (_parse_identifier text pos) <> TOperator.
Proof.
  unfold _parse_identifier.
  repeat match goal with |- context [if ?b then _ else _] => destruct b end;
    simpl; discriminate.
Qed.

Lemma _parse_string_type text pos t :
  _parse_string text pos = Ok t -> tok_type t = TString.
Proof.
  unfold _parse_string. destruct (String.get pos text); [|discriminate].
  destruct (_ <=? _)%nat; [discriminate|]. now intros [= <-].
Qed.

(** A token is not the operator [LIKE]. *)
Definition not_like (t : token) : Prop :=
  tok_type t = TOperator -> (String.length (tok_value t) <= 2)%nat.

Lemma tokenize_loop_not_like fuel text :
  forall pos tokens out,
    Forall not_like tokens ->
    tokenize_loop fuel text pos tokens = Some (Ok out) ->
    Forall not_like out.
Proof.
  induction fuel as [|fuel IH]; intros pos tokens out Htok; simpl.
  - destruct (String.get pos text); [discriminate|]. now intros [= <-].
  - destruct (String.get pos text) as [char|]; [|now intros [= <-]].
    assert (Hadd : forall t, not_like t -> Forall not_like (tokens ++ [t])).
    { intros t Ht. apply Forall_app. split; [assumption|]. now constructor. }
    destruct (isspace char); [now apply IH|].
    destruct (isdigit char).
    { apply IH, Hadd. intros H. discriminate H. }
    destruct (is_one_of _ char).
    { destruct (_parse_string text pos) as [t|e] eqn:E; [|discriminate].
      apply IH, Hadd. intros H. apply _parse_string_type in E. congruence. }
    destruct (isalpha char || _).
    { apply IH, Hadd. intros H. now apply _parse_identifier_type in H. }
    destruct (is_one_of _ char).
    { destruct (_parse_operator text pos) as [t|e] eqn:E; [|discriminate].
      apply IH, Hadd. intros _. now apply _parse_operator_short in E. }
    destruct (is_one_of _ char); [|discriminate].
    apply IH, Hadd. intros H. discriminate H.
Qed.

(** No text makes the tokenizer emit an operator token [LIKE]: a token of
    kind operator has at most two characters. *)
Lemma tokenize_never_like text tokens t :
  _tokenize text = Some (Ok tokens) ->
  t ∈ tokens ->
  tok_type t = TOperator ->
  tok_value t <> "LIKE".
Proof.
  intros Htok Hin Hop Hval.
  apply tokenize_loop_not_like in Htok; [|constructor].
  rewrite Forall_forall in Htok. specialize (Htok t Hin Hop).
  rewrite Hval in Htok. simpl in Htok. lia.
Qed.

Definition age_check : string := "age >= 18".

Lemma tokenize_never_like_witness :
  _tokenize age_check
  = Some (Ok [Token TIdentifier "age" 0; Token TOperator ">=" 4; Token TNumber "18" 7])
  /\ tok_value (Token TOperator ">=" 4) <> "LIKE".
Proof.
  split; [vm_compute; reflexivity|].
  apply (tokenize_never_like age_check
           [Token TIdentifier "age" 0; Token TOperator ">=" 4; Token TNumber "18" 7]).
  - vm_compute. reflexivity.
  - apply list_elem_of_In. simpl. tauto.
  - reflexivity.
Defined.

(** C7 (the code falls short of the claim): on the text [name LIKE 'A%']
    the tokenizer emits [LIKE] as a token of kind identifier, not of kind
    operator. *)
Lemma like_is_tokenized_as_identifier :
  _tokenize "name LIKE 'A%'" =
  Some (Ok [Token TIdentifier "name" 0;
            Token TIdentifier "LIKE" 5;
            Token TString "'A%'" 10]).
Proof. vm_compute. reflexivity. Qed.

End TokenizerFacts.

Module TokenizerTotal.
Import Py Tokenizer.
Local Open Scope nat_scope.

(** *** The tokenizer loop terminates *)

Lemma get_some_lt text pos c : String.get pos text = Some c -> pos < String.length text.
Proof.
  revert pos. induction text as [|a text IH]; intros [|pos]; simpl; try discriminate.
  - lia.
  - intros H. apply IH in H. lia.
Qed.

Lemma substring_nonempty a n s :
  a < String.length s -> 1 <= n -> 1 <= String.length (String.substring a n s).
Proof.
  revert a n. induction s as [|c s IH]; intros [|a] [|n]; simpl; try lia.
  - intros Ha _. apply IH; lia.
Qed.

Lemma slice_nonempty text a b :
  a < String.length text -> a < b -> 1 <= String.length (slice text a b).
Proof. intros Ha Hb. unfold slice. apply substring_nonempty; lia. Qed.

Lemma scan_while_ge fuel p text pos : pos <= scan_while fuel p text pos.
Proof.
  revert pos. induction fuel as [|fuel IH]; intros pos; simpl; [lia|].
  destruct (String.get pos text) as [c|]; [|lia].
  destruct (p c); [|lia]. specialize (IH (S pos)). lia.
Qed.

Lemma scan_ge p text pos : pos <= scan p text pos.
Proof. apply scan_while_ge. Qed.

Lemma scan_advances p text pos c :
  String.get pos text = Some c -> p c = true -> S pos <= scan p text pos.
Proof.
  intros Hget Hp. pose proof (get_some_lt _ _ _ Hget) as Hlt. unfold scan.
  destruct (String.length text - pos) as [|fuel] eqn:E; [lia|].
  simpl. rewrite Hget, Hp. apply scan_while_ge.
Qed.

Lemma string_end_ge fuel q text pos : pos <= string_end fuel q text pos.
Proof.
  revert pos. induction fuel as [|fuel IH]; intros pos; simpl; [lia|].
  destruct (String.get pos text) as [c|]; [|lia].
  destruct (Ascii.eqb c q); [lia|].
  destruct (Ascii.eqb c "\").
  - specialize (IH (pos + 2)). lia.
  - specialize (IH (pos + 1)). lia.
Qed.

Lemma length_append (a b : string) :
  String.length (a +:+ b) = String.length a + String.length b.
Proof.
  induction a as [|c a IH]; [reflexivity|].
  change (S (String.length (a +:+ b)) = S (String.length a + String.length b)).
  now rewrite IH.
Qed.

Lemma upper_length s : String.length s <= String.length (upper s).
Proof.
  induction s as [|c s IH]; [reflexivity|].
  cbn [upper]. rewrite length_append.
  assert (1 <= String.length (upper_char c)).
  { unfold upper_char.
    repeat match goal with |- context [if ?b then _ else _] => destruct b end; simpl; lia. }
  simpl. lia.
Qed.

(** Every token the loop appends is at least one character long. *)
Lemma _parse_number_advances text pos c :
  String.get pos text = Some c -> isdigit c = true ->
  1 <= String.length (tok_value (_parse_number text pos)).
Proof.
  intros Hget Hd. unfold _parse_number. cbn [tok_value].
  pose proof (scan_advances _ _ _ _ Hget Hd) as H1.
  apply slice_nonempty; [eapply get_some_lt, Hget|].
  set (p1 := scan isdigit text pos) in *.
  set (p2 := if char_at_is text p1 _ then _ else p1).
  assert (H2 : p1 <= p2).
  { subst p2. destruct (char_at_is text p1 _); [|lia].
    pose proof (scan_ge isdigit text (S p1)). lia. }
  match goal with |- _ < (if ?b then ?x else _) => destruct b; [|lia] end.
  match goal with |- _ < scan _ _ ?q => pose proof (scan_ge isdigit text q) as H3 end.
  destruct (char_at_is text (S p2) _); lia.
Qed.

Lemma _parse_string_advances text pos t :
  _parse_string text pos = Ok t -> 1 <= String.length (tok_value t).
Proof.
  unfold _parse_string. destruct (String.get pos text) as [q|] eqn:Hget; [|discriminate].
  destruct (_ <=? _); [discriminate|]. intros [= <-]. cbn [tok_value].
  apply slice_nonempty; [eapply get_some_lt, Hget|].
  pose proof (string_end_ge (String.length text - pos) q text (S pos)). lia.
Qed.

Lemma _parse_identifier_advances text pos c :
  String.get pos text = Some c -> isalpha c || Ascii.eqb c "_" = true ->
  1 <= String.length (tok_value (_parse_identifier text pos)).
Proof.
  intros Hget Hc. unfold _parse_identifier.
  assert (Hv : 1 <= String.length
                      (slice text pos (scan (fun c => isalnum c || Ascii.eqb c "_") text pos))).
  { apply slice_nonempty; [eapply get_some_lt, Hget|].
    apply (scan_advances _ _ _ c Hget).
    unfold isalnum. apply orb_true_iff in Hc as [->| ->]; [reflexivity|].
    apply orb_true_r. }
  pose proof (upper_length
                (slice text pos (scan (fun c => isalnum c || Ascii.eqb c "_") text pos))).
  repeat match goal with |- context [if ?b then _ else _] => destruct b end;
    cbn [tok_value]; lia.
Qed.

Lemma _parse_operator_advances text pos t :
  _parse_operator text pos = Ok t -> 1 <= String.length (tok_value t).
Proof.
  unfold _parse_operator.
  destruct ((pos + 1 <? String.length text) && _) eqn:E.
  - intros [= <-]. cbn [tok_value]. apply andb_true_iff in E as [E _].
    apply Nat.ltb_lt in E. apply slice_nonempty; lia.
  - destruct (String.get pos text) as [c|]; [|discriminate].
    destruct (mem (String c EmptyString) OPERATORS); [|discriminate].
    intros [= <-]. simpl. lia.
Qed.

Lemma tokenize_loop_total fuel text pos tokens :
  String.length text - pos <= fuel ->
  exists r, tokenize_loop fuel text pos tokens = Some r.
Proof.
  revert pos tokens. induction fuel as [|fuel IH]; intros pos tokens Hfuel.
  - cbn [tokenize_loop]. destruct (String.get pos text) as [c|] eqn:Hget; [|eauto].
    apply get_some_lt in Hget. lia.
  - cbn [tokenize_loop]. destruct (String.get pos text) as [c|] eqn:Hget; [|eauto].
    pose proof (get_some_lt _ _ _ Hget) as Hlt.
    destruct (isspace c); [apply IH; lia|].
    destruct (isdigit c) eqn:Hd.
    { pose proof (_parse_number_advances _ _ _ Hget Hd). apply IH. lia. }
    destruct (is_one_of _ c).
    { destruct (_parse_string text pos) as [t|e] eqn:Hs; [|eauto].
      apply _parse_string_advances in Hs. apply IH. lia. }
    destruct (isalpha c || Ascii.eqb c "_") eqn:Ha.
    { pose proof (_parse_identifier_advances _ _ _ Hget Ha). apply IH. lia. }
    destruct (is_one_of _ c).
    { destruct (_parse_operator text pos) as [t|e] eqn:Ho; [|eauto].
      apply _parse_operator_advances in Ho. apply IH. lia. }
    destruct (is_one_of _ c); [apply IH; lia|eauto].
Qed.

(** [_tokenize] returns on every text: a token list or an exception. *)
Theorem tokenize_total text : exists r, _tokenize text = Some r.
Proof. apply tokenize_loop_total. lia. Qed.

End TokenizerTotal.

(** ** DecisionBundle validation *)

Module BundleFacts.
Import Py PyValue Bundle.

(** *** What a valid document is, in the words of the specification *)

Definition required_top : list string := ["version"; "metadata"; "rules"; "decisions"].
Definition required_metadata : list string :=
  ["id"; "name"; "description"; "created"; "jurisdiction"; "domain"].
Definition required_rule : list string := ["id"; "name"; "type"; "definition"].
Definition required_decision : list string :=
  ["id"; "ruleId"; "input"; "output"; "timestamp"].
Definition domains : list string := ["finance"; "health"; "esg"; "general"].
Definition rule_types : list string :=
  ["dsl"; "expression"; "decision_table"; "decision_tree"].

(** A document is invalid when a required field is missing at the top, in
    the metadata, in a rule or in a decision, when its version is not
    ["1.0"], when its domain is not one of [domains], or when the type of a
    rule is not one of [rule_types]. *)
Inductive invalid (d : dict) : Prop :=
| missing_top f :
    f ∈ required_top -> dict_get f d = None -> invalid d
| bad_version v :
    dict_get "version" d = Some v -> v <> VStr "1.0" -> invalid d
| missing_metadata m f :
    dict_get "metadata" d = Some (VDict m) ->
    f ∈ required_metadata -> dict_get f m = None -> invalid d
| bad_domain m v :
    dict_get "metadata" d = Some (VDict m) -> dict_get "domain" m = Some v ->
    (forall s, s ∈ domains -> v <> VStr s) -> invalid d
| missing_rule_field rules i r f :
    dict_get "rules" d = Some (VList rules) -> rules !! i = Some (VDict r) ->
    f ∈ required_rule -> dict_get f r = None -> invalid d
| bad_rule_type rules i r v :
    dict_get "rules" d = Some (VList rules) -> rules !! i = Some (VDict r) ->
    dict_get "type" r = Some v -> (forall s, s ∈ rule_types -> v <> VStr s) ->
    invalid d
| missing_decision_field decisions i x f :
    dict_get "decisions" d = Some (VList decisions) ->
    decisions !! i = Some (VDict x) ->
    f ∈ required_decision -> dict_get f x = None -> invalid d.

(** The document has the shape of the data model: the metadata, every
    rule, every decision and every decision output are mappings, the rules
    and the decisions are sequences.  (A part that is absent is not
    mis-shaped: it is missing.) *)
Definition is_dict (v : value) : bool :=
  match v with VDict _ => true | _ => false end.

Definition decision_shaped (v : value) : bool :=
  match v with
  | VDict x =>
      match dict_get "output" x with
      | Some (VDict _) | None => true
      | Some _ => false
      end
  | _ => false
  end.

Definition shaped (d : dict) : bool :=
  match dict_get "metadata" d with
  | Some (VDict _) | None => true
  | Some _ => false
  end
  && match dict_get "rules" d with
     | Some (VList l) => forallb is_dict l
     | None => true
     | Some _ => false
     end
  && match dict_get "decisions" d with
     | Some (VList l) => forallb decision_shaped l
     | None => true
     | Some _ => false
     end.

(** *** Equality with a string *)

Lemma py_eq_str v s : py_eq v (VStr s) = true <-> v = VStr s.
Proof.
  destruct v as [|b|z|f|t|l|d]; simpl; try (split; discriminate).
  rewrite String.eqb_eq. split; [now intros ->|now intros [= ->]].
Qed.

Lemma py_eq_str_l v s : py_eq (VStr s) v = true <-> v = VStr s.
Proof.
  destruct v as [|b|z|f|t|l|d]; simpl; try (split; discriminate).
  rewrite String.eqb_eq. split; [now intros ->|now intros [= ->]].
Qed.

Lemma py_in_strs v (l : list string) :
  py_in_list v (map VStr l) = false <-> forall s, s ∈ l -> v <> VStr s.
Proof.
  unfold py_in_list. induction l as [|x l IH].
  - split; [intros _ s Hs; inversion Hs|reflexivity].
  - cbn [map existsb]. rewrite orb_false_iff, IH, <- not_true_iff_false, py_eq_str_l.
    split.
    + intros [Hx Hl] s Hs. apply elem_of_cons in Hs as [->|Hs]; auto.
    + intros H. split; [apply H; left|intros s Hs; apply H; now right].
Qed.

Lemma py_in_strs_true v (l : list string) :
  py_in_list v (map VStr l) = true <-> exists s, s ∈ l /\ v = VStr s.
Proof.
  unfold py_in_list. induction l as [|x l IH].
  - split; [discriminate|]. intros (s & Hs & _). inversion Hs.
  - cbn [map existsb]. rewrite orb_true_iff, IH, py_eq_str_l. split.
    + intros [->|(s & Hs & ->)]; [exists x|exists s]; split; auto; [left|now right].
    + intros (s & Hs & ->). apply elem_of_cons in Hs as [->|Hs]; eauto.
Qed.

(** *** The checks, one by one *)

#[local] Arguments py_in_list : simpl never.
#[local] Arguments py_eq : simpl never.
#[local] Arguments py_str : simpl never.
#[local] Arguments String.append : simpl never.

Definition missing (d : dict) (f : string) : bool := negb (dict_has f d).

Lemma require_fields_dict fs d message path :
  require_fields fs (VDict d) message path =
  match find (missing d) fs with
  | Some f => Raise (ValidationException (message +:+ f) (Some (path +:+ f)))
  | None => Ok tt
  end.
Proof.
  induction fs as [|f fs IH]; [reflexivity|].
  cbn. unfold missing at 1. destruct (dict_has f d); cbn; [apply IH|reflexivity].
Qed.

#[local] Arguments require_fields : simpl never.

Lemma all_present fs d :
  find (missing d) fs = None ->
  Forall (fun f => exists v, dict_get f d = Some v) fs.
Proof.
  intros H. apply Forall_forall. intros f Hf.
  apply list_elem_of_In in Hf.
  pose proof (find_none _ _ H f Hf) as Hm. unfold missing, dict_has in Hm.
  destruct (dict_get f d) as [v|]; [now exists v|discriminate].
Qed.

Lemma found_missing fs d f :
  find (missing d) fs = Some f -> f ∈ fs /\ dict_get f d = None.
Proof.
  intros H. apply find_some in H as [Hin Hm]. split; [now apply list_elem_of_In|].
  unfold missing, dict_has in Hm. now destruct (dict_get f d).
Qed.

(** The construction failed with a [ValidationException] that names a
    field. *)
Definition field_error {A} (r : res A) : Prop :=
  exists message field,
    r = Raise (ValidationException message (Some field)) /\ field <> "".

Lemma nonempty_suffix (prefix f : string) : f <> "" -> prefix +:+ f <> "".
Proof. destruct prefix; [auto|discriminate]. Qed.

Lemma required_nonempty fs d f :
  Forall (fun f => f <> "") fs -> find (missing d) fs = Some f -> f <> "".
Proof.
  intros Hall H. apply found_missing in H as [Hin _].
  rewrite Forall_forall in Hall. auto.
Qed.

Ltac in_list := apply list_elem_of_In; simpl; tauto.

Lemma _validate_rule_cases r i :
  field_error (_validate_rule (VDict r) i)
  \/ (_validate_rule (VDict r) i = Ok tt
      /\ Forall (fun f => exists v, dict_get f r = Some v) required_rule
      /\ exists s, s ∈ rule_types /\ dict_get "type" r = Some (VStr s)).
Proof.
  unfold _validate_rule. rewrite require_fields_dict.
  destruct (find (missing r) _) as [f|] eqn:E; cbn.
  - left. do 2 eexists. split; [reflexivity|]. discriminate.
  - pose proof (all_present _ _ E) as Hall.
    assert (Hty : exists v, dict_get "type" r = Some v).
    { rewrite Forall_forall in Hall. apply Hall. in_list. }
    destruct Hty as [v Hv]. rewrite Hv. cbn.
    destruct (py_in_list v valid_types) eqn:Hin; cbn.
    + right. split; [reflexivity|]. split; [exact Hall|].
      change valid_types with (map VStr rule_types) in Hin.
      apply py_in_strs_true in Hin as (s & Hs & ->). eauto.
    + left. do 2 eexists. split; [reflexivity|]. discriminate.
Qed.

Lemma _validate_decision_cases x i :
  decision_shaped (VDict x) = true ->
  field_error (_validate_decision (VDict x) i)
  \/ (_validate_decision (VDict x) i = Ok tt
      /\ Forall (fun f => exists v, dict_get f x = Some v) required_decision).
Proof.
  intros Hshape. unfold _validate_decision. rewrite require_fields_dict.
  destruct (find (missing x) _) as [f|] eqn:E; cbn.
  - left. do 2 eexists. split; [reflexivity|]. discriminate.
  - pose proof (all_present _ _ E) as Hall.
    assert (Hout : exists v, dict_get "output" x = Some v).
    { rewrite Forall_forall in Hall. apply Hall. in_list. }
    destruct Hout as [o Ho]. cbn in Hshape. rewrite Ho in Hshape |- *.
    destruct o as [| | | | | |out]; try discriminate Hshape. cbn.
    destruct (dict_has "result" out); cbn.
    + right. now split.
    + left. do 2 eexists. split; [reflexivity|]. discriminate.
Qed.

Lemma for_enumerate_cases check (P : value -> Prop) xs :
  forall i,
    (forall x j, x ∈ xs -> field_error (check x j) \/ (check x j = Ok tt /\ P x)) ->
    field_error (for_enumerate check xs i)
    \/ (for_enumerate check xs i = Ok tt /\ Forall P xs).
Proof.
  induction xs as [|x xs IH]; intros i H; cbn.
  - right. split; [reflexivity|constructor].
  - destruct (H x i) as [Herr|[Hok HP]]; [now left| |].
    + left. destruct Herr as (m & f & Herr & Hf). rewrite Herr. cbn. now exists m, f.
    + rewrite Hok. cbn.
      destruct (IH (S i)) as [Herr|[Hok' HP']].
      * intros y j Hy. apply H. now right.
      * now left.
      * right. split; [assumption|now constructor].
Qed.

(** What the validator establishes when it passes. *)
Definition rule_ok (v : value) : Prop :=
  exists r, v = VDict r
    /\ Forall (fun f => exists x, dict_get f r = Some x) required_rule
    /\ exists s, s ∈ rule_types /\ dict_get "type" r = Some (VStr s).

Definition decision_ok (v : value) : Prop :=
  exists x, v = VDict x
    /\ Forall (fun f => exists y, dict_get f x = Some y) required_decision.

Definition valid_doc (d : dict) : Prop :=
  Forall (fun f => exists v, dict_get f d = Some v) required_top
  /\ dict_get "version" d = Some (VStr "1.0")
  /\ (exists m, dict_get "metadata" d = Some (VDict m)
        /\ Forall (fun f => exists v, dict_get f m = Some v) required_metadata
        /\ exists s, s ∈ domains /\ dict_get "domain" m = Some (VStr s))
  /\ (exists rules, dict_get "rules" d = Some (VList rules) /\ Forall rule_ok rules)
  /\ (exists decisions,
        dict_get "decisions" d = Some (VList decisions) /\ Forall decision_ok decisions).

Lemma _validate_cases d :
  shaped d = true ->
  field_error (_validate (VDict d))
  \/ (_validate (VDict d) = Ok tt /\ valid_doc d).
Proof.
  intros Hshape. unfold _validate. rewrite require_fields_dict.
  destruct (find (missing d) _) as [f|] eqn:E; cbn.
  { left. do 2 eexists. split; [reflexivity|].
    apply found_missing in E as [Hin _].
    repeat (apply elem_of_cons in Hin as [->|Hin]; [discriminate|]).
    now apply elem_of_nil in Hin. }
  pose proof (all_present _ _ E) as Htop.
  pose proof Htop as Htop'. rewrite Forall_forall in Htop'.
  destruct (Htop' "version") as [version Hversion]; [in_list|].
  destruct (Htop' "metadata") as [metadata Hmetadata]; [in_list|].
  destruct (Htop' "rules") as [rules Hrules]; [in_list|].
  destruct (Htop' "decisions") as [decisions Hdecisions]; [in_list|].
  unfold shaped in Hshape. rewrite Hmetadata, Hrules, Hdecisions in Hshape.
  apply andb_true_iff in Hshape as [Hshape Hsd].
  apply andb_true_iff in Hshape as [Hsm Hsr].
  destruct metadata as [| | | | | |m]; try discriminate Hsm.
  destruct rules as [| | | | |rules|]; try discriminate Hsr.
  destruct decisions as [| | | | |decisions|]; try discriminate Hsd.
  rewrite Hversion. cbn.
  destruct (py_eq version (VStr "1.0")) eqn:Hv; cbn.
  2:{ left. do 2 eexists. split; [reflexivity|discriminate]. }
  apply py_eq_str in Hv as ->.
  rewrite Hmetadata. cbn. rewrite require_fields_dict.
  destruct (find (missing m) _) as [f|] eqn:Em; cbn.
  { left. do 2 eexists. split; [reflexivity|discriminate]. }
  pose proof (all_present _ _ Em) as Hmeta.
  pose proof Hmeta as Hmeta'. rewrite Forall_forall in Hmeta'.
  destruct (Hmeta' "domain") as [domain Hdomain]; [in_list|].
  rewrite Hdomain. cbn.
  destruct (py_in_list domain valid_domains) eqn:Hd; cbn.
  2:{ left. do 2 eexists. split; [reflexivity|discriminate]. }
  change valid_domains with (map VStr domains) in Hd.
  apply py_in_strs_true in Hd as (s & Hs & ->).
  rewrite Hrules. cbn.
  destruct (for_enumerate_cases _validate_rule rule_ok rules 0) as [Herr|[Hok Hr]].
  { intros x j Hx. rewrite forallb_forall in Hsr.
    apply list_elem_of_In, Hsr in Hx. destruct x as [| | | | | |r]; try discriminate Hx.
    destruct (_validate_rule_cases r j) as [?|(? & ? & ?)]; [now left|].
    right. split; [assumption|]. exists r. auto. }
  { left. destruct Herr as (msg & f & Herr & Hf). rewrite Herr. cbn. now exists msg, f. }
  rewrite Hok. cbn. rewrite Hdecisions. cbn.
  destruct (for_enumerate_cases _validate_decision decision_ok decisions 0)
    as [Herr|[Hok' Hdec]].
  { intros x j Hx. rewrite forallb_forall in Hsd.
    apply list_elem_of_In, Hsd in Hx.
    destruct x as [| | | | | |x]; try discriminate Hx.
    destruct (_validate_decision_cases x j Hx) as [?|[? ?]]; [now left|].
    right. split; [assumption|]. exists x. auto. }
  { now left. }
  right. split; [assumption|].
  repeat split; eauto 10.
Qed.

Lemma valid_doc_not_invalid d : valid_doc d -> invalid d -> False.
Proof.
  intros (Htop & Hversion & (m & Hm & Hmeta & s & Hs & Hdomain)
          & (rules & Hrules & Hr) & (decisions & Hdecisions & Hdec)) Hinv.
  destruct Hinv as [f Hf Hnone|v Hv Hne|m' f Hm' Hf Hnone|m' v Hm' Hv Hno
                   |rules' i r f Hrules' Hi Hf Hnone|rules' i r v Hrules' Hi Hv Hno
                   |decisions' i x f Hdecisions' Hi Hf Hnone].
  - rewrite Forall_forall in Htop. destruct (Htop f Hf). congruence.
  - congruence.
  - assert (m' = m) as -> by congruence.
    rewrite Forall_forall in Hmeta. destruct (Hmeta f Hf). congruence.
  - assert (m' = m) as -> by congruence.
    apply (Hno s Hs). congruence.
  - assert (rules' = rules) as -> by congruence.
    rewrite Forall_forall in Hr.
    destruct (Hr (VDict r)) as (r' & [= <-] & Hall & _).
    { eapply list_elem_of_lookup_2; eauto. }
    rewrite Forall_forall in Hall. destruct (Hall f Hf). congruence.
  - assert (rules' = rules) as -> by congruence.
    rewrite Forall_forall in Hr.
    destruct (Hr (VDict r)) as (r' & [= <-] & _ & s' & Hs' & Hty).
    { eapply list_elem_of_lookup_2; eauto. }
    apply (Hno s' Hs'). congruence.
  - assert (decisions' = decisions) as -> by congruence.
    rewrite Forall_forall in Hdec.
    destruct (Hdec (VDict x)) as (x' & [= <-] & Hall).
    { eapply list_elem_of_lookup_2; eauto. }
    rewrite Forall_forall in Hall. destruct (Hall f Hf). congruence.
Qed.

End BundleFacts.

(** ** datetime: [fromisoformat] inverts [isoformat] *)

Module DatetimeFacts.
Import Py PyValue datetime.

Lemma digit_char_cases k :
  0 <= k < 10 ->
  digit_char k ∈ list_ascii_of_string "0123456789".
Proof.
  intros H.
  assert (k = 0 \/ k = 1 \/ k = 2 \/ k = 3 \/ k = 4 \/ k = 5 \/ k = 6 \/ k = 7
          \/ k = 8 \/ k = 9) as Hk by lia.
  apply list_elem_of_In.
  repeat (destruct Hk as [->|Hk]; [simpl; tauto|]). subst. simpl. tauto.
Qed.

Lemma digit_val_char k : 0 <= k < 10 -> digit_val (digit_char k) = Some k.
Proof.
  intros H.
  assert (k = 0 \/ k = 1 \/ k = 2 \/ k = 3 \/ k = 4 \/ k = 5 \/ k = 6 \/ k = 7
          \/ k = 8 \/ k = 9) as Hk by lia.
  repeat (destruct Hk as [->|Hk]; [reflexivity|]). subst. reflexivity.
Qed.

(** The characters [isoformat] writes. *)
Definition iso_char (c : ascii) : Prop :=
  c ∈ list_ascii_of_string "0123456789-T:.+".

Lemma digit_iso k : 0 <= k < 10 -> iso_char (digit_char k).
Proof.
  intros H. apply digit_char_cases in H. unfold iso_char.
  apply list_elem_of_In in H. apply list_elem_of_In. simpl in *. tauto.
Qed.

Lemma fixed_dec_iso w : forall n, Forall iso_char (fixed_dec w n).
Proof.
  induction w as [|w IH]; intros n; simpl; [constructor|].
  apply Forall_app. split; [apply IH|].
  constructor; [|constructor]. apply digit_iso. apply Z.mod_pos_bound. lia.
Qed.

Ltac iso_literal := unfold iso_char; apply list_elem_of_In; simpl; tauto.

Lemma isoformat_chars_iso d : Forall iso_char (isoformat_chars d).
Proof.
  unfold isoformat_chars, tz_suffix.
  destruct (microsecond d =? 0); destruct (tzinfo d) as [off|];
    try destruct (off <? 0);
    repeat first
      [ apply fixed_dec_iso
      | apply Forall_nil_2
      | apply Forall_cons_2; [iso_literal|]
      | apply Forall_app_2 ].
Qed.

Lemma replace_absent c new (l : list ascii) :
  Forall (fun x => x <> c) l ->
  replace c new (string_of_list_ascii l) = string_of_list_ascii l.
Proof.
  induction 1 as [|x l Hx _ IH]; simpl; [reflexivity|].
  destruct (Ascii.eqb_spec x c); [contradiction|]. now rewrite IH.
Qed.

Lemma replace_Z_isoformat d : replace "Z" "+00:00" (isoformat d) = isoformat d.
Proof.
  apply replace_absent. eapply Forall_impl; [apply isoformat_chars_iso|].
  intros c Hc ->. apply list_elem_of_In in Hc. simpl in Hc.
  repeat (destruct Hc as [Hc|Hc]; [discriminate Hc|]). exact Hc.
Qed.

(** Reading back a fixed-width decimal. *)
Lemma take_num_app a b : forall acc cs,
  take_num (a + b) acc cs =
  match take_num a acc cs with
  | Some (x, r) => take_num b x r
  | None => None
  end.
Proof.
  induction a as [|a IH]; intros acc cs; simpl; [reflexivity|].
  destruct cs as [|c r]; [reflexivity|].
  destruct (digit_val c); [apply IH|reflexivity].
Qed.

Lemma take_num_fixed w : forall n acc rest,
  0 <= n < 10 ^ Z.of_nat w ->
  take_num w acc (fixed_dec w n ++ rest) = Some (acc * 10 ^ Z.of_nat w + n, rest).
Proof.
  induction w as [|w IH]; intros n acc rest Hn.
  - simpl in *. f_equal. f_equal. lia.
  - replace (S w) with (w + 1)%nat at 1 by lia.
    rewrite take_num_app. cbn [fixed_dec]. rewrite <- app_assoc.
    assert (Hpow : 10 ^ Z.of_nat (S w) = 10 * 10 ^ Z.of_nat w).
    { rewrite Nat2Z.inj_succ, Z.pow_succ_r; lia. }
    rewrite IH.
    2:{ split; [apply Z.div_pos; lia|]. apply Z.div_lt_upper_bound; lia. }
    cbn [take_num app]. rewrite digit_val_char by (apply Z.mod_pos_bound; lia).
    f_equal. f_equal. rewrite Hpow.
    pose proof (Z.div_mod n 10). lia.
Qed.

Lemma take_num_0 (w : nat) n rest :
  0 <= n < 10 ^ Z.of_nat w ->
  take_num w 0 (fixed_dec w n ++ rest) = Some (n, rest).
Proof. intros H. rewrite take_num_fixed by assumption. do 2 f_equal. Qed.

Lemma valid_bounds d :
  valid d = true ->
  (1 <= year d <= 9999) /\ (1 <= month d <= 12) /\ (1 <= day d <= 31)
  /\ (0 <= hour d < 24) /\ (0 <= minute d < 60) /\ (0 <= second d < 60)
  /\ (0 <= microsecond d < 1000000)
  /\ (forall off, tzinfo d = Some off -> -1440 < off < 1440).
Proof.
  unfold valid. rewrite !andb_true_iff.
  rewrite !Z.leb_le, !Z.ltb_lt.
  intros ((((((((((((((? & ?) & ?) & ?) & ?) & Hday) & ?) & ?) & ?) & ?) & ?) & ?) & ?) & ?) & Htz).
  assert (days_in_month (year d) (month d) <= 31).
  { unfold days_in_month.
    repeat match goal with |- context [if ?b then _ else _] => destruct b end; lia. }
  do 7 (split; [lia|]).
  intros off Hoff. rewrite Hoff in Htz.
  apply andb_true_iff in Htz as [?%Z.ltb_lt ?%Z.ltb_lt]. lia.
Qed.

Lemma parse_tz_suffix tz :
  (forall off, tz = Some off -> -1440 < off < 1440) ->
  parse_tz (tz_suffix tz) = Some tz.
Proof.
  intros H. destruct tz as [off|]; [|reflexivity].
  specialize (H off eq_refl). unfold tz_suffix, parse_tz.
  assert (0 <= Z.abs off / 60 < 100).
  { split; [apply Z.div_pos; lia|apply Z.div_lt_upper_bound; lia]. }
  assert (0 <= Z.abs off mod 60 < 100).
  { pose proof (Z.mod_pos_bound (Z.abs off) 60). lia. }
  pose proof (Z.div_mod (Z.abs off) 60) as Hdm.
  destruct (Z.ltb_spec off 0).
  - cbn -[take_num fixed_dec]. rewrite take_num_0 by (simpl; lia).
    cbn -[take_num fixed_dec]. rewrite <- (app_nil_r (fixed_dec 2 (Z.abs off mod 60))).
    rewrite take_num_0 by (simpl; lia). cbn. do 2 f_equal. lia.
  - cbn -[take_num fixed_dec]. rewrite take_num_0 by (simpl; lia).
    cbn -[take_num fixed_dec]. rewrite <- (app_nil_r (fixed_dec 2 (Z.abs off mod 60))).
    rewrite take_num_0 by (simpl; lia). cbn. do 2 f_equal. lia.
Qed.

Lemma tz_suffix_no_dot tz r : tz_suffix tz = "."%char :: r -> False.
Proof.
  destruct tz as [off|]; [|discriminate]. unfold tz_suffix.
  destruct (off <? 0); discriminate.
Qed.

Lemma parse_fraction_tz us tz :
  0 <= us < 1000000 ->
  parse_fraction
    ((if us =? 0 then [] else "."%char :: fixed_dec 6 us) ++ tz_suffix tz)
  = Some (us, tz_suffix tz).
Proof.
  intros H. destruct (Z.eqb_spec us 0) as [->|Hne].
  - cbn [app]. unfold parse_fraction.
    destruct (tz_suffix tz) as [|c r] eqn:E; [reflexivity|].
    destruct (Ascii.eqb_spec c "."%char) as [->|Hc].
    + exfalso. eapply tz_suffix_no_dot; eauto.
    + destruct c as [[] [] [] [] [] [] [] []]; try reflexivity. now contradict Hc.
  - cbn [app parse_fraction]. now rewrite take_num_0 by (simpl; lia).
Qed.

Lemma parse_isoformat_chars d :
  valid d = true -> parse_chars (isoformat_chars d) = Some d.
Proof.
  intros Hv. destruct (valid_bounds d Hv) as (? & ? & ? & ? & ? & ? & ? & Htz).
  unfold parse_chars, isoformat_chars.
  rewrite take_num_0 by (simpl; lia). cbn -[take_num fixed_dec parse_fraction parse_tz].
  rewrite take_num_0 by (simpl; lia). cbn -[take_num fixed_dec parse_fraction parse_tz].
  rewrite take_num_0 by (simpl; lia). cbn -[take_num fixed_dec parse_fraction parse_tz].
  rewrite take_num_0 by (simpl; lia). cbn -[take_num fixed_dec parse_fraction parse_tz].
  rewrite take_num_0 by (simpl; lia). cbn -[take_num fixed_dec parse_fraction parse_tz].
  rewrite take_num_0 by (simpl; lia). cbn -[take_num fixed_dec parse_fraction parse_tz].
  rewrite parse_fraction_tz by lia. cbn -[parse_tz].
  rewrite parse_tz_suffix by assumption. cbn. now destruct d.
Qed.

(** Every valid datetime is read back from its ISO text; the replacement
    of [Z] that the managers apply first leaves that text as it is. *)
Lemma fromisoformat_isoformat d :
  valid d = true ->
  fromisoformat (replace "Z" "+00:00" (isoformat d)) = Ok d.
Proof.
  intros Hv. rewrite replace_Z_isoformat. unfold fromisoformat, isoformat.
  rewrite list_ascii_of_string_of_list_ascii, parse_isoformat_chars by assumption.
  now rewrite Hv.
Qed.

End DatetimeFacts.

(** ** hashlib: a SHA-256 hex digest is never the empty text *)

Module HashFacts.
Import hashlib.

Lemma sha_round_length st kw : length st = 8%nat -> length (sha_round st kw) = 8%nat.
Proof.
  intros H. do 9 (destruct st as [|? st]; try discriminate H). reflexivity.
Qed.

Lemma fold_sha_round_length kws : forall st,
  length st = 8%nat -> length (fold_left sha_round kws st) = 8%nat.
Proof.
  induction kws as [|kw kws IH]; intros st H; simpl; [assumption|].
  apply IH, sha_round_length, H.
Qed.

Lemma sha_block_length h block : length h = 8%nat -> length (sha_block h block) = 8%nat.
Proof.
  intros H. unfold sha_block.
  rewrite length_map, length_combine, fold_sha_round_length by assumption. lia.
Qed.

Lemma fold_sha_block_length blocks : forall h,
  length h = 8%nat -> length (fold_left sha_block blocks h) = 8%nat.
Proof.
  induction blocks as [|b blocks IH]; intros h H; simpl; [assumption|].
  apply IH, sha_block_length, H.
Qed.

Lemma sha256_hex_not_empty s : String.eqb (sha256_hex s) "" = false.
Proof.
  unfold sha256_hex, sha256_bytes.
  pose proof (fold_sha_block_length
                (chunks (length (pad be_bytes (encode s))) 64 (pad be_bytes (encode s)))
                H256 eq_refl) as H.
  destruct (fold_left sha_block _ H256) as [|x h]; [discriminate H|].
  reflexivity.
Qed.

End HashFacts.

(** ** Indexes *)

Module IndexFacts.
Import Index.

Lemma get_append_same k id (idx : index) : id ∈ get k (append k id idx).
Proof.
  unfold get, append. rewrite lookup_insert_eq. simpl.
  apply elem_of_app. right. now left.
Qed.

Lemma get_append_mono k id k' x (idx : index) :
  x ∈ get k' idx -> x ∈ get k' (append k id idx).
Proof.
  unfold get, append. intros H. destruct (decide (k = k')) as [->|Hne].
  - rewrite lookup_insert_eq. simpl. apply elem_of_app. now left.
  - now rewrite lookup_insert_ne.
Qed.

Lemma remove_first_other x y l : x <> y -> x ∈ l -> x ∈ remove_first y l.
Proof.
  intros Hne. induction l as [|z l IH]; simpl; [auto|].
  intros [<-|H]%elem_of_cons.
  - destruct (String.eqb_spec x y); [contradiction|]. now left.
  - destruct (String.eqb_spec z y); [assumption|]. right. auto.
Qed.

Lemma get_remove_other k id k' x (idx : index) :
  x <> id -> x ∈ get k' idx -> x ∈ get k' (remove k id idx).
Proof.
  unfold get, remove. intros Hne H.
  destruct (idx !! k) as [l|] eqn:E; [|assumption].
  destruct (decide (k = k')) as [->|Hk].
  - rewrite lookup_insert_eq. rewrite E in H. simpl in *.
    now apply remove_first_other.
  - now rewrite lookup_insert_ne.
Qed.

End IndexFacts.

(** ** The evidence manager *)

Module EvidenceFacts.
Import Py PyValue Evidence.

Lemma store_of_update e m : evidence_store (_update_indexes e m) = evidence_store m.
Proof. reflexivity. Qed.

Lemma get_stored_evidence e m : get_evidence (ev_id e) (_store_evidence e m) = Some e.
Proof. unfold get_evidence, _store_evidence. simpl. apply lookup_insert_eq. Qed.

(** What [create_evidence] returns when it returns. *)
Lemma create_evidence_ok now_local now_utc ty content source eid m e m' :
  create_evidence now_local now_utc ty content source eid m = (Ok e, m') ->
  m' = _store_evidence e m
  /\ ev_hash e = _calculate_hash content /\ ev_content e = content
  /\ ev_type e = ty /\ ev_source e = source
  /\ ev_timestamp e = datetime.isoformat now_utc.
Proof.
  unfold create_evidence.
  destruct (negb (existsb _ _)); [discriminate|].
  destruct (negb (py_bool content)); [discriminate|].
  intros [= <- <-]. repeat split.
Qed.

(** A record verifies right after it was created. *)
Lemma created_evidence_verifies now_local now_utc ty content source eid m e m' :
  create_evidence now_local now_utc ty content source eid m = (Ok e, m') ->
  valid (verify_evidence_integrity (ev_id e) m') = true.
Proof.
  intros H. apply create_evidence_ok in H as (-> & Hh & Hc & _).
  unfold verify_evidence_integrity. rewrite get_stored_evidence. cbv zeta.
  rewrite Hh, Hc. unfold _calculate_hash.
  rewrite HashFacts.sha256_hex_not_empty, String.eqb_refl. reflexivity.
Qed.

(** *** Index consistency under creation and deletion *)

Inductive op :=
| Create (now_local now_utc : datetime.t) (evidence_type : string) (content : value)
         (source : string) (evidence_id : option string)
| Delete (evidence_id : string).

Definition step (m : manager) (o : op) : manager :=
  match o with
  | Create nl nu ty content source eid =>
      snd (create_evidence nl nu ty content source eid m)
  | Delete eid => snd (delete_evidence eid m)
  end.

Definition run (ops : list op) (m : manager) : manager := fold_left step ops m.

(** Every stored record is listed under its type, its source and the date
    of its time stamp. *)
Definition consistent (m : manager) : Prop :=
  forall id e,
    evidence_store m !! id = Some e ->
    ev_id e = id
    /\ id ∈ get_evidence_by_type (ev_type e) m
    /\ id ∈ get_evidence_by_source (ev_source e) m
    /\ id ∈ Index.get (take 10 (ev_timestamp e)) (by_timestamp m).

Lemma consistent_init : consistent init.
Proof. intros id e H. simpl in H. now rewrite lookup_empty in H. Qed.

Lemma consistent_store e m : consistent m -> consistent (_store_evidence e m).
Proof.
  intros Hm id e' H. unfold _store_evidence, _update_indexes in *. simpl in *.
  unfold get_evidence_by_type, get_evidence_by_source. simpl.
  destruct (decide (ev_id e = id)) as [Heq|Hne].
  - rewrite <- Heq in *. rewrite lookup_insert_eq in H. injection H as <-.
    repeat split; apply IndexFacts.get_append_same.
  - rewrite lookup_insert_ne in H by assumption.
    destruct (Hm id e' H) as (? & ? & ? & ?).
    repeat split; try assumption; now apply IndexFacts.get_append_mono.
Qed.

Lemma consistent_delete eid m : consistent m -> consistent (snd (delete_evidence eid m)).
Proof.
  intros Hm. unfold delete_evidence, get_evidence.
  destruct (evidence_store m !! eid) as [e|] eqn:E; [|exact Hm].
  destruct (Hm eid e E) as (Hid & _).
  intros id e' H. simpl in *.
  unfold get_evidence_by_type, get_evidence_by_source. simpl.
  destruct (decide (eid = id)) as [->|Hne].
  - now rewrite lookup_delete_eq in H.
  - rewrite lookup_delete_ne in H by assumption.
    destruct (Hm id e' H) as (? & ? & ? & ?).
    assert (id <> ev_id e) by congruence.
    repeat split; try assumption; now apply IndexFacts.get_remove_other.
Qed.

Lemma consistent_step m o : consistent m -> consistent (step m o).
Proof.
  intros Hm. destruct o as [nl nu ty content source eid|eid]; simpl.
  - unfold create_evidence.
    destruct (negb (existsb _ _)); [exact Hm|].
    destruct (negb (py_bool content)); [exact Hm|].
    simpl. now apply consistent_store.
  - now apply consistent_delete.
Qed.

(** I3 for evidence: after any sequence of creations and deletions the
    indexes list every stored record under each of its properties. *)
Theorem evidence_indexes_consistent ops : consistent (run ops init).
Proof.
  unfold run. generalize consistent_init. generalize init.
  induction ops as [|o ops IH]; intros m Hm; simpl; [exact Hm|].
  apply IH, consistent_step, Hm.
Qed.

End EvidenceFacts.

(** ** The audit trail *)

Module AuditFacts.
Import Py PyValue Audit.

(** The store refers to objects only. *)
Definition well_formed (t : trail) : Prop :=
  forall id r, audit_store t !! id = Some r -> is_Some (objects t !! r).

Lemma new_ref_fresh t : objects t !! new_ref t = None.
Proof. unfold new_ref. apply not_elem_of_dom, is_fresh. Qed.

Lemma get_stored_entry e t : get_audit_entry (ae_id e) (_store_audit_entry e t) = Some e.
Proof.
  unfold get_audit_entry, get_audit_entry_ref, _store_audit_entry. simpl.
  rewrite lookup_insert_eq. simpl. apply lookup_insert_eq.
Qed.

Lemma create_audit_entry_ok now_local now_utc action user details aid bid t e t' :
  create_audit_entry now_local now_utc action user details aid bid t = (Ok e, t') ->
  t' = _store_audit_entry e t
  /\ ae_action e = action /\ ae_user e = user /\ ae_details e = details
  /\ ae_timestamp e = datetime.isoformat now_utc
  /\ ae_bundle_id e = bid
  /\ ae_hash e = _calculate_hash action user details now_utc.
Proof.
  unfold create_audit_entry.
  destruct (String.eqb action ""); [discriminate|].
  destruct (String.eqb user ""); [discriminate|].
  intros [= <- <-]. repeat split.
Qed.

(** An entry verifies right after it was created. *)
Lemma created_entry_verifies now_local now_utc action user details aid bid t e t' :
  datetime.valid now_utc = true ->
  create_audit_entry now_local now_utc action user details aid bid t = (Ok e, t') ->
  exists v, verify_audit_entry_integrity (ae_id e) t' = Ok v /\ valid v = true.
Proof.
  intros Hnow H.
  apply create_audit_entry_ok in H as (-> & Ha & Hu & Hd & Hts & _ & Hh).
  unfold verify_audit_entry_integrity. rewrite get_stored_entry, Hts.
  rewrite DatetimeFacts.fromisoformat_isoformat by assumption.
  cbn [mbind res_bind]. rewrite Ha, Hu, Hd, Hh. unfold _calculate_hash.
  rewrite HashFacts.sha256_hex_not_empty, String.eqb_refl.
  eexists. split; reflexivity.
Qed.

(** *** Bundles *)

Lemma append_nil_r (s : string) : s +:+ "" = s.
Proof.
  induction s as [|c s IH]; [reflexivity|].
  change (String c (s +:+ "") = String c s). now rewrite IH.
Qed.

Lemma append_assoc (a b c : string) : (a +:+ b) +:+ c = a +:+ (b +:+ c).
Proof.
  induction a as [|x a IH]; [reflexivity|].
  change (String x ((a +:+ b) +:+ c) = String x (a +:+ (b +:+ c))). now rewrite IH.
Qed.

Lemma concat_cons (x : string) (l : list string) :
  String.concat "" (x :: l) = x +:+ String.concat "" l.
Proof. destruct l; [symmetry; apply append_nil_r|reflexivity]. Qed.

(** The entry of a given id verifies: it is stored and unmodified. *)
Definition intact (id : string) (t : trail) : Prop :=
  exists v, verify_audit_entry_integrity id t = Ok v /\ valid v = true.

(** The entries a list of ids names, in the order of the list. *)
Definition members (ids : list string) (t : trail) : list entry :=
  omap (fun id => get_audit_entry id t) ids.

(** Time stamps in ascending order (equal neighbours allowed). *)
Fixpoint ascending (l : list string) : bool :=
  match l with
  | a :: (b :: _) as r => negb (String.ltb b a) && ascending r
  | _ => true
  end.

Lemma intact_found id t :
  intact id t ->
  exists r e, get_audit_entry_ref id t = Some r /\ get_audit_entry id t = Some e
              /\ objects t !! r = Some e.
Proof.
  intros (v & Hv & Hvalid). unfold verify_audit_entry_integrity in Hv.
  destruct (get_audit_entry id t) as [e|] eqn:E.
  - unfold get_audit_entry in E.
    destruct (get_audit_entry_ref id t) as [r|]; [|discriminate E].
    simpl in E. eauto.
  - injection Hv as <-. discriminate Hvalid.
Qed.

Lemma members_cons id ids t e :
  get_audit_entry id t = Some e -> members (id :: ids) t = e :: members ids t.
Proof. intros H. unfold members. simpl. now rewrite H. Qed.

Lemma deref_cons t r refs e :
  objects t !! r = Some e -> deref t (r :: refs) = e :: deref t refs.
Proof. intros H. unfold deref. simpl. now rewrite H. Qed.

Lemma collect_entries_ok ids t :
  (forall id, id ∈ ids -> intact id t) ->
  forall acc fed,
  exists refs,
    collect_entries ids t acc fed
    = Ok (acc ++ refs, fed +:+ String.concat "" (map ae_hash (members ids t)))
    /\ deref t refs = members ids t.
Proof.
  induction ids as [|id ids IH]; intros Hall acc fed.
  - exists []. simpl. now rewrite app_nil_r, append_nil_r.
  - assert (Hid : intact id t) by (apply Hall; left).
    destruct (intact_found id t Hid) as (r & e & Hr & He & Hobj).
    destruct Hid as (v & Hv & Hvalid).
    assert (Hrest : forall x, x ∈ ids -> intact x t) by (intros x Hx; apply Hall; now right).
    destruct (IH Hrest (acc ++ [r]) (fed +:+ ae_hash e)) as (refs & Hc & Hd).
    exists (r :: refs). cbn [collect_entries]. rewrite Hr, He, Hv.
    cbn [mbind res_bind]. rewrite Hvalid. cbn [negb].
    rewrite Hc, (members_cons id ids t e He), (deref_cons t r refs e Hobj), Hd.
    cbn [map]. rewrite concat_cons, <- app_assoc, append_assoc. now split.
Qed.

Lemma sorted_by_ascending {A} (key : A -> string) (l : list A) :
  ascending (map key l) = true -> sorted_by key l = l.
Proof.
  induction l as [|x l IH]; [reflexivity|].
  destruct l as [|y l]; [reflexivity|].
  intros H. cbn [map ascending] in H. apply andb_true_iff in H as [Hxy Hl].
  cbn [sorted_by] in *. rewrite IH by exact Hl. cbn [insert_by].
  apply negb_true_iff in Hxy. now rewrite Hxy.
Qed.

(** C1, as the code has it: for a non-empty list of stored, unmodified
    entries the bundle is created; its [bundle_hash] is the digest of the
    member hashes in the order of the id list, its [checksum] the digest of
    the member hashes in ascending time-stamp order; the two agree when the
    id list is already in ascending time-stamp order. *)
Theorem bundle_hash_and_checksum now_local now_utc name description ids bid t :
  name <> "" ->
  ids <> [] ->
  (forall id, id ∈ ids -> intact id t) ->
  exists b t',
    create_audit_bundle now_local now_utc name description ids bid t = (Ok b, t')
    /\ b_bundle_hash b
       = hashlib.sha256_hex (String.concat "" (map ae_hash (members ids t)))
    /\ b_checksum b
       = hashlib.sha256_hex
           (String.concat "" (map ae_hash (sorted_by ae_timestamp (members ids t))))
    /\ (ascending (map ae_timestamp (members ids t)) = true ->
        b_bundle_hash b = b_checksum b).
Proof.
  intros Hname Hids Hall. unfold create_audit_bundle.
  destruct (String.eqb_spec name ""); [contradiction|].
  destruct ids as [|id ids]; [contradiction|].
  destruct (collect_entries_ok (id :: ids) t Hall [] "") as (refs & Hc & Hd).
  rewrite Hc. cbn [app]. do 2 eexists. split; [reflexivity|].
  cbn [b_bundle_hash b_checksum]. unfold _calculate_bundle_checksum.
  rewrite Hd. repeat split.
  intros Hasc. now rewrite sorted_by_ascending.
Qed.

(** Two entries, [a1] made one second before [a2]. *)
Definition at_10_30_00 : datetime.t := datetime.DateTime 2024 1 15 10 30 0 0 (Some 0).
Definition at_10_30_01 : datetime.t := datetime.DateTime 2024 1 15 10 30 1 0 (Some 0).
Definition at_10_30_02 : datetime.t := datetime.DateTime 2024 1 15 10 30 2 0 (Some 0).

Definition two_entries : trail :=
  let t := snd (create_audit_entry at_10_30_00 at_10_30_00 "login" "alice" (VDict [])
                  (Some "a1") None init) in
  snd (create_audit_entry at_10_30_01 at_10_30_01 "logout" "alice" (VDict [])
         (Some "a2") None t).

Lemma two_entries_intact id : id ∈ ["a1"; "a2"] -> intact id two_entries.
Proof.
  intros H. apply elem_of_cons in H as [->|H];
    [|apply elem_of_cons in H as [->|H]; [|now apply elem_of_nil in H]].
  - eexists. split; [vm_compute; reflexivity|reflexivity].
  - eexists. split; [vm_compute; reflexivity|reflexivity].
Defined.

Lemma bundle_hash_and_checksum_witness :
  exists b t',
    create_audit_bundle at_10_30_02 at_10_30_02 "week 3" "" ["a1"; "a2"] (Some "B1")
      two_entries = (Ok b, t')
    /\ b_bundle_hash b
       = hashlib.sha256_hex
           (String.concat "" (map ae_hash (members ["a1"; "a2"] two_entries)))
    /\ b_checksum b
       = hashlib.sha256_hex
           (String.concat ""
              (map ae_hash (sorted_by ae_timestamp (members ["a1"; "a2"] two_entries))))
    /\ (ascending (map ae_timestamp (members ["a1"; "a2"] two_entries)) = true ->
        b_bundle_hash b = b_checksum b).
Proof.
  apply (bundle_hash_and_checksum at_10_30_02 at_10_30_02 "week 3" "" ["a1"; "a2"]
           (Some "B1") two_entries).
  - discriminate.
  - discriminate.
  - exact two_entries_intact.
Defined.

(** C1 as stated fails: bundling the two stored, unmodified entries with
    the later one named first gives a [bundle_hash] (the digest of the
    hashes in the order of the id list) that differs from the [checksum]
    (the digest in time-stamp order). *)
Lemma bundle_hash_differs_from_checksum :
  match fst (create_audit_bundle at_10_30_02 at_10_30_02 "week 3" "" ["a2"; "a1"]
               (Some "B1") two_entries) with
  | Ok b =>
      b_bundle_hash b = "138a5acdc69c8c1760208cbbb288a68da8a0ce96ae3767d47fcc65d44a3cdbbd"
      /\ b_checksum b = "9118ee57812bb06ba21821842efc956de03a0bd2369e69f48884b4dd30e2cb89"
      /\ b_checksum b
         = hashlib.sha256_hex
             (String.concat ""
                (map ae_hash (sorted_by ae_timestamp (members ["a2"; "a1"] two_entries))))
  | Raise _ => False
  end.
Proof. vm_compute. repeat split. Qed.

(** *** Indexes *)

(** C2 (the code falls short of the claim): after [a1] was bundled into
    [B7] its stored [bundle_id] is [B7], yet the [by_bundle] index has no
    entry for [B7]: the last loop of [create_audit_bundle] sets the field
    and leaves the index as it was. *)
Lemma bundled_entry_missing_from_bundle_index :
  let t := snd (create_audit_bundle at_10_30_02 at_10_30_02 "week 3" "" ["a1"]
                  (Some "B7") two_entries) in
  (ae_bundle_id <$> get_audit_entry "a1" t) = Some (Some "B7")
  /\ get_audit_entries_by_bundle "B7" t = [].
Proof. vm_compute. split; reflexivity. Qed.

(** [create_audit_bundle] never touches the [by_bundle] index. *)
Lemma create_audit_bundle_keeps_by_bundle now_local now_utc name description ids bid t :
  by_bundle (snd (create_audit_bundle now_local now_utc name description ids bid t))
  = by_bundle t.
Proof.
  unfold create_audit_bundle.
  destruct (String.eqb name ""); [reflexivity|].
  destruct ids; [reflexivity|].
  destruct (collect_entries _ _ _ _) as [[entries fed]|e]; reflexivity.
Qed.

Inductive op :=
| CreateEntry (now_local now_utc : datetime.t) (action user : string) (details : value)
              (audit_id bundle_id : option string)
| CreateBundle (now_local now_utc : datetime.t) (name description : string)
               (audit_ids : list string) (bundle_id : option string).

Definition step (t : trail) (o : op) : trail :=
  match o with
  | CreateEntry nl nu action user details aid bid =>
      snd (create_audit_entry nl nu action user details aid bid t)
  | CreateBundle nl nu name description ids bid =>
      snd (create_audit_bundle nl nu name description ids bid t)
  end.

Definition run (ops : list op) (t : trail) : trail := fold_left step ops t.

(** Every stored entry is listed under its user, its action and the date
    of its time stamp. *)
Definition listed (t : trail) : Prop :=
  forall id e,
    get_audit_entry id t = Some e ->
    ae_id e = id
    /\ id ∈ get_audit_entries_by_user (ae_user e) t
    /\ id ∈ get_audit_entries_by_action (ae_action e) t
    /\ id ∈ Index.get (take 10 (ae_timestamp e)) (by_timestamp t).

Lemma listed_store e t : well_formed t -> listed t ->
  well_formed (_store_audit_entry e t) /\ listed (_store_audit_entry e t).
Proof.
  intros Hwf Hl. pose proof (new_ref_fresh t) as Hfresh. split.
  - intros id r. unfold _store_audit_entry. simpl.
    destruct (decide (ae_id e = id)) as [<-|Hne].
    + rewrite lookup_insert_eq. intros [= <-]. rewrite lookup_insert_eq. eauto.
    + rewrite lookup_insert_ne by assumption. intros H.
      destruct (Hwf id r H) as [e' He'].
      rewrite lookup_insert_ne; [eauto|]. intros <-. congruence.
  - intros id e'. unfold get_audit_entry, get_audit_entry_ref, _store_audit_entry.
    unfold get_audit_entries_by_user, get_audit_entries_by_action. simpl.
    destruct (decide (ae_id e = id)) as [<-|Hne].
    + rewrite lookup_insert_eq. simpl. rewrite lookup_insert_eq. intros [= <-].
      repeat split; apply IndexFacts.get_append_same.
    + rewrite lookup_insert_ne by assumption.
      destruct (audit_store t !! id) as [r|] eqn:Hr; [|discriminate]. simpl.
      destruct (Hwf id r Hr) as [e0 He0].
      rewrite lookup_insert_ne by (intros <-; congruence).
      intros He'. destruct (Hl id e') as (? & ? & ? & ?).
      { unfold get_audit_entry, get_audit_entry_ref. now rewrite Hr. }
      repeat split; try assumption; now apply IndexFacts.get_append_mono.
Qed.

Lemma mark_entries_lookup ids bid store : forall objs r,
  mark_entries ids bid objs store !! r = objs !! r
  \/ mark_entries ids bid objs store !! r = set_bundle_id (Some bid) <$> objs !! r.
Proof.
  induction ids as [|id ids IH]; intros objs r; simpl; [now left|].
  destruct (store !! id) as [r'|]; [|apply IH].
  destruct (IH (alter (set_bundle_id (Some bid)) r' objs) r) as [H|H]; rewrite H.
  - destruct (decide (r' = r)) as [->|Hne].
    + right. apply lookup_alter_eq.
    + left. now apply lookup_alter_ne.
  - right. destruct (decide (r' = r)) as [->|Hne].
    + rewrite lookup_alter_eq. now destruct (objs !! r).
    + now rewrite lookup_alter_ne.
Qed.

Lemma listed_bundle nl nu name description ids bid t :
  well_formed t -> listed t ->
  well_formed (snd (create_audit_bundle nl nu name description ids bid t))
  /\ listed (snd (create_audit_bundle nl nu name description ids bid t)).
Proof.
  intros Hwf Hl. unfold create_audit_bundle.
  destruct (String.eqb name ""); [now split|].
  destruct ids as [|i ids]; [now split|].
  destruct (collect_entries _ _ _ _) as [[entries fed]|e]; [|now split].
  cbn [snd]. set (bid' := if is_empty_opt bid then _ else _).
  set (ids' := i :: ids). split.
  - intros id r H. cbn [audit_store objects] in *. destruct (Hwf id r H) as [e He].
    destruct (mark_entries_lookup ids' bid' (audit_store t) (objects t) r) as [->| ->];
      rewrite He; simpl; eauto.
  - intros id e. unfold get_audit_entry, get_audit_entry_ref,
      get_audit_entries_by_user, get_audit_entries_by_action.
    cbn [audit_store objects by_user by_action by_timestamp].
    destruct (audit_store t !! id) as [r|] eqn:Hr; [|discriminate]. cbn [mbind option_bind].
    destruct (Hwf id r Hr) as [e0 He0].
    assert (Hl0 : get_audit_entry id t = Some e0).
    { unfold get_audit_entry, get_audit_entry_ref. now rewrite Hr. }
    destruct (Hl id e0 Hl0) as (? & ? & ? & ?).
    destruct (mark_entries_lookup ids' bid' (audit_store t) (objects t) r) as [->| ->];
      rewrite He0; simpl; intros [= <-]; now repeat split.
Qed.

Lemma listed_step t o : well_formed t /\ listed t ->
  well_formed (step t o) /\ listed (step t o).
Proof.
  intros [Hwf Hl]. destruct o as [nl nu action user details aid bid|nl nu name d ids bid].
  - simpl. unfold create_audit_entry.
    destruct (String.eqb action ""); [now split|].
    destruct (String.eqb user ""); [now split|].
    now apply listed_store.
  - now apply listed_bundle.
Qed.

(** I3 for the audit trail, the part the code keeps: after any sequence
    of entry and bundle creations every stored entry is listed under its
    user, its action and the date of its time stamp. *)
Theorem audit_indexes_consistent ops : listed (run ops init).
Proof.
  assert (H : well_formed init /\ listed init).
  { split.
    - intros id r H. simpl in H. now rewrite lookup_empty in H.
    - intros id e H. unfold get_audit_entry, get_audit_entry_ref in H. simpl in H.
      now rewrite lookup_empty in H. }
  unfold run. revert H. generalize init.
  induction ops as [|o ops IH]; intros t H; simpl; [apply H|].
  apply IH, listed_step, H.
Qed.

End AuditFacts.

(** ** Records verify after creation *)

Module IntegrityFacts.
Import Py PyValue.

(** C4: a record that [create_evidence] returned, and an entry that
    [create_audit_entry] returned, verify when nothing touched them since:
    the verification of their id answers [valid = true].  (The clock's
    answer [now_utc] is a valid date and time.) *)
Theorem created_records_verify (now_local now_utc : datetime.t) :
  datetime.valid now_utc = true ->
  (forall evidence_type content source evidence_id m e m',
      Evidence.create_evidence now_local now_utc evidence_type content source
        evidence_id m = (Ok e, m') ->
      Evidence.valid (Evidence.verify_evidence_integrity (Evidence.ev_id e) m') = true)
  /\ (forall action user details audit_id bundle_id t e t',
         Audit.create_audit_entry now_local now_utc action user details
           audit_id bundle_id t = (Ok e, t') ->
         exists v,
           Audit.verify_audit_entry_integrity (Audit.ae_id e) t' = Ok v
           /\ Audit.valid v = true).
Proof.
  intros Hnow. split.
  - intros. eapply EvidenceFacts.created_evidence_verifies; eassumption.
  - intros. eapply AuditFacts.created_entry_verifies; eassumption.
Qed.

Definition noon : datetime.t := datetime.DateTime 2024 3 1 12 0 0 250000 (Some 0).

Definition reading : value := VDict [("sensor", VStr "t-17"); ("celsius", VInt 21)].

Definition stored_reading : Evidence.evidence :=
  Evidence.MkEvidence "e1" "metric" reading "2024-03-01T12:00:00.250000+00:00" "probe"
    (Evidence._calculate_hash reading).

Definition manager_with_reading : Evidence.manager :=
  snd (Evidence.create_evidence noon noon "metric" reading "probe" (Some "e1")
         Evidence.init).

Definition stored_login : Audit.entry :=
  Audit.MkEntry "a1" "2024-03-01T12:00:00.250000+00:00" "login" "alice" (VDict [])
    None (Audit._calculate_hash "login" "alice" (VDict []) noon).

Definition trail_with_login : Audit.trail :=
  snd (Audit.create_audit_entry noon noon "login" "alice" (VDict []) (Some "a1") None
         Audit.init).

Lemma created_records_verify_witness :
  Evidence.valid (Evidence.verify_evidence_integrity "e1" manager_with_reading) = true
  /\ exists v,
       Audit.verify_audit_entry_integrity "a1" trail_with_login = Ok v
       /\ Audit.valid v = true.
Proof.
  destruct (created_records_verify noon noon eq_refl) as [He Ha]. split.
  - apply (He "metric" reading "probe" (Some "e1") Evidence.init stored_reading
              manager_with_reading).
    vm_compute. reflexivity.
  - apply (Ha "login" "alice" (VDict []) (Some "a1") None Audit.init stored_login
              trail_with_login).
    vm_compute. reflexivity.
Defined.

End IntegrityFacts.

(** ** The DSL evaluator *)

Module DSLFacts.
Import Py PyValue DSL.

(** *** Temporal conditions *)

Lemma to_datetime_ok v : exists w, to_datetime v = Ok w.
Proof.
  destruct v as [| | | |s| |]; simpl; eauto.
  unfold datetime.fromisoformat.
  destruct (datetime.parse_chars _) as [d|]; [destruct (datetime.valid d)|]; eauto.
Qed.

Lemma load_timezone_fails :
  load_global "timezone" = Raise (PyExn NameError "name 'timezone' is not defined").
Proof. reflexivity. Qed.

(** A [WITHIN] or [EXPIRES AFTER] condition with an integer duration never
    yields a comparison result: building the duration overflows, or the
    name [timezone] is looked up and is not there. *)
Lemma duration_condition_raises re_search re_match now variable (expires : bool) d context :
  exists e,
    _evaluate_condition re_search re_match now
      (TemporalCondition (VariableNode variable)
         (if expires then "EXPIRES" else "WITHIN") (NumberValue (VInt d))) context
    = Raise e.
Proof.
  cbn [_evaluate_condition]. unfold _evaluate_temporal_condition.
  cbn [_get_value mbind res_bind].
  destruct (to_datetime_ok (_get_variable_value variable context)) as [w ->].
  cbn [to_datetime mbind res_bind is_number].
  destruct expires; cbn [String.eqb Ascii.eqb Bool.eqb];
    destruct (datetime.timedelta_seconds (VInt d)) as [duration|e];
    cbn [mbind res_bind]; rewrite ?load_timezone_fails; cbn [mbind res_bind]; eauto.
Qed.

(** Such a rule always ends in an evaluation error, whatever the clock
    reads and whatever the context holds. *)
Lemma duration_rule_is_evaluation_error re_search re_match now variable (expires : bool) d
    conseq act context :
  exists msg,
    evaluate re_search re_match now
      (Rule (TemporalCondition (VariableNode variable)
               (if expires then "EXPIRES" else "WITHIN") (NumberValue (VInt d)))
            conseq act) context
    = Outcome false ("Evaluation error: " +:+ msg) None (Some msg).
Proof.
  destruct (duration_condition_raises re_search re_match now variable expires d context)
    as [e He].
  unfold evaluate, evaluate_body. rewrite He. cbn [mbind res_bind]. eauto.
Qed.

(** C5 (the code falls short of the claim): [created WITHIN 3600] on a
    record created at 10:00:00 UTC, and [valid_until EXPIRES AFTER 3600] on
    one valid until 18:00:00 UTC, are evaluation errors with result false
    whatever the regex engine and the clock are, also when the clock reads
    10:30:00 and the claim expects result true for both. *)
Lemma within_is_evaluation_error :
  (fun re_search re_match now =>
     let context := [("created", VStr "2024-01-15T10:00:00Z");
                     ("valid_until", VStr "2024-01-15T18:00:00Z")] in
     let body := Some (Expression (BooleanLiteral true)) in
     let rule variable operator :=
       Rule (TemporalCondition (VariableNode variable) operator (NumberValue (VInt 3600)))
            body None in
     (evaluate re_search re_match now (rule "created" "WITHIN") context,
      evaluate re_search re_match now (rule "valid_until" "EXPIRES") context))
  = (fun _ _ _ =>
       let failed :=
         Outcome false "Evaluation error: name 'timezone' is not defined" None
           (Some "name 'timezone' is not defined") in
       (failed, failed)).
Proof. vm_compute. reflexivity. Qed.

(** *** Compound conditions *)

(** The value [A op B] has once both operands returned. *)
Definition combine (operator : string) (l r : cond_result) : cond_result :=
  RCompound
    (if String.eqb operator "AND" then cr_result l && cr_result r
     else if String.eqb operator "OR" then cr_result l || cr_result r
     else false)
    l r operator.

(** C6, as the code has it: a compound condition evaluates both of its
    operands, the left one first, whatever the left one yields; an error
    of either operand is the error of the compound, and only when both
    returned is the result their conjunction or disjunction. *)
Theorem compound_evaluates_both_operands re_search re_match now lhs operator rhs context :
  _evaluate_condition re_search re_match now (CompoundCondition lhs operator rhs) context
  = match _evaluate_condition re_search re_match now lhs context,
          _evaluate_condition re_search re_match now rhs context with
    | Raise e, _ => Raise e
    | Ok _, Raise e => Raise e
    | Ok l, Ok r => Ok (combine operator l r)
    end.
Proof.
  cbn [_evaluate_condition].
  destruct (_evaluate_condition re_search re_match now lhs context) as [l|e];
    cbn [mbind res_bind]; [|reflexivity].
  destruct (_evaluate_condition re_search re_match now rhs context) as [r|e];
    reflexivity.
Qed.

(** C6 as stated fails: with [user.age = 16] the condition
    [user.age >= 18] is false and a rule on it alone does not apply
    (result true, "Condition not met"); joined by [AND] to a condition
    whose evaluation raises, the same rule ends in an evaluation error
    with result false: the right operand was evaluated. *)
Lemma right_operand_is_evaluated :
  (fun re_search re_match now =>
     let age_check := SimpleCondition (VariableNode "user.age") ">=" (NumberValue (VInt 18)) in
     let raising := TemporalCondition (VariableNode "signup") "BEFORE" (StringValue "soon") in
     let context := [("user", VDict [("age", VInt 16)])] in
     let body := Some (Expression (BooleanLiteral false)) in
     (evaluate re_search re_match now (Rule age_check body None) context,
      evaluate re_search re_match now
        (Rule (CompoundCondition age_check "AND" raising) body None) context))
  = (fun _ _ _ =>
       (Outcome true "Condition not met"
          (Some (DCondition (RSimple false (VInt 16) ">=" (VInt 18)))) None,
        Outcome false
          "Evaluation error: '<' not supported between instances of 'NoneType' and 'str'"
          None (Some "'<' not supported between instances of 'NoneType' and 'str'"))).
Proof. vm_compute. reflexivity. Qed.

End DSLFacts.

(** ** Comparisons on a path that is not in the context *)

Module MissingPathFacts.
Import Py PyValue DSL.

(** The lookup the evaluator performs for a dotted name, with the outcome
    of each mapping access kept: [None] as soon as an intermediate value is
    not a mapping or a key is not in it. *)
Fixpoint lookup_path (parts : list string) (v : value) : option value :=
  match parts with
  | [] => Some v
  | part :: rest =>
      match v with
      | VDict d =>
          match dict_get part d with
          | Some v' => lookup_path rest v'
          | None => None
          end
      | _ => None
      end
  end.

Definition path_missing (name : string) (context : dict) : bool :=
  match lookup_path (split "." name) (VDict context) with
  | Some _ => false
  | None => true
  end.

Definition is_none (v : value) : bool :=
  match v with VNone => true | _ => false end.

(** The regular expression [LIKE] builds from its right operand. *)
Definition like_pattern (p : string) : string :=
  "^" +:+ replace "_" "." (replace "%" ".*" p) +:+ "$".

Lemma missing_is_none name context :
  path_missing name context = true -> _get_variable_value name context = VNone.
Proof.
  unfold path_missing, _get_variable_value.
  generalize (VDict context). generalize (split "." name).
  induction l as [|part rest IH]; intros v; simpl; [discriminate|].
  destruct v as [|b|z|f|t|l|d]; try reflexivity.
  destruct (dict_get part d) as [v'|]; [apply IH|reflexivity].
Qed.

Lemma none_eq v : py_eq VNone v = is_none v.
Proof. now destruct v as [|b|z|f|t|l|d]. Qed.

Lemma none_is_unordered op v : exists msg, py_cmp op VNone v = Raise (PyExn TypeError msg).
Proof. destruct v as [|b|z|f|t|l|d], op; simpl; eauto. Qed.

Lemma order_with_none re_match op v :
  op ∈ ["<"; "<="; ">"; ">="] -> _apply_operator re_match VNone op v = Ok false.
Proof.
  intros Hop. unfold _apply_operator.
  repeat (apply elem_of_cons in Hop as [->|Hop]);
    [ destruct (none_is_unordered OpLt v) as [msg Hm]
    | destruct (none_is_unordered OpLe v) as [msg Hm]
    | destruct (none_is_unordered OpGt v) as [msg Hm]
    | destruct (none_is_unordered OpGe v) as [msg Hm]
    | now apply elem_of_nil in Hop ];
    cbn [String.eqb Ascii.eqb Bool.eqb andb]; rewrite Hm; reflexivity.
Qed.

(** What an operator answers when its left operand is the null
    sentinel. *)
Lemma operators_on_none re_match rv :
  (forall operator, operator ∈ ["<"; "<="; ">"; ">="] ->
     _apply_operator re_match VNone operator rv = Ok false)
  /\ _apply_operator re_match VNone "=" rv = Ok (is_none rv)
  /\ _apply_operator re_match VNone "!=" rv = Ok (negb (is_none rv))
  /\ (forall p, rv = VStr p ->
        _apply_operator re_match VNone "LIKE" rv
        = catch_type_value (re_match (like_pattern p) "None") false)
  /\ ((forall p, rv <> VStr p) ->
      _apply_operator re_match VNone "LIKE" rv
      = Raise (PyExn AttributeError
                 ("'" +:+ type_name rv +:+ "' object has no attribute 'replace'"))).
Proof.
  split; [|split; [|split; [|split]]].
  - intros operator Hop. now apply order_with_none.
  - unfold _apply_operator. cbn [String.eqb Ascii.eqb Bool.eqb andb].
    now rewrite none_eq.
  - unfold _apply_operator. cbn [String.eqb Ascii.eqb Bool.eqb andb].
    now rewrite none_eq.
  - intros p ->. reflexivity.
  - intros Hno. unfold _apply_operator. cbn [String.eqb Ascii.eqb Bool.eqb andb].
    destruct rv as [|b|z|f|t|l|d]; try reflexivity. now destruct (Hno t).
Qed.

(** C8, as the code has it: a dotted name with a missing intermediate or
    final mapping lookup resolves to the null sentinel, and a simple
    condition or a constraint on it is false for [<], [<=], [>] and [>=];
    [=] holds exactly when the right side is null as well, [!=] exactly
    when it is not, [LIKE] with a string on the right matches its pattern
    against the text [None], and [LIKE] with anything else on the right
    raises [AttributeError]. *)
Theorem missing_path_comparisons re_match name right context rv :
  path_missing name context = true ->
  _get_value right context = Ok rv ->
  let simple operator :=
    _evaluate_simple_condition re_match (VariableNode name) operator right context in
  let constraint operator :=
    _evaluate_constraint re_match (VariableNode name) operator right context in
  let unsupported :=
    PyExn AttributeError ("'" +:+ type_name rv +:+ "' object has no attribute 'replace'") in
  _get_variable_value name context = VNone
  /\ (forall operator, operator ∈ ["<"; "<="; ">"; ">="] ->
        simple operator = Ok (RSimple false VNone operator rv)
        /\ constraint operator = Ok (KConstraint false VNone operator rv))
  /\ simple "=" = Ok (RSimple (is_none rv) VNone "=" rv)
  /\ constraint "=" = Ok (KConstraint (is_none rv) VNone "=" rv)
  /\ simple "!=" = Ok (RSimple (negb (is_none rv)) VNone "!=" rv)
  /\ constraint "!=" = Ok (KConstraint (negb (is_none rv)) VNone "!=" rv)
  /\ (forall p, rv = VStr p ->
        simple "LIKE" =
        (matched ← catch_type_value (re_match (like_pattern p) "None") false;
         Ok (RSimple matched VNone "LIKE" rv))
        /\ constraint "LIKE" =
           (matched ← catch_type_value (re_match (like_pattern p) "None") false;
            Ok (KConstraint matched VNone "LIKE" rv)))
  /\ ((forall p, rv <> VStr p) ->
      simple "LIKE" = Raise unsupported /\ constraint "LIKE" = Raise unsupported).
Proof.
  intros Hmiss Hright simple constraint unsupported. subst simple constraint unsupported.
  pose proof (missing_is_none name context Hmiss) as Hnone.
  destruct (operators_on_none re_match rv) as (Hord & Heq & Hne & Hlike & Hbad).
  unfold _evaluate_simple_condition, _evaluate_constraint.
  cbn [_get_value mbind res_bind].
  rewrite Hnone, Hright. cbn [mbind res_bind].
  split; [reflexivity|].
  split; [intros operator Hop; now rewrite (Hord operator Hop)|].
  rewrite Heq, Hne. cbn [mbind res_bind].
  do 4 (split; [reflexivity|]).
  split.
  - intros p Hp. rewrite (Hlike p Hp). split; reflexivity.
  - intros Hno. rewrite (Hbad Hno). split; reflexivity.
Qed.

Definition no_match (pattern s : string) : res bool := Ok false.

Definition minor_profile : dict := [("user", VDict [("age", VInt 20)])].

Lemma missing_path_comparisons_witness :
  path_missing "user.address.city" minor_profile = true
  /\ _evaluate_simple_condition no_match (VariableNode "user.address.city") ">="
       (NumberValue (VInt 18)) minor_profile
     = Ok (RSimple false VNone ">=" (VInt 18)).
Proof.
  split; [reflexivity|].
  destruct (missing_path_comparisons no_match "user.address.city"
              (NumberValue (VInt 18)) minor_profile (VInt 18) eq_refl eq_refl)
    as (_ & Hord & _).
  apply (Hord ">="). apply list_elem_of_In. simpl. tauto.
Defined.

(** C8 as stated fails for [!=]: [user.address.city != 18] on a context
    without [address] is true, for every regex engine. *)
Lemma missing_path_not_equal_holds :
  (fun re_match =>
     (path_missing "user.address.city" minor_profile,
      _evaluate_simple_condition re_match (VariableNode "user.address.city") "!="
        (NumberValue (VInt 18)) minor_profile))
  = (fun _ => (true, Ok (RSimple true VNone "!=" (VInt 18)))).
Proof. vm_compute. reflexivity. Qed.

End MissingPathFacts.

(** ** The rule engine's cache *)

Module EngineFacts.
Import Py PyValue Engine.

Lemma dict_get_set k k' v d :
  dict_get k (dict_set k' v d) = if String.eqb k k' then Some v else dict_get k d.
Proof.
  induction d as [|[k0 v0] d IH]; simpl; [reflexivity|].
  destruct (String.eqb k' k0) eqn:E'; simpl.
  - apply String.eqb_eq in E' as <-. now destruct (String.eqb k k').
  - rewrite IH. destruct (String.eqb k k') eqn:E; [|reflexivity].
    apply String.eqb_eq in E as ->. now rewrite E'.
Qed.

(** Two mappings that answer alike on every key outside [skip]. *)
Definition agree_outside (skip : list string) (d1 d2 : dict) : Prop :=
  forall k, k ∉ skip -> dict_get k d1 = dict_get k d2.

Lemma agree_set skip k v d1 d2 :
  agree_outside skip d1 d2 -> agree_outside skip (dict_set k v d1) (dict_set k v d2).
Proof. intros H k' Hk'. rewrite !dict_get_set, (H k' Hk'). reflexivity. Qed.

Lemma agree_update skip other d1 d2 :
  agree_outside skip d1 d2 -> agree_outside skip (dict_update d1 other) (dict_update d2 other).
Proof.
  unfold dict_update. revert d1 d2.
  induction other as [|[k v] other IH]; intros d1 d2 H; simpl; [exact H|].
  apply IH, agree_set, H.
Qed.

Lemma agree_set_skipped skip k v d1 d2 :
  k ∈ skip -> agree_outside skip d1 d2 -> agree_outside skip (dict_set k v d1) d2.
Proof.
  intros Hk H k' Hk'. rewrite dict_get_set.
  destruct (String.eqb k' k) eqn:E; [|now apply H].
  apply String.eqb_eq in E as ->. contradiction.
Qed.

(** The result a call starts from: everything but the time stamp is read
    off the rule. *)
Definition blank (now : datetime.t) (rule : dict) : dict :=
  [("rule_id", dict_get_default "id" (VStr "unknown") rule);
   ("rule_name", dict_get_default "name" (VStr "unknown") rule);
   ("rule_type", dict_get_default "type" (VStr "unknown") rule);
   ("timestamp", VStr (datetime.isoformat now)); ("result", VBool false);
   ("reason", VStr ""); ("details", VDict []); ("confidence", VFloat 1.0)].

Lemma blank_agree now now' rule :
  agree_outside ["timestamp"; "cached"] (blank now rule) (blank now' rule).
Proof.
  intros k Hk. unfold blank. cbn [dict_get].
  repeat match goal with
         | |- context [String.eqb k ?s] => destruct (String.eqb k s) eqn:?; try reflexivity
         end.
  match goal with
  | H : String.eqb k "timestamp" = true |- _ => apply String.eqb_eq in H as ->
  end.
  exfalso. apply Hk. apply list_elem_of_In. simpl. tauto.
Qed.

Section Executors.

Variable _execute_dsl_rule _execute_expression_rule :
  datetime.t -> dict -> ExecutionContext -> res dict.

Abbreviation execute_rule := (Engine.execute_rule _execute_dsl_rule _execute_expression_rule).

Lemma execute_rule_hit now rule e context cached :
  cache e !! _get_cache_key rule context = Some cached ->
  execute_rule now rule e context
  = Run (Ok (dict_set "cached" (VBool true) (dict_update (blank now rule) cached))) e context.
Proof. intros H. unfold Engine.execute_rule. cbv zeta. rewrite H. reflexivity. Qed.

(** The context as the executor of the rule leaves it: the context
    itself for the built-in rule types, what the registered handler made
    of it for the others. *)
Definition left_by_executor (now : datetime.t) (rule : dict) (e : RuleEngine)
    (context : ExecutionContext) : ExecutionContext :=
  snd (dispatch _execute_dsl_rule _execute_expression_rule now rule
         (dict_get_default "id" (VStr "unknown") rule)
         (dict_get_default "type" (VStr "unknown") rule) e context).

(** The rule is of one of the four types the engine executes itself. *)
Definition built_in (rule : dict) : Prop :=
  exists ty, ty ∈ ["dsl"; "expression"; "decision_table"; "decision_tree"]
             /\ dict_get "type" rule = Some (VStr ty).

Lemma built_in_reads_only now rule e context :
  built_in rule -> left_by_executor now rule e context = context.
Proof.
  intros (ty & Hty & Hget). unfold left_by_executor, dict_get_default at 2. rewrite Hget.
  repeat (apply elem_of_cons in Hty as [->|Hty]; [reflexivity|]).
  now apply elem_of_nil in Hty.
Qed.


Lemma execute_rule_miss now rule e context result :
  cache e !! _get_cache_key rule context = None ->
  returned (execute_rule now rule e context) = Ok result ->
  exists execution_result,
    result = dict_update (blank now rule) execution_result
    /\ execute_rule now rule e context
       = Run (Ok result)
             (Engine (custom_handlers e)
                     (<[_get_cache_key rule context := execution_result]> (cache e)))
             (add_result result (left_by_executor now rule e context)).
Proof.
  intros H. unfold Engine.execute_rule, left_by_executor. cbv zeta. rewrite H.
  destruct (dispatch _ _ _ _ _ _ _ _) as [[execution_result|ex] left];
    cbn [returned snd]; [|discriminate].
  intros [= <-]. now exists execution_result.
Qed.


(** After a call that returned, the cache holds an entry under the key of
    that call, and the returned result agrees with it once merged. *)
Lemma execute_rule_caches now rule e context result :
  returned (execute_rule now rule e context) = Ok result ->
  exists stored,
    cache (engine_after (execute_rule now rule e context)) !! _get_cache_key rule context
    = Some stored
    /\ agree_outside ["timestamp"; "cached"] result (dict_update (blank now rule) stored).
Proof.
  intros Hret.
  destruct (cache e !! _get_cache_key rule context) as [cached|] eqn:E.
  - rewrite (execute_rule_hit _ _ _ _ _ E) in *. cbn [returned engine_after] in *.
    injection Hret as <-. exists cached. split; [exact E|].
    apply agree_set_skipped; [apply list_elem_of_In; simpl; tauto|].
    intros k _. reflexivity.
  - destruct (execute_rule_miss _ _ _ _ _ E Hret) as (x & -> & ->).
    cbn [engine_after cache]. exists x. split; [apply lookup_insert_eq|].
    intros k _. reflexivity.
Qed.

(** C3, as the code has it: the cache key is derived from the rule id and
    from the whole of [get_context_data], the [_execution] entry with the
    execution id and the context's time stamp included.  When a rule has
    been executed and returned, executing it again in a context whose
    [get_context_data] is the same is a cache hit: the result is marked
    [cached], equals the first one on every key but [timestamp] and
    [cached], and neither the context nor the cache changes. *)
Theorem same_context_data_is_cache_hit now now' rule e context context' first :
  get_context_data context' = get_context_data context ->
  returned (execute_rule now rule e context) = Ok first ->
  let e' := engine_after (execute_rule now rule e context) in
  let second := execute_rule now' rule e' context' in
  exists result,
    returned second = Ok result
    /\ dict_get "cached" result = Some (VBool true)
    /\ agree_outside ["timestamp"; "cached"] result first
    /\ context_after second = context'
    /\ engine_after second = e'.
Proof.
  intros Hdata Hret e' second.
  destruct (execute_rule_caches _ _ _ _ _ Hret) as (stored & Hstored & Hagree).
  assert (Hkey : _get_cache_key rule context' = _get_cache_key rule context)
    by (unfold _get_cache_key; now rewrite Hdata).
  subst second e'. rewrite <- Hkey in Hstored.
  rewrite (execute_rule_hit _ _ _ _ _ Hstored). cbn [returned context_after engine_after].
  eexists. split; [reflexivity|]. split; [now rewrite dict_get_set|].
  repeat split.
  intros k Hk. rewrite (Hagree k Hk). revert k Hk.
  apply agree_set_skipped; [apply list_elem_of_In; simpl; tauto|].
  apply agree_update, blank_agree.
Qed.



End Executors.

(** A decision table on [user.age], an applicant of 20, and two execution
    contexts built from the same data at the same instant. *)
Definition adult_rule : dict :=
  [("id", VStr "r1"); ("name", VStr "adult"); ("type", VStr "decision_table");
   ("definition",
    VDict [("table",
            VDict [("conditions",
                    VList [VDict [("field", VStr "user.age"); ("operator", VStr ">=");
                                  ("value", VInt 18)]]);
                   ("actions",
                    VList [VDict [("result", VBool true); ("reason", VStr "adult")]])])])].

Definition applicant : dict := [("user", VDict [("age", VInt 20)])].

Definition half_past_ten : datetime.t := datetime.DateTime 2024 1 15 10 30 0 0 (Some 0).

Definition first_context : ExecutionContext := new_context "e1" half_past_ten applicant None.
Definition second_context : ExecutionContext := new_context "e2" half_past_ten applicant None.

(** Executors for rule types the examples do not use. *)
Definition not_called (now : datetime.t) (rule : dict) (context : ExecutionContext) : res dict :=
  Raise (PyExn ValueError "not called").

Definition first_run : run :=
  execute_rule not_called not_called half_past_ten adult_rule init first_context.

Definition first_result : dict :=
  Eval vm_compute in match returned first_run with Ok r => r | Raise _ => [] end.

Lemma same_context_data_is_cache_hit_witness :
  exists result,
    returned (execute_rule not_called not_called half_past_ten adult_rule
                (engine_after first_run) first_context) = Ok result
    /\ dict_get "cached" result = Some (VBool true).
Proof.
  destruct (same_context_data_is_cache_hit not_called not_called half_past_ten half_past_ten
              adult_rule init first_context first_context first_result)
    as (result & Hret & Hcached & _).
  - reflexivity.
  - vm_compute. reflexivity.
  - exists result. split; assumption.
Defined.

(** C3 as stated fails: the same rule on the same data, in a second
    context created at the same instant, has another cache key because the
    execution id is part of it; the second execution is a miss, its result
    carries no [cached] mark and is appended to the context's results. *)
Lemma fresh_context_misses_cache :
  (fun dsl expr =>
     let first := execute_rule dsl expr half_past_ten adult_rule init first_context in
     let second :=
       execute_rule dsl expr half_past_ten adult_rule (engine_after first) second_context in
     (dict_update (data first_context) (variables first_context),
      dict_update (data second_context) (variables second_context),
      _get_cache_key adult_rule first_context,
      _get_cache_key adult_rule second_context,
      match returned second with
      | Ok result => Some (dict_get "cached" result)
      | Raise _ => None
      end,
      length (results (context_after second))))
  = (fun _ _ =>
       (applicant, applicant,
        "7b0d7250f0234d58c04154183b874f7c",
        "80a7d104209865e390e9b767faaa06e7",
        Some None,
        1%nat)).
Proof. vm_compute. reflexivity. Qed.





End EngineFacts.

(** ** The evidence manager: creation, deletion, chains, time ranges *)

Module EvidenceLifecycle.
Import Py PyValue Evidence EvidenceQueries.

(** The id a creation uses: the caller's when it is not empty, a
    generated one otherwise. *)
Definition chosen_id (now_local : datetime.t) (evidence_type source : string)
    (evidence_id : option string) : string :=
  if is_empty_opt evidence_id then
    "evd_" +:+ take 16 (hashlib.md5_hex
      (evidence_type +:+ "_" +:+ source +:+ "_" +:+ datetime.isoformat now_local))
  else default "" evidence_id.

(** [create_evidence] succeeds exactly when the type is one of the five
    valid ones and the content is truthy.  Then the record it returns is
    what [get_evidence] finds under its id, it carries the type, content
    and source given and the caller's id when one was given, and no other
    id is affected; otherwise an [EvidenceException] is raised and the
    manager is as before. *)
Theorem create_evidence_outcome now_local now_utc ty content source eid m :
  let r := create_evidence now_local now_utc ty content source eid m in
  if existsb (String.eqb ty) VALID_EVIDENCE_TYPES && py_bool content then
    exists e,
      fst r = Ok e
      /\ ev_id e = chosen_id now_local ty source eid
      /\ ev_type e = ty /\ ev_content e = content /\ ev_source e = source
      /\ get_evidence (ev_id e) (snd r) = Some e
      /\ (forall id, id <> ev_id e -> get_evidence id (snd r) = get_evidence id m)
  else
    (exists msg, fst r = Raise (EvidenceException msg None)) /\ snd r = m.
Proof.
  intros r. subst r. unfold create_evidence.
  destruct (existsb _ _); cbn [negb andb].
  - destruct (py_bool content); cbn [negb fst snd].
    + eexists. split; [reflexivity|]. cbn [ev_id ev_type ev_content ev_source].
      repeat split.
      * apply EvidenceFacts.get_stored_evidence.
      * intros id Hid. unfold get_evidence, _store_evidence.
        cbn [evidence_store _update_indexes ev_id] in *.
        apply lookup_insert_ne. intros Heq. apply Hid. now rewrite <- Heq.
    + split; [eauto|reflexivity].
  - split; [eauto|reflexivity].
Qed.

(** [delete_evidence] answers whether the id was stored; afterwards the id
    is gone, its verification says so, every other id is untouched, and
    deleting again answers [False]. *)
Theorem delete_evidence_outcome id m :
  let r := delete_evidence id m in
  fst r = match get_evidence id m with Some _ => true | None => false end
  /\ get_evidence id (snd r) = None
  /\ (forall id', id' <> id -> get_evidence id' (snd r) = get_evidence id' m)
  /\ verify_evidence_integrity id (snd r)
     = Verification false None None "Evidence not found"
  /\ fst (delete_evidence id (snd r)) = false.
Proof.
  intros r. subst r. unfold delete_evidence.
  destruct (get_evidence id m) as [e|] eqn:E; cbn [fst snd].
  - assert (Hgone : get_evidence id
              (_remove_from_indexes e
                 (Manager (delete id (evidence_store m)) (by_type m) (by_source m)
                    (by_timestamp m))) = None).
    { unfold get_evidence. cbn. apply lookup_delete_eq. }
    split; [reflexivity|]. split; [exact Hgone|]. split; [|split].
    + intros id' Hne. unfold get_evidence. cbn. now apply lookup_delete_ne.
    + unfold verify_evidence_integrity. now rewrite Hgone.
    + now rewrite Hgone.
  - split; [reflexivity|]. split; [exact E|]. split; [reflexivity|]. split.
    + unfold verify_evidence_integrity. now rewrite E.
    + now rewrite E.
Qed.

(** *** Chains *)

(** The records a list of ids names, in the order of the list. *)
Definition named (ids : list string) (m : manager) : list evidence :=
  omap (fun id => get_evidence id m) ids.

Definition verifies (m : manager) (id : string) : bool :=
  valid (verify_evidence_integrity id m).

Lemma verifies_found m id : verifies m id = true -> exists e, get_evidence id m = Some e.
Proof.
  unfold verifies, verify_evidence_integrity.
  destruct (get_evidence id m) as [e|]; [eauto|discriminate].
Qed.

Lemma named_cons id ids m e :
  get_evidence id m = Some e -> named (id :: ids) m = e :: named ids m.
Proof. intros H. unfold named. simpl. now rewrite H. Qed.

Lemma chain_loop_ok ids m : forall links fed,
  forallb (verifies m) ids = true ->
  exists more,
    chain_loop ids m links fed
    = Ok (links ++ more, fed +:+ String.concat "" (map ev_hash (named ids m)))
    /\ map link_evidence_id more = ids.
Proof.
  induction ids as [|id ids IH]; intros links fed Hall.
  - exists []. cbn. now rewrite app_nil_r, AuditFacts.append_nil_r.
  - cbn [forallb] in Hall. apply andb_true_iff in Hall as [Hid Hall].
    destruct (verifies_found m id Hid) as [e He].
    destruct (IH (links ++ [Link id e (verify_evidence_integrity id m)])
                 (fed +:+ ev_hash e) Hall) as (more & Hc & Hids).
    exists (Link id e (verify_evidence_integrity id m) :: more).
    cbn [chain_loop]. rewrite He. unfold verifies in Hid. rewrite Hid. cbn [negb].
    rewrite Hc, (named_cons id ids m e He). cbn [map].
    rewrite AuditFacts.concat_cons, <- app_assoc, AuditFacts.append_assoc.
    split; [reflexivity|]. cbn. now rewrite Hids.
Qed.

Lemma chain_loop_rejects ids m : forall links fed,
  forallb (verifies m) ids = false ->
  exists msg, chain_loop ids m links fed = Raise (EvidenceException msg None).
Proof.
  induction ids as [|id ids IH]; intros links fed Hall; [discriminate|].
  cbn [forallb] in Hall. cbn [chain_loop].
  destruct (get_evidence id m) as [e|] eqn:He; [|eauto].
  destruct (verifies m id) eqn:Hid; unfold verifies in Hid; rewrite Hid; cbn [negb].
  - apply IH. exact Hall.
  - eauto.
Qed.

(** [create_evidence_chain] succeeds exactly when every id names a stored
    record that verifies, the empty list included.  The chain then has one
    link per id, in the order given, and its hash is the SHA-256 of the
    records' hashes concatenated in that order; otherwise an
    [EvidenceException] is raised. *)
Theorem evidence_chain_outcome now_utc ids m :
  if forallb (verifies m) ids then
    exists c,
      create_evidence_chain now_utc ids m = Ok c
      /\ evidence_count c = length ids
      /\ map link_evidence_id (chain_links c) = ids
      /\ chain_hash c
         = hashlib.sha256_hex (String.concat "" (map ev_hash (named ids m)))
      /\ chain_id c = "chain_" +:+ take 16 (chain_hash c)
  else
    exists msg, create_evidence_chain now_utc ids m = Raise (EvidenceException msg None).
Proof.
  unfold create_evidence_chain.
  destruct (forallb (verifies m) ids) eqn:Hall.
  - destruct (chain_loop_ok ids m [] "" Hall) as (more & -> & Hids).
    cbn [mbind res_bind app]. eexists. split; [reflexivity|].
    cbn [evidence_count chain_links chain_hash chain_id].
    split; [|now repeat split].
    rewrite <- Hids. symmetry. apply length_map.
  - destruct (chain_loop_rejects ids m [] "" Hall) as (msg & ->). cbn. eauto.
Qed.

(** *** Time ranges *)

Lemma timerange_scan_fails x xs start_time end_time found :
  exists msg,
    timerange_scan (x :: xs) start_time end_time found = Raise (PyExn TypeError msg).
Proof. cbn. eauto. Qed.

Lemma timerange_query_empty (idx : Index.index) start_time end_time :
  (forall k l, idx !! k = Some l -> l = []) ->
  timerange_query idx start_time end_time = Ok [].
Proof.
  intros H. unfold timerange_query.
  assert (Hc : concat (map snd (map_to_list idx)) = []).
  { assert (Hall : Forall (fun kl => snd kl = []) (map_to_list idx)).
    { apply Forall_forall. intros [k l] Hkl. apply elem_of_map_to_list in Hkl. cbn. eauto. }
    induction Hall as [|[k l] rest Hl _ IH]; [reflexivity|].
    cbn in *. now rewrite Hl, IH. }
  now rewrite Hc.
Qed.

Lemma timerange_query_fails (idx : Index.index) start_time end_time k l x :
  idx !! k = Some l -> x ∈ l ->
  exists msg, timerange_query idx start_time end_time = Raise (PyExn TypeError msg).
Proof.
  intros Hk Hx. unfold timerange_query.
  assert (Hin : In x (concat (map snd (map_to_list idx)))).
  { apply in_concat. exists l. split; [|now apply list_elem_of_In].
    apply in_map_iff. exists (k, l). split; [reflexivity|].
    apply list_elem_of_In. now apply elem_of_map_to_list. }
  destruct (concat (map snd (map_to_list idx))) as [|y ys]; [destruct Hin|].
  destruct (timerange_scan_fails y ys start_time end_time []) as [msg ->]. cbn. eauto.
Qed.

Lemma consistent_run ops : EvidenceFacts.consistent (EvidenceFacts.run ops init).
Proof.
  unfold EvidenceFacts.run. generalize EvidenceFacts.consistent_init. generalize init.
  induction ops as [|o ops IH]; intros m Hm; simpl; [exact Hm|].
  apply IH, EvidenceFacts.consistent_step, Hm.
Qed.

(** [get_evidence_by_timerange] answers the empty list on a manager that
    never stored anything, and raises [TypeError] on every manager that
    holds a record, whatever the bounds: the time-stamp index lists ids,
    which the loop indexes with ['timestamp'] as if they were records. *)
Theorem evidence_timerange_raises start_time end_time :
  get_evidence_by_timerange start_time end_time init = Ok []
  /\ forall ops id e,
       get_evidence id (EvidenceFacts.run ops init) = Some e ->
       exists msg,
         get_evidence_by_timerange start_time end_time (EvidenceFacts.run ops init)
         = Raise (PyExn TypeError msg).
Proof.
  split.
  - apply timerange_query_empty. intros k l H. cbn in H. now rewrite lookup_empty in H.
  - intros ops id e He.
    destruct (consistent_run ops id e He) as (_ & _ & _ & Hts).
    unfold Index.get in Hts.
    destruct (by_timestamp (EvidenceFacts.run ops init) !! take 10 (ev_timestamp e))
      as [l|] eqn:El; [|inversion Hts].
    exact (timerange_query_fails _ start_time end_time _ l id El Hts).
Qed.

(** *** An id used twice *)

Lemma create_evidence_named nl nu ty content source id m :
  existsb (String.eqb ty) VALID_EVIDENCE_TYPES = true ->
  py_bool content = true -> id <> "" ->
  create_evidence nl nu ty content source (Some id) m
  = let e := MkEvidence id ty content (datetime.isoformat nu) source
               (_calculate_hash content) in
    (Ok e, _store_evidence e m).
Proof.
  intros Hty Hc Hid. unfold create_evidence. rewrite Hty, Hc. cbn.
  apply String.eqb_neq in Hid. now rewrite Hid.
Qed.

(** Creating a record under an id that is in use replaces the stored
    record but leaves the old index entries in place: the id stays listed
    under the first type although the record now has the second, and after
    the record is deleted the id is still listed under the first type. *)
Theorem reused_id_leaves_stale_index nl nu nl' nu' ty ty' content content' source source'
    id m :
  existsb (String.eqb ty) VALID_EVIDENCE_TYPES = true ->
  existsb (String.eqb ty') VALID_EVIDENCE_TYPES = true ->
  py_bool content = true -> py_bool content' = true ->
  id <> "" -> ty <> ty' ->
  let m1 := snd (create_evidence nl nu ty content source (Some id) m) in
  let m2 := snd (create_evidence nl' nu' ty' content' source' (Some id) m1) in
  let m3 := snd (delete_evidence id m2) in
  (ev_type <$> get_evidence id m2) = Some ty'
  /\ id ∈ get_evidence_by_type ty m2
  /\ get_evidence id m3 = None
  /\ id ∈ get_evidence_by_type ty m3.
Proof.
  intros Hty Hty' Hc Hc' Hid Hne. cbv zeta.
  rewrite (create_evidence_named nl nu ty content source id m Hty Hc Hid). cbv zeta.
  cbn [snd].
  set (m1 := _store_evidence _ m).
  rewrite (create_evidence_named nl' nu' ty' content' source' id m1 Hty' Hc' Hid).
  cbv zeta. cbn [snd].
  set (e2 := MkEvidence id ty' content' _ source' _).
  assert (H1 : id ∈ get_evidence_by_type ty m1) by apply IndexFacts.get_append_same.
  assert (H2 : id ∈ get_evidence_by_type ty (_store_evidence e2 m1))
    by now apply IndexFacts.get_append_mono.
  assert (Hget : get_evidence id (_store_evidence e2 m1) = Some e2)
    by apply (EvidenceFacts.get_stored_evidence e2 m1).
  split; [now rewrite Hget|]. split; [exact H2|].
  unfold delete_evidence. rewrite Hget. cbn [snd]. split.
  - unfold get_evidence. cbn. apply lookup_delete_eq.
  - unfold get_evidence_by_type, _remove_from_indexes. cbn [by_type ev_type ev_id e2].
    unfold Index.get, Index.remove.
    destruct (by_type (_store_evidence e2 m1) !! ty') as [l|] eqn:El; [|exact H2].
    rewrite lookup_insert_ne by congruence. exact H2.
Qed.

Definition noon : datetime.t := datetime.DateTime 2024 1 15 12 0 0 0 (Some 0).

Lemma reused_id_leaves_stale_index_witness :
  let m1 := snd (create_evidence noon noon "log" (VDict [("line", VInt 1)]) "app"
                   (Some "e1") init) in
  let m2 := snd (create_evidence noon noon "metric" (VDict [("cpu", VInt 9)]) "app"
                   (Some "e1") m1) in
  let m3 := snd (delete_evidence "e1" m2) in
  (ev_type <$> get_evidence "e1" m2) = Some "metric"
  /\ "e1" ∈ get_evidence_by_type "log" m2
  /\ get_evidence "e1" m3 = None
  /\ "e1" ∈ get_evidence_by_type "log" m3.
Proof.
  apply (reused_id_leaves_stale_index noon noon noon noon "log" "metric"
           (VDict [("line", VInt 1)]) (VDict [("cpu", VInt 9)]) "app" "app" "e1" init);
    try reflexivity; discriminate.
Defined.

End EvidenceLifecycle.

(** ** The audit trail: bundles after creation, time ranges *)

Module AuditBundleFacts.
Import Py PyValue Audit AuditQueries.
Import AuditFacts.

(** *** What marking does to the objects *)

Lemma set_bundle_id_twice b e :
  set_bundle_id b (set_bundle_id b e) = set_bundle_id b e.
Proof. reflexivity. Qed.

Lemma mark_entries_marks ids bid store : forall objs id r e,
  id ∈ ids -> store !! id = Some r -> objs !! r = Some e ->
  mark_entries ids bid objs store !! r = Some (set_bundle_id (Some bid) e).
Proof.
  induction ids as [|i ids IH]; intros objs id r e Hin Hr He; [inversion Hin|].
  cbn [mark_entries].
  destruct (decide (i = id)) as [->|Hne].
  - rewrite Hr.
    destruct (mark_entries_lookup ids bid store
                (alter (set_bundle_id (Some bid)) r objs) r) as [->| ->];
      rewrite lookup_alter_eq, He; reflexivity.
  - apply elem_of_cons in Hin as [->|Hin]; [contradiction|].
    destruct (store !! i) as [r'|]; [|now apply (IH objs id)].
    destruct (decide (r' = r)) as [->|Hr'].
    + rewrite (IH _ id r (set_bundle_id (Some bid) e) Hin Hr); [reflexivity|].
      now rewrite lookup_alter_eq, He.
    + apply (IH _ id); [assumption..|]. now rewrite lookup_alter_ne.
Qed.

(** The trail a successful [create_audit_bundle] leaves. *)
Definition bundled (t : trail) (ids : list string) (bid : string) (b : bundle) : trail :=
  Trail (mark_entries ids bid (objects t) (audit_store t))
        (audit_store t) (<[bid := b]> (bundles t))
        (by_user t) (by_action t) (by_timestamp t) (by_bundle t).

(** Looking an id up after the marking gives the entry as it was, apart
    from its bundle id. *)
Lemma get_after_marking t ids bid b id :
  get_audit_entry id (bundled t ids bid b) = get_audit_entry id t
  \/ get_audit_entry id (bundled t ids bid b)
     = set_bundle_id (Some bid) <$> get_audit_entry id t.
Proof.
  unfold get_audit_entry, get_audit_entry_ref, bundled. cbn [audit_store objects].
  destruct (audit_store t !! id) as [r|]; [|now left]. cbn [mbind option_bind].
  apply mark_entries_lookup.
Qed.

Lemma verify_ignores_bundle_id t t' id x :
  get_audit_entry id t' = set_bundle_id x <$> get_audit_entry id t ->
  verify_audit_entry_integrity id t' = verify_audit_entry_integrity id t.
Proof.
  intros H. unfold verify_audit_entry_integrity. rewrite H.
  now destruct (get_audit_entry id t).
Qed.

Lemma verify_after_marking t ids bid b id :
  verify_audit_entry_integrity id (bundled t ids bid b)
  = verify_audit_entry_integrity id t.
Proof.
  destruct (get_after_marking t ids bid b id) as [H|H].
  - unfold verify_audit_entry_integrity. now rewrite H.
  - now apply verify_ignores_bundle_id with (x := Some bid).
Qed.

(** *** What a successful collection tells *)

(** The ids with the references collected for them. *)
Definition collected (t : trail) (id : string) (r : nat) : Prop :=
  audit_store t !! id = Some r
  /\ (exists e, objects t !! r = Some e)
  /\ intact id t.

Lemma collect_entries_inv ids t : forall acc fed entries fed',
  collect_entries ids t acc fed = Ok (entries, fed') ->
  exists refs, entries = acc ++ refs /\ Forall2 (collected t) ids refs.
Proof.
  induction ids as [|id ids IH]; intros acc fed entries fed' H.
  - injection H as <- <-. exists []. split; [now rewrite app_nil_r|constructor].
  - cbn [collect_entries] in H.
    destruct (get_audit_entry_ref id t) as [r|] eqn:Hr; [|discriminate].
    destruct (get_audit_entry id t) as [e|] eqn:He; [|discriminate].
    destruct (verify_audit_entry_integrity id t) as [v|x] eqn:Hv; [|discriminate].
    cbn [mbind res_bind] in H.
    destruct (valid v) eqn:Hvalid; [|discriminate]. cbn [negb] in H.
    apply IH in H as (refs & -> & Hall).
    exists (r :: refs). split; [now rewrite <- app_assoc|].
    constructor; [|exact Hall]. unfold collected. split; [exact Hr|]. split.
    + unfold get_audit_entry in He. rewrite Hr in He. cbn in He. eauto.
    + exists v. now split.
Qed.

Lemma create_audit_bundle_inv nl nu name description ids bid t b t' :
  create_audit_bundle nl nu name description ids bid t = (Ok b, t') ->
  name <> "" /\ ids <> []
  /\ Forall2 (collected t) ids (b_entries b)
  /\ b_entry_count b = length ids
  /\ b_checksum b = _calculate_bundle_checksum (deref t (b_entries b))
  /\ t' = bundled t ids (b_id b) b.
Proof.
  unfold create_audit_bundle.
  destruct (String.eqb_spec name ""); [discriminate|].
  destruct ids as [|i ids]; [discriminate|].
  destruct (collect_entries _ _ _ _) as [[entries fed]|e] eqn:Hc; [|discriminate].
  intros [= <- <-].
  apply collect_entries_inv in Hc as (refs & -> & Hall). cbn [app] in *.
  cbn [b_entries b_entry_count b_checksum b_id].
  split; [assumption|]. split; [discriminate|]. split; [exact Hall|].
  split; [symmetry; apply (Forall2_length _ _ _ Hall)|]. split; reflexivity.
Qed.

(** *** The invariant of a trail with a history *)

Lemma run_invariant ops : well_formed (run ops init) /\ listed (run ops init).
Proof.
  assert (H : well_formed init /\ listed init).
  { split.
    - intros id r H. simpl in H. now rewrite lookup_empty in H.
    - intros id e H. unfold get_audit_entry, get_audit_entry_ref in H. simpl in H.
      now rewrite lookup_empty in H. }
  unfold run. revert H. generalize init.
  induction ops as [|o ops IH]; intros t H; simpl; [apply H|].
  apply IH, listed_step, H.
Qed.

(** *** Sorting ignores the bundle id *)

Lemma insert_by_map {A} (key : A -> string) (f : A -> A) x l :
  (forall y, key (f y) = key y) ->
  insert_by key (f x) (map f l) = map f (insert_by key x l).
Proof.
  intros Hk. induction l as [|y l IH]; [reflexivity|].
  cbn [map insert_by]. rewrite !Hk. destruct (String.ltb (key y) (key x)); cbn [map].
  - now rewrite IH.
  - reflexivity.
Qed.

Lemma sorted_by_map {A} (key : A -> string) (f : A -> A) l :
  (forall y, key (f y) = key y) ->
  sorted_by key (map f l) = map f (sorted_by key l).
Proof.
  intros Hk. induction l as [|x l IH]; [reflexivity|].
  cbn [map sorted_by]. now rewrite IH, insert_by_map.
Qed.

Lemma checksum_ignores_bundle_id x entries :
  _calculate_bundle_checksum (map (set_bundle_id x) entries)
  = _calculate_bundle_checksum entries.
Proof.
  unfold _calculate_bundle_checksum.
  rewrite (sorted_by_map ae_timestamp (set_bundle_id x)) by reflexivity.
  now rewrite map_map.
Qed.

(** *** Entries of a bundle after its creation *)

Lemma deref_after_marking t ids bid b refs :
  Forall2 (collected t) ids refs ->
  (forall id r, id ∈ ids -> audit_store t !! id = Some r ->
                forall e, objects t !! r = Some e ->
                objects (bundled t ids bid b) !! r = Some (set_bundle_id (Some bid) e)) ->
  deref (bundled t ids bid b) refs = map (set_bundle_id (Some bid)) (deref t refs).
Proof.
  intros Hall Hmark.
  assert (Hrefs : Forall (fun r => exists e, objects t !! r = Some e
                    /\ objects (bundled t ids bid b) !! r
                       = Some (set_bundle_id (Some bid) e)) refs).
  { apply Forall_forall. intros r Hr.
    apply list_elem_of_lookup_1 in Hr as [i Hi].
    destruct (Forall2_lookup_r _ _ _ _ _ Hall Hi) as (id & Hid & Hs & (e & He) & _).
    exists e. split; [exact He|]. apply (Hmark id); [|assumption..].
    now apply list_elem_of_lookup_2 in Hid. }
  clear Hall. induction Hrefs as [|r refs (e & He & He') _ IH]; [reflexivity|].
  rewrite (deref_cons _ r refs _ He'), (deref_cons t r refs e He). cbn [map].
  now rewrite IH.
Qed.

Lemma verify_entries_all_valid t' : forall entries vs,
  Forall (fun e => exists v, verify_audit_entry_integrity (ae_id e) t' = Ok v
                             /\ valid v = true) entries ->
  exists vs', verify_entries entries t' true vs = Ok (true, vs').
Proof.
  induction entries as [|e entries IH]; intros vs Hall; [cbn; eauto|].
  inversion Hall as [|? ? (v & Hv & Hvalid) Hrest]; subst.
  cbn [verify_entries]. rewrite Hv. cbn [mbind res_bind]. rewrite Hvalid.
  apply IH, Hrest.
Qed.

(** A bundle verifies right after it was created, whatever the history of
    the trail: every entry of it verifies and the checksum is confirmed.
    (The marking of the entries with the bundle id in between touches
    nothing the hashes cover.) *)
Theorem created_bundle_verifies ops nl nu name description ids bid b t' :
  create_audit_bundle nl nu name description ids bid (run ops init) = (Ok b, t') ->
  exists v,
    verify_audit_bundle_integrity (b_id b) t' = Ok v
    /\ bundle_valid v = true
    /\ bundle_reason v = "Bundle integrity verified".
Proof.
  intros H. set (t := run ops init) in *.
  destruct (run_invariant ops) as [Hwf Hlisted]. fold t in Hwf, Hlisted.
  apply create_audit_bundle_inv in H as (_ & _ & Hall & _ & Hsum & ->).
  set (bid' := b_id b) in *.
  assert (Hmark : forall id r, id ∈ ids -> audit_store t !! id = Some r ->
            forall e, objects t !! r = Some e ->
            objects (bundled t ids bid' b) !! r = Some (set_bundle_id (Some bid') e)).
  { intros id r Hin Hr e He. now apply (mark_entries_marks ids bid' _ _ id). }
  pose proof (deref_after_marking t ids bid' b _ Hall Hmark) as Hderef.
  unfold verify_audit_bundle_integrity, get_audit_bundle.
  cbn [bundles bundled]. rewrite lookup_insert_eq.
  change (Trail _ _ _ _ _ _ _) with (bundled t ids bid' b).
  rewrite Hderef, checksum_ignores_bundle_id, <- Hsum, String.eqb_refl.
  destruct (verify_entries_all_valid (bundled t ids bid' b)
              (map (set_bundle_id (Some bid')) (deref t (b_entries b))) [])
    as [vs' ->].
  - apply Forall_forall. intros e' He'.
    apply list_elem_of_fmap in He' as (e & -> & He).
    unfold deref in He. apply list_elem_of_omap in He as (r & Hr & He).
    apply list_elem_of_lookup_1 in Hr as [i Hi].
    destruct (Forall2_lookup_r _ _ _ _ _ Hall Hi) as (id & _ & Hs & _ & Hintact).
    assert (Hget : get_audit_entry id t = Some e).
    { unfold get_audit_entry, get_audit_entry_ref. rewrite Hs. exact He. }
    destruct (Hlisted id e Hget) as (Hid & _).
    cbn [ae_id set_bundle_id]. rewrite Hid, verify_after_marking. exact Hintact.
  - cbn. eexists. split; [reflexivity|]. split; reflexivity.
Qed.

(** After a bundle was created every entry named carries the id of the
    bundle: in the store, and in the entry list of every bundle that holds
    the entry, since the bundles hold the stored objects themselves. *)
Theorem bundled_entries_carry_bundle_id nl nu name description ids bid t b t' :
  create_audit_bundle nl nu name description ids bid t = (Ok b, t') ->
  (forall id, id ∈ ids ->
     (ae_bundle_id <$> get_audit_entry id t') = Some (Some (b_id b)))
  /\ (forall r, r ∈ b_entries b ->
        (ae_bundle_id <$> objects t' !! r) = Some (Some (b_id b)))
  /\ length (deref t' (b_entries b)) = length ids.
Proof.
  intros H. apply create_audit_bundle_inv in H as (_ & _ & Hall & _ & _ & ->).
  set (bid' := b_id b) in *.
  assert (Href : forall id r, id ∈ ids -> audit_store t !! id = Some r ->
            (exists e, objects t !! r = Some e) ->
            (ae_bundle_id <$> objects (bundled t ids bid' b) !! r) = Some (Some bid')).
  { intros id r Hin Hr [e He]. cbn [bundled objects].
    now rewrite (mark_entries_marks ids bid' _ _ id r e Hin Hr He). }
  split; [|split].
  - intros id Hin. apply list_elem_of_lookup_1 in Hin as [i Hi].
    destruct (Forall2_lookup_l _ _ _ _ _ Hall Hi) as (r & _ & Hs & He & _).
    unfold get_audit_entry, get_audit_entry_ref. cbn [bundled audit_store].
    rewrite Hs. cbn [mbind option_bind]. apply (Href id); [|assumption..].
    now apply list_elem_of_lookup_2 in Hi.
  - intros r Hin. apply list_elem_of_lookup_1 in Hin as [i Hi].
    destruct (Forall2_lookup_r _ _ _ _ _ Hall Hi) as (id & Hid & Hs & He & _).
    apply (Href id); [|assumption..]. now apply list_elem_of_lookup_2 in Hid.
  - rewrite (deref_after_marking t ids bid' b _ Hall).
    + rewrite length_map.
      assert (Hd : length (deref t (b_entries b)) = length (b_entries b)).
      { clear Href. induction Hall as [|id r ids refs (_ & (e & He) & _) _ IH];
          [reflexivity|].
        rewrite (deref_cons t r refs e He). cbn [length]. now rewrite IH. }
      rewrite Hd. symmetry. apply (Forall2_length _ _ _ Hall).
    + intros id r Hin Hr e He. now apply (mark_entries_marks ids bid' _ _ id).
Qed.

Definition week3 : res bundle * trail :=
  create_audit_bundle at_10_30_02 at_10_30_02 "week 3" "" ["a1"; "a2"] (Some "B1")
    two_entries.

Definition week3_bundle : bundle :=
  Eval vm_compute in
    match fst week3 with
    | Ok b => b
    | Raise _ => MkBundle "" "" "" "" "" "" 0 "" [] ""
    end.

Lemma week3_created : week3 = (Ok week3_bundle, snd week3).
Proof. vm_compute. reflexivity. Qed.

Lemma bundled_entries_carry_bundle_id_witness :
  (ae_bundle_id <$> get_audit_entry "a1" (snd week3)) = Some (Some "B1").
Proof.
  destruct (bundled_entries_carry_bundle_id _ _ _ _ _ _ _ _ _ week3_created) as (H & _).
  apply (H "a1"). apply list_elem_of_In. simpl. tauto.
Defined.

Definition two_entries_history : list op :=
  [CreateEntry at_10_30_00 at_10_30_00 "login" "alice" (VDict []) (Some "a1") None;
   CreateEntry at_10_30_01 at_10_30_01 "logout" "alice" (VDict []) (Some "a2") None].

Lemma created_bundle_verifies_witness :
  exists v,
    verify_audit_bundle_integrity "B1" (snd week3) = Ok v
    /\ bundle_valid v = true
    /\ bundle_reason v = "Bundle integrity verified".
Proof.
  exact (created_bundle_verifies two_entries_history at_10_30_02 at_10_30_02 "week 3" ""
           ["a1"; "a2"] (Some "B1") week3_bundle (snd week3) week3_created).
Defined.

(** *** Creation is all or nothing *)

Lemma failed_bundle_keeps_trail nl nu name description ids bid t x t' :
  create_audit_bundle nl nu name description ids bid t = (Raise x, t') -> t' = t.
Proof.
  unfold create_audit_bundle.
  destruct (String.eqb name ""); [now intros [= _ <-]|].
  destruct ids; [now intros [= _ <-]|].
  destruct (collect_entries _ _ _ _) as [[entries fed]|y]; [discriminate|].
  now intros [= _ <-].
Qed.

(** [create_audit_bundle] succeeds exactly when the name is not empty, the
    id list is not empty and every id names a stored entry that verifies;
    the bundle then counts one entry per id.  When it raises, the trail is
    as before: no entry was marked and no bundle stored. *)
Theorem bundle_creation_all_or_nothing nl nu name description ids bid t :
  match create_audit_bundle nl nu name description ids bid t with
  | (Ok b, t') =>
      name <> "" /\ ids <> [] /\ (forall id, id ∈ ids -> intact id t)
      /\ b_entry_count b = length ids
      /\ get_audit_bundle (b_id b) t' = Some b
  | (Raise _, t') =>
      t' = t /\ ~ (name <> "" /\ ids <> [] /\ forall id, id ∈ ids -> intact id t)
  end.
Proof.
  destruct (create_audit_bundle nl nu name description ids bid t) as [[b|e] t'] eqn:E.
  - apply create_audit_bundle_inv in E as (Hn & Hi & Hall & Hcount & _ & ->).
    split; [assumption|]. split; [assumption|]. split; [|split; [assumption|]].
    + intros id Hin. apply list_elem_of_lookup_1 in Hin as [i Hi'].
      now destruct (Forall2_lookup_l _ _ _ _ _ Hall Hi') as (r & _ & _ & _ & Hintact).
    + unfold get_audit_bundle. cbn. apply lookup_insert_eq.
  - split; [exact (failed_bundle_keeps_trail _ _ _ _ _ _ _ _ _ E)|].
    + intros (Hn & Hi & Hall). revert E. unfold create_audit_bundle.
      destruct (String.eqb_spec name ""); [contradiction|].
      destruct ids as [|i ids]; [contradiction|].
      destruct (collect_entries_ok (i :: ids) t Hall [] "") as (refs & -> & _).
      discriminate.
Qed.

(** *** Entries at creation *)

(** [create_audit_entry] succeeds exactly when neither the action nor the
    user is empty (empty details are accepted).  The entry is then what
    [get_audit_entry] finds under its id, and when it was created with a
    bundle id it is listed under that bundle in the [by_bundle] index. *)
Theorem create_audit_entry_outcome nl nu action user details aid bid t :
  let r := create_audit_entry nl nu action user details aid bid t in
  if negb (String.eqb action "") && negb (String.eqb user "") then
    exists e,
      fst r = Ok e
      /\ ae_action e = action /\ ae_user e = user /\ ae_details e = details
      /\ ae_bundle_id e = bid
      /\ get_audit_entry (ae_id e) (snd r) = Some e
      /\ (forall b, bid = Some b -> b <> "" ->
            ae_id e ∈ get_audit_entries_by_bundle b (snd r))
  else
    (exists msg, fst r = Raise (AuditException msg None)) /\ snd r = t.
Proof.
  intros r. subst r. unfold create_audit_entry.
  destruct (String.eqb action ""); cbn [negb andb]; [split; [eauto|reflexivity]|].
  destruct (String.eqb user ""); cbn [negb andb fst snd]; [split; [eauto|reflexivity]|].
  eexists. split; [reflexivity|].
  cbn [ae_action ae_user ae_details ae_bundle_id ae_id]. repeat split.
  - apply get_stored_entry.
  - intros b -> Hb. unfold get_audit_entries_by_bundle, _store_audit_entry, _update_indexes.
    cbn [by_bundle ae_bundle_id ae_id]. apply String.eqb_neq in Hb. rewrite Hb.
    apply IndexFacts.get_append_same.
Qed.

(** *** Nothing is ever removed *)

Lemma index_append_grows k id k' x (idx : Index.index) :
  x ∈ Index.get k' idx -> x ∈ Index.get k' (Index.append k id idx).
Proof. apply IndexFacts.get_append_mono. Qed.

(** The trail only grows: whatever operation comes next, an id that is
    stored stays stored, a bundle that is stored stays stored under its id
    or is replaced, and an id listed in an index stays listed there. *)
Theorem audit_trail_only_grows t o :
  (forall id, is_Some (get_audit_entry id t) -> is_Some (get_audit_entry id (step t o)))
  /\ (forall k, is_Some (get_audit_bundle k t) -> is_Some (get_audit_bundle k (step t o)))
  /\ (forall k x, x ∈ get_audit_entries_by_user k t ->
                  x ∈ get_audit_entries_by_user k (step t o))
  /\ (forall k x, x ∈ get_audit_entries_by_action k t ->
                  x ∈ get_audit_entries_by_action k (step t o))
  /\ (forall k x, x ∈ get_audit_entries_by_bundle k t ->
                  x ∈ get_audit_entries_by_bundle k (step t o))
  /\ (forall k x, x ∈ Index.get k (by_timestamp t) ->
                  x ∈ Index.get k (by_timestamp (step t o))).
Proof.
  destruct o as [nl nu action user details aid bid|nl nu name d ids bid]; cbn [step].
  - unfold create_audit_entry.
    destruct (String.eqb action ""); [now repeat split|].
    destruct (String.eqb user ""); [now repeat split|]. cbn [snd].
    set (e := MkEntry _ _ _ _ _ _ _).
    split; [|split; [|split; [|split; [|split]]]].
    + intros id [e0 He0]. destruct (decide (ae_id e = id)) as [<-|Hne].
      * rewrite get_stored_entry. eauto.
      * revert He0. unfold get_audit_entry, get_audit_entry_ref, _store_audit_entry.
        cbn [audit_store objects _update_indexes].
        rewrite lookup_insert_ne by assumption.
        destruct (audit_store t !! id) as [r|] eqn:Hr; [|discriminate].
        cbn [mbind option_bind]. intros He0.
        rewrite lookup_insert_ne; [eauto|].
        intros <-. pose proof (new_ref_fresh t). congruence.
    + intros k H. exact H.
    + intros k x. apply index_append_grows.
    + intros k x. apply index_append_grows.
    + intros k x. unfold get_audit_entries_by_bundle, _store_audit_entry, _update_indexes.
      cbn [by_bundle]. destruct (ae_bundle_id e) as [b|]; [|auto].
      destruct (String.eqb b ""); [auto|]. apply index_append_grows.
    + intros k x. apply index_append_grows.
  - destruct (create_audit_bundle nl nu name d ids bid t) as [[b|x] t'] eqn:E.
    + apply create_audit_bundle_inv in E as (_ & _ & _ & _ & _ & ->). cbn [snd].
      split; [|split; [|now repeat split]].
      * intros id [e He].
        destruct (get_after_marking t ids (b_id b) b id) as [->| ->]; rewrite He; cbn; eauto.
      * intros k [b0 Hb0]. unfold get_audit_bundle in *. cbn [bundled bundles].
        destruct (decide (b_id b = k)) as [->|Hne].
        -- rewrite lookup_insert_eq. eauto.
        -- rewrite lookup_insert_ne by assumption. eauto.
    + apply failed_bundle_keeps_trail in E as ->. cbn [snd]. now repeat split.
Qed.

(** *** Time ranges *)

(** [get_audit_entries_by_timerange] answers the empty list on a trail
    without entries and raises [TypeError] on every trail that holds an
    entry, whatever the bounds: the time-stamp index lists ids, which the
    loop indexes with ['timestamp'] as if they were entries. *)
Theorem audit_timerange_raises start_time end_time :
  get_audit_entries_by_timerange start_time end_time init = Ok []
  /\ forall ops id e,
       get_audit_entry id (run ops init) = Some e ->
       exists msg,
         get_audit_entries_by_timerange start_time end_time (run ops init)
         = Raise (PyExn TypeError msg).
Proof.
  split.
  - apply EvidenceLifecycle.timerange_query_empty.
    intros k l H. cbn in H. now rewrite lookup_empty in H.
  - intros ops id e He.
    destruct (run_invariant ops) as [_ Hlisted].
    destruct (Hlisted id e He) as (_ & _ & _ & Hts).
    unfold Index.get in Hts.
    destruct (by_timestamp (run ops init) !! take 10 (ae_timestamp e))
      as [l|] eqn:El; [|inversion Hts].
    exact (EvidenceLifecycle.timerange_query_fails _ start_time end_time _ l id El Hts).
Qed.

End AuditBundleFacts.

(** ** Decision bundles: what is accepted, and what the accessors do *)

Module BundleAcceptance.
Import Py PyValue Bundle BundleAccess.
Import BundleFacts.

#[local] Arguments py_in_list : simpl never.
#[local] Arguments py_eq : simpl never.
#[local] Arguments py_str : simpl never.
#[local] Arguments String.append : simpl never.
#[local] Arguments require_fields : simpl never.

(** All of [fs] are keys of [d]. *)
Definition has_all (fs : list string) (d : dict) : Prop :=
  Forall (fun f => exists v, dict_get f d = Some v) fs.

Lemma has_all_find fs d : has_all fs d -> find (missing d) fs = None.
Proof.
  intros H. induction H as [|f fs [v Hv] _ IH]; [reflexivity|].
  cbn. unfold missing at 1, dict_has. rewrite Hv. exact IH.
Qed.

Lemma require_fields_ok fs d message path :
  has_all fs d -> require_fields fs (VDict d) message path = Ok tt.
Proof. intros H. now rewrite require_fields_dict, has_all_find. Qed.

Lemma require_fields_inv fs d message path :
  require_fields fs (VDict d) message path = Ok tt -> has_all fs d.
Proof.
  rewrite require_fields_dict. destruct (find _ _) eqn:E; [discriminate|].
  intros _. now apply all_present.
Qed.

(** A rule the validator lets through. *)
Definition rule_accepted (v : value) : Prop :=
  exists r, v = VDict r /\ has_all required_rule r
    /\ exists s, s ∈ rule_types /\ dict_get "type" r = Some (VStr s).

(** A decision the validator lets through: its [output] is anything that
    answers [True] to ['result' in output]. *)
Definition decision_accepted (v : value) : Prop :=
  exists x, v = VDict x /\ has_all required_decision x
    /\ exists out, dict_get "output" x = Some out /\ py_contains "result" out = Ok true.

(** A document the constructor lets through.  The rules and the decisions
    are whatever can be iterated: a list, or an empty mapping or string. *)
Definition accepted (v : value) : Prop :=
  exists d m rs ds,
    v = VDict d
    /\ has_all required_top d
    /\ dict_get "version" d = Some (VStr "1.0")
    /\ dict_get "metadata" d = Some (VDict m)
    /\ has_all required_metadata m
    /\ (exists s, s ∈ domains /\ dict_get "domain" m = Some (VStr s))
    /\ (exists rv, dict_get "rules" d = Some rv /\ py_iter rv = Ok rs)
    /\ Forall rule_accepted rs
    /\ (exists dv, dict_get "decisions" d = Some dv /\ py_iter dv = Ok ds)
    /\ Forall decision_accepted ds.

Lemma getitem_ok key v x : py_getitem key v = Ok x -> exists d, v = VDict d /\ dict_get key d = Some x.
Proof.
  destruct v as [|b|z|f|t|l|d]; try discriminate. cbn.
  destruct (dict_get key d) as [y|] eqn:E; [|discriminate].
  intros [= <-]. eauto.
Qed.

Lemma _validate_rule_inv v i : _validate_rule v i = Ok tt -> rule_accepted v.
Proof.
  unfold _validate_rule. intros H.
  destruct (require_fields _ v _ _) as [[]|e] eqn:Hreq; [|discriminate].
  cbn [mbind res_bind] in H.
  destruct (py_getitem "type" v) as [ty|e] eqn:Hty; [|discriminate].
  cbn [mbind res_bind] in H.
  apply getitem_ok in Hty as (r & -> & Hty).
  destruct (py_in_list ty valid_types) eqn:Hin; [|discriminate].
  change valid_types with (map VStr rule_types) in Hin.
  apply py_in_strs_true in Hin as (s & Hs & ->).
  exists r. split; [reflexivity|]. split; [now apply require_fields_inv in Hreq|eauto].
Qed.

Lemma _validate_rule_ok v i : rule_accepted v -> _validate_rule v i = Ok tt.
Proof.
  intros (r & -> & Hall & s & Hs & Hty). unfold _validate_rule.
  rewrite (require_fields_ok _ _ _ _ Hall). cbn. rewrite Hty. cbn.
  assert (Hin : py_in_list (VStr s) valid_types = true).
  { change valid_types with (map VStr rule_types). apply py_in_strs_true. eauto. }
  now rewrite Hin.
Qed.

Lemma _validate_decision_inv v i : _validate_decision v i = Ok tt -> decision_accepted v.
Proof.
  unfold _validate_decision. intros H.
  destruct (require_fields _ v _ _) as [[]|e] eqn:Hreq; [|discriminate].
  cbn [mbind res_bind] in H.
  destruct (py_getitem "output" v) as [out|e] eqn:Hout; [|discriminate].
  cbn [mbind res_bind] in H.
  apply getitem_ok in Hout as (x & -> & Hout).
  destruct (py_contains "result" out) as [[|]|e] eqn:Hres; try discriminate.
  exists x. split; [reflexivity|]. split; [now apply require_fields_inv in Hreq|eauto].
Qed.

Lemma _validate_decision_ok v i : decision_accepted v -> _validate_decision v i = Ok tt.
Proof.
  intros (x & -> & Hall & out & Hout & Hres). unfold _validate_decision.
  rewrite (require_fields_ok _ _ _ _ Hall). cbn. rewrite Hout. cbn. now rewrite Hres.
Qed.

Lemma for_enumerate_inv check (P : value -> Prop) xs :
  (forall x i, check x i = Ok tt -> P x) ->
  forall i, for_enumerate check xs i = Ok tt -> Forall P xs.
Proof.
  intros Hcheck. induction xs as [|x xs IH]; intros i H; [constructor|].
  cbn in H. destruct (check x i) as [[]|e] eqn:E; [|discriminate].
  constructor; [now apply (Hcheck x i)|now apply (IH (S i))].
Qed.

Lemma for_enumerate_ok check (P : value -> Prop) xs :
  (forall x i, P x -> check x i = Ok tt) ->
  Forall P xs -> forall i, for_enumerate check xs i = Ok tt.
Proof.
  intros Hcheck H. induction H as [|x xs Hx _ IH]; intros i; [reflexivity|].
  cbn. rewrite (Hcheck x i Hx). cbn. apply IH.
Qed.

Lemma _validate_inv v : _validate v = Ok tt -> accepted v.
Proof.
  unfold _validate. intros H.
  destruct (require_fields _ v _ _) as [[]|e] eqn:Hreq; [|discriminate].
  cbn [mbind res_bind] in H.
  destruct (py_getitem "version" v) as [ver|e] eqn:Hver; [|discriminate].
  cbn [mbind res_bind] in H.
  apply getitem_ok in Hver as (d & -> & Hver).
  destruct (py_eq ver (VStr "1.0")) eqn:Heq; [|discriminate]. cbn [negb] in H.
  apply py_eq_str in Heq as ->.
  destruct (py_getitem "metadata" (VDict d)) as [md|e] eqn:Hmd; [|discriminate].
  cbn [mbind res_bind] in H.
  destruct (require_fields _ md _ _) as [[]|e] eqn:Hreqm; [|discriminate].
  cbn [mbind res_bind] in H.
  destruct (py_getitem "domain" md) as [dom|e] eqn:Hdom; [|discriminate].
  cbn [mbind res_bind] in H.
  apply getitem_ok in Hdom as (m & -> & Hdom).
  destruct (py_in_list dom valid_domains) eqn:Hin; [|discriminate]. cbn [negb] in H.
  change valid_domains with (map VStr domains) in Hin.
  apply py_in_strs_true in Hin as (s & Hs & ->).
  destruct (py_getitem "rules" (VDict d)) as [rv|e] eqn:Hrv; [|discriminate].
  cbn [mbind res_bind] in H.
  destruct (py_iter rv) as [rs|e] eqn:Hrs; [|discriminate].
  cbn [mbind res_bind] in H.
  destruct (for_enumerate _validate_rule rs 0) as [[]|e] eqn:Hrules; [|discriminate].
  cbn [mbind res_bind] in H.
  destruct (py_getitem "decisions" (VDict d)) as [dv|e] eqn:Hdv; [|discriminate].
  cbn [mbind res_bind] in H.
  destruct (py_iter dv) as [ds|e] eqn:Hds; [|discriminate].
  cbn [mbind res_bind] in H.
  apply getitem_ok in Hmd as (d1 & [= <-] & Hmd).
  apply getitem_ok in Hrv as (d2 & [= <-] & Hrv).
  apply getitem_ok in Hdv as (d3 & [= <-] & Hdv).
  exists d, m, rs, ds. split; [reflexivity|].
  split; [now apply require_fields_inv in Hreq|]. split; [assumption|].
  split; [assumption|]. split; [now apply require_fields_inv in Hreqm|].
  split; [eauto|]. split; [eauto|].
  split; [exact (for_enumerate_inv _ _ _ _validate_rule_inv 0 Hrules)|].
  split; [eauto|].
  exact (for_enumerate_inv _ _ _ _validate_decision_inv 0 H).
Qed.

Lemma _validate_ok v : accepted v -> _validate v = Ok tt.
Proof.
  intros (d & m & rs & ds & -> & Htop & Hver & Hmd & Hmeta & (s & Hs & Hdom)
          & (rv & Hrv & Hrs) & Hrules & (dv & Hdv & Hds) & Hdecisions).
  unfold _validate. rewrite (require_fields_ok _ _ _ _ Htop). cbn. rewrite Hver. cbn.
  assert (Heq : py_eq (VStr "1.0") (VStr "1.0") = true) by now apply py_eq_str.
  rewrite Heq. cbn. rewrite Hmd. cbn.
  rewrite (require_fields_ok _ _ _ _ Hmeta). cbn. rewrite Hdom. cbn.
  assert (Hin : py_in_list (VStr s) valid_domains = true).
  { change valid_domains with (map VStr domains). apply py_in_strs_true. eauto. }
  rewrite Hin. cbn. rewrite Hrv. cbn. rewrite Hrs. cbn.
  rewrite (for_enumerate_ok _ _ _ _validate_rule_ok Hrules). cbn.
  rewrite Hdv. cbn. rewrite Hds. cbn.
  exact (for_enumerate_ok _ _ _ _validate_decision_ok Hdecisions 0).
Qed.

(** The constructor accepts exactly the documents that are mappings with
    the four top-level fields, version ["1.0"], a metadata mapping with
    its six fields and a domain of the four, rules that are mappings with
    their four fields and a type of the four, and decisions that are
    mappings with their five fields and an output that contains
    [result]; the bundle then holds the document as given. *)
Theorem constructor_accepts_exactly v b :
  Bundle.new v = Ok b <-> accepted v /\ b = MkBundle v.
Proof.
  unfold Bundle.new. split.
  - destruct (_validate v) as [[]|e] eqn:H; [|discriminate].
    cbn. intros [= <-]. split; [now apply _validate_inv|reflexivity].
  - intros [H ->]. now rewrite (_validate_ok v H).
Qed.

End BundleAcceptance.

(* ===================================================================== *)
(** ** The constructor on invalid documents                               *)
(* ===================================================================== *)

Module BundleRejection.
Import Py PyValue Bundle.
Import BundleFacts BundleAcceptance.

#[local] Arguments py_in_list : simpl never.
#[local] Arguments py_eq : simpl never.
#[local] Arguments py_str : simpl never.
#[local] Arguments String.append : simpl never.
#[local] Arguments require_fields : simpl never.

(** What validation raises: its own exception with a field path, or the
    [TypeError] of a part that is not the container it is used as. *)
Definition field_or_type_error (e : exn) : Prop :=
  (exists message field, e = ValidationException message (Some field) /\ field <> "")
  \/ (exists message, e = PyExn TypeError message).

Lemma contains_raises key v e : py_contains key v = Raise e -> field_or_type_error e.
Proof. destruct v; cbn; try discriminate; intros [= <-]; right; eauto. Qed.

Lemma iter_raises v e : py_iter v = Raise e -> field_or_type_error e.
Proof. destruct v; cbn; try discriminate; intros [= <-]; right; eauto. Qed.

#[local] Arguments py_contains : simpl never.

Lemma require_fields_cons f fs v message path :
  require_fields (f :: fs) v message path
  = (present ← py_contains f v;
     if present : bool then require_fields fs v message path
     else Raise (ValidationException (message +:+ f) (Some (path +:+ f)))).
Proof. reflexivity. Qed.

Lemma require_fields_raises fs v message path e :
  Forall (fun f => f <> "") fs ->
  require_fields fs v message path = Raise e -> field_or_type_error e.
Proof.
  intros Hfs. induction Hfs as [|f fs Hf _ IH]; [discriminate|].
  rewrite require_fields_cons.
  destruct (py_contains f v) as [[|]|x] eqn:Hc; cbn [mbind res_bind].
  - exact IH.
  - intros [= <-]. left. do 2 eexists. split; [reflexivity|].
    now apply nonempty_suffix.
  - intros [= <-]. eapply contains_raises; eassumption.
Qed.

Lemma require_fields_present fs v message path f :
  require_fields fs v message path = Ok tt -> f ∈ fs -> py_contains f v = Ok true.
Proof.
  induction fs as [|g fs IH]; intros H Hf; [now apply elem_of_nil in Hf|].
  rewrite require_fields_cons in H.
  destruct (py_contains g v) as [[|]|x] eqn:Hc; cbn [mbind res_bind] in H; try discriminate.
  apply elem_of_cons in Hf as [->|Hf]; [exact Hc|now apply IH].
Qed.

(** Subscripting with a key that [in] has found: the value of a mapping,
    or the [TypeError] of a list or a string. *)
Lemma getitem_present key v e :
  py_contains key v = Ok true -> py_getitem key v = Raise e -> field_or_type_error e.
Proof.
  unfold py_contains, py_getitem. destruct v as [|b|z|f|t|l|d]; try discriminate.
  - intros _ [= <-]. right. eauto.
  - intros _ [= <-]. right. eauto.
  - unfold dict_has. destruct (dict_get key d); [intros _|]; discriminate.
Qed.

Ltac names_not_empty := repeat constructor; discriminate.

Lemma _validate_rule_raises v i e : _validate_rule v i = Raise e -> field_or_type_error e.
Proof.
  unfold _validate_rule.
  destruct (require_fields _ v _ _) as [[]|x] eqn:Hreq; cbn [mbind res_bind].
  2:{ intros [= <-]. eapply require_fields_raises; [|eassumption]. names_not_empty. }
  destruct (py_getitem "type" v) as [ty|x] eqn:Hty; cbn [mbind res_bind].
  2:{ intros [= <-]. eapply getitem_present; [|eassumption].
      eapply require_fields_present; [eassumption|]. apply list_elem_of_In. simpl. tauto. }
  destruct (py_in_list ty valid_types); cbn [negb]; [discriminate|].
  intros [= <-]. left. do 2 eexists. split; [reflexivity|]. now apply nonempty_suffix.
Qed.

Lemma _validate_decision_raises v i e :
  _validate_decision v i = Raise e -> field_or_type_error e.
Proof.
  unfold _validate_decision.
  destruct (require_fields _ v _ _) as [[]|x] eqn:Hreq; cbn [mbind res_bind].
  2:{ intros [= <-]. eapply require_fields_raises; [|eassumption]. names_not_empty. }
  destruct (py_getitem "output" v) as [out|x] eqn:Hout; cbn [mbind res_bind].
  2:{ intros [= <-]. eapply getitem_present; [|eassumption].
      eapply require_fields_present; [eassumption|]. apply list_elem_of_In. simpl. tauto. }
  destruct (py_contains "result" out) as [[|]|x] eqn:Hres; cbn [mbind res_bind].
  - discriminate.
  - intros [= <-]. left. do 2 eexists. split; [reflexivity|]. now apply nonempty_suffix.
  - intros [= <-]. eapply contains_raises; eassumption.
Qed.

Lemma for_enumerate_raises check xs e :
  (forall x i e, check x i = Raise e -> field_or_type_error e) ->
  forall i, for_enumerate check xs i = Raise e -> field_or_type_error e.
Proof.
  intros Hcheck. induction xs as [|x xs IH]; intros i; [discriminate|].
  cbn [for_enumerate]. destruct (check x i) as [[]|y] eqn:Hc; cbn [mbind res_bind].
  - apply IH.
  - intros [= <-]. eapply Hcheck; eassumption.
Qed.

Lemma _validate_raises v e : _validate v = Raise e -> field_or_type_error e.
Proof.
  unfold _validate.
  destruct (require_fields _ v _ _) as [[]|x] eqn:Hreq; cbn [mbind res_bind].
  2:{ intros [= <-]. eapply require_fields_raises; [|eassumption]. names_not_empty. }
  assert (Htop : forall f, f ∈ required_top -> py_contains f v = Ok true).
  { intros f Hf. eapply require_fields_present; eassumption. }
  destruct (py_getitem "version" v) as [version|x] eqn:Hver; cbn [mbind res_bind].
  2:{ intros [= <-]. eapply getitem_present; [|eassumption].
      apply Htop. apply list_elem_of_In. simpl. tauto. }
  destruct (py_eq version (VStr "1.0")); cbn [negb].
  2:{ intros [= <-]. left. do 2 eexists. split; [reflexivity|discriminate]. }
  destruct (py_getitem "metadata" v) as [md|x] eqn:Hmd; cbn [mbind res_bind].
  2:{ intros [= <-]. eapply getitem_present; [|eassumption].
      apply Htop. apply list_elem_of_In. simpl. tauto. }
  destruct (require_fields _ md _ _) as [[]|x] eqn:Hreqm; cbn [mbind res_bind].
  2:{ intros [= <-]. eapply require_fields_raises; [|eassumption]. names_not_empty. }
  destruct (py_getitem "domain" md) as [dom|x] eqn:Hdom; cbn [mbind res_bind].
  2:{ intros [= <-]. eapply getitem_present; [|eassumption].
      eapply require_fields_present; [eassumption|]. apply list_elem_of_In. simpl. tauto. }
  destruct (py_in_list dom valid_domains); cbn [negb].
  2:{ intros [= <-]. left. do 2 eexists. split; [reflexivity|discriminate]. }
  destruct (py_getitem "rules" v) as [rv|x] eqn:Hrv; cbn [mbind res_bind].
  2:{ intros [= <-]. eapply getitem_present; [|eassumption].
      apply Htop. apply list_elem_of_In. simpl. tauto. }
  destruct (py_iter rv) as [rs|x] eqn:Hrs; cbn [mbind res_bind].
  2:{ intros [= <-]. eapply iter_raises; eassumption. }
  destruct (for_enumerate _validate_rule rs 0) as [[]|x] eqn:Hrules; cbn [mbind res_bind].
  2:{ intros [= <-]. eapply for_enumerate_raises; [|eassumption].
      exact _validate_rule_raises. }
  destruct (py_getitem "decisions" v) as [dv|x] eqn:Hdv; cbn [mbind res_bind].
  2:{ intros [= <-]. eapply getitem_present; [|eassumption].
      apply Htop. apply list_elem_of_In. simpl. tauto. }
  destruct (py_iter dv) as [ds|x] eqn:Hds; cbn [mbind res_bind].
  2:{ intros [= <-]. eapply iter_raises; eassumption. }
  apply for_enumerate_raises. exact _validate_decision_raises.
Qed.

(** No document that is invalid gets through. *)
Lemma invalid_not_accepted d : invalid d -> accepted (VDict d) -> False.
Proof.
  intros Hinv (d' & m & rs & ds & [= <-] & Htop & Hversion & Hm & Hmeta
               & (s & Hs & Hdomain) & (rv & Hrv & Hrs) & Hr & (dv & Hdv & Hds) & Hdec).
  unfold has_all in *.
  destruct Hinv as [f Hf Hnone|v Hv Hne|m' f Hm' Hf Hnone|m' v Hm' Hv Hno
                   |rules' i r f Hrules' Hi Hf Hnone|rules' i r v Hrules' Hi Hv Hno
                   |decisions' i x f Hdecisions' Hi Hf Hnone].
  - rewrite Forall_forall in Htop. destruct (Htop f Hf). congruence.
  - congruence.
  - assert (m' = m) as -> by congruence.
    rewrite Forall_forall in Hmeta. destruct (Hmeta f Hf). congruence.
  - assert (m' = m) as -> by congruence.
    apply (Hno s Hs). congruence.
  - assert (rv = VList rules') as -> by congruence. injection Hrs as <-.
    rewrite Forall_forall in Hr.
    destruct (Hr (VDict r)) as (r' & [= <-] & Hall & _).
    { eapply list_elem_of_lookup_2; eauto. }
    unfold has_all in Hall. rewrite Forall_forall in Hall. destruct (Hall f Hf). congruence.
  - assert (rv = VList rules') as -> by congruence. injection Hrs as <-.
    rewrite Forall_forall in Hr.
    destruct (Hr (VDict r)) as (r' & [= <-] & _ & s' & Hs' & Hty).
    { eapply list_elem_of_lookup_2; eauto. }
    apply (Hno s' Hs'). congruence.
  - assert (dv = VList decisions') as -> by congruence. injection Hds as <-.
    rewrite Forall_forall in Hdec.
    destruct (Hdec (VDict x)) as (x' & [= <-] & Hall & _).
    { eapply list_elem_of_lookup_2; eauto. }
    unfold has_all in Hall. rewrite Forall_forall in Hall. destruct (Hall f Hf). congruence.
Qed.

(** C9, as the code has it: constructing a DecisionBundle from an invalid
    document always fails, so no bundle object comes to exist and no rule
    of it can be executed.  The exception is a [ValidationException] that
    carries a field path, or the [TypeError] of a part that is not the
    container it is used as; on a document of the data model's shape it
    is the [ValidationException]. *)
Theorem invalid_bundle_is_rejected (d : dict) :
  invalid d ->
  (exists e,
     new (VDict d) = Raise e
     /\ ((exists message field, e = ValidationException message (Some field) /\ field <> "")
         \/ (exists message, e = PyExn TypeError message)))
  /\ (shaped d = true ->
      exists message field,
        new (VDict d) = Raise (ValidationException message (Some field))
        /\ field <> "").
Proof.
  intros Hinv. unfold new. split.
  - destruct (_validate (VDict d)) as [[]|e] eqn:Hv; cbn [mbind res_bind].
    + exfalso. apply _validate_inv in Hv. exact (invalid_not_accepted d Hinv Hv).
    + exists e. split; [reflexivity|]. now apply _validate_raises in Hv.
  - intros Hshape.
    destruct (_validate_cases d Hshape) as [(msg & f & Herr & Hf)|[_ Hvalid]].
    + rewrite Herr. cbn. now exists msg, f.
    + exfalso. exact (valid_doc_not_invalid d Hvalid Hinv).
Qed.

(** A document whose version is ["2.0"] and that has no metadata. *)
Definition bad_document : dict :=
  [("version", VStr "2.0"); ("rules", VList []); ("decisions", VList [])].

Lemma invalid_bundle_is_rejected_witness :
  exists message field,
    new (VDict bad_document) = Raise (ValidationException message (Some field))
    /\ field <> "".
Proof.
  apply (invalid_bundle_is_rejected bad_document).
  - apply (bad_version bad_document (VStr "2.0")); [reflexivity|discriminate].
  - reflexivity.
Defined.

(** A document whose metadata is the list of the six field names and
    whose only rule has a type that is not one of the four. *)
Definition listed_metadata : dict :=
  [("version", VStr "1.0");
   ("metadata",
    VList [VStr "id"; VStr "name"; VStr "description"; VStr "created";
           VStr "jurisdiction"; VStr "domain"]);
   ("rules",
    VList [VDict [("id", VStr "r1"); ("name", VStr "scoring"); ("type", VStr "lua");
                  ("definition", VDict [])]]);
   ("decisions", VList [])].

(** C9 as stated fails: the type of a rule of [listed_metadata] is outside
    the allowed set, and constructing the bundle raises [TypeError] at
    [metadata['domain']], not a [ValidationException]. *)
Lemma mis_shaped_document_raises_type_error :
  invalid listed_metadata
  /\ new (VDict listed_metadata)
     = Raise (PyExn TypeError "list indices must be integers or slices, not str").
Proof.
  split; [|vm_compute; reflexivity].
  apply (bad_rule_type listed_metadata
           [VDict [("id", VStr "r1"); ("name", VStr "scoring"); ("type", VStr "lua");
                   ("definition", VDict [])]]
           0%nat
           [("id", VStr "r1"); ("name", VStr "scoring"); ("type", VStr "lua");
            ("definition", VDict [])]
           (VStr "lua")); try reflexivity.
  intros s Hs.
  repeat (apply elem_of_cons in Hs as [->|Hs]; [discriminate|]).
  now apply elem_of_nil in Hs.
Qed.

End BundleRejection.

(** ** Look-ups in a constructed bundle *)

Module BundleLookups.
Import Py PyValue Bundle BundleAccess.
Import BundleFacts BundleAcceptance.

(** [x[key]] for an item that is a mapping with that key. *)
Definition field (key : string) (x : value) : value :=
  match x with
  | VDict d => dict_get_default key VNone d
  | _ => VNone
  end.

Definition keyed (key : string) (x : value) : Prop :=
  exists d v, x = VDict d /\ dict_get key d = Some v.

Lemma keyed_getitem key x : keyed key x -> py_getitem key x = Ok (field key x).
Proof.
  intros (d & v & -> & Hv). cbn. unfold dict_get_default. now rewrite Hv.
Qed.

Lemma first_with_find key wanted xs :
  Forall (keyed key) xs ->
  first_with key wanted xs = Ok (find (fun x => py_eq (field key x) wanted) xs).
Proof.
  induction 1 as [|x xs Hx _ IH]; [reflexivity|].
  cbn [first_with find]. rewrite (keyed_getitem key x Hx). cbn [mbind res_bind].
  destruct (py_eq (field key x) wanted); [reflexivity|exact IH].
Qed.

Lemma all_with_filter key wanted xs :
  Forall (keyed key) xs ->
  all_with key wanted xs = Ok (List.filter (fun x => py_eq (field key x) wanted) xs).
Proof.
  induction 1 as [|x xs Hx _ IH]; [reflexivity|].
  cbn [all_with List.filter]. rewrite (keyed_getitem key x Hx), IH. cbn [mbind res_bind].
  now destruct (py_eq (field key x) wanted).
Qed.

Lemma has_all_keyed fs d f : has_all fs d -> f ∈ fs -> keyed f (VDict d).
Proof.
  intros H Hf. unfold has_all in H. rewrite Forall_forall in H.
  destruct (H f Hf) as [v Hv]. now exists d, v.
Qed.

(** On a constructed bundle [get_rule_by_id] and
    [get_decisions_by_rule_id] never raise: the first is the first rule
    whose [id] equals the one asked for, or [None]; the second is the
    decisions whose [ruleId] equals it, in their order.  (Every rule has
    an [id] and every decision a [ruleId], or the constructor would have
    raised.) *)
Theorem lookups_on_constructed_bundle v b wanted :
  Bundle.new v = Ok b ->
  exists rs ds,
    (rv ← rules b; py_iter rv) = Ok rs
    /\ (dv ← decisions b; py_iter dv) = Ok ds
    /\ get_rule_by_id wanted b = Ok (find (fun r => py_eq (field "id" r) wanted) rs)
    /\ get_decisions_by_rule_id wanted b
       = Ok (List.filter (fun x => py_eq (field "ruleId" x) wanted) ds).
Proof.
  intros H. apply constructor_accepts_exactly in H as [H ->].
  destruct H as (d & m & rs & ds & -> & _ & _ & _ & _ & _
                 & (rv & Hrv & Hrs) & Hrules & (dv & Hdv & Hds) & Hdecisions).
  exists rs, ds.
  unfold get_rule_by_id, get_decisions_by_rule_id, rules, decisions. cbn [_data py_getitem].
  rewrite Hrv, Hdv. cbn [mbind res_bind]. rewrite Hrs, Hds. cbn [mbind res_bind].
  split; [reflexivity|]. split; [reflexivity|]. split.
  - apply first_with_find. eapply Forall_impl; [exact Hrules|].
    intros r (x & -> & Hall & _). apply (has_all_keyed required_rule); [exact Hall|in_list].
  - apply all_with_filter. eapply Forall_impl; [exact Hdecisions|].
    intros r (x & -> & Hall & _).
    apply (has_all_keyed required_decision); [exact Hall|in_list].
Qed.

(** A smallest document the constructor accepts, with one piece of
    evidence that has no [id]. *)
Definition small_document : value :=
  VDict [("version", VStr "1.0");
         ("metadata",
          VDict [("id", VStr "b1"); ("name", VStr "kyc"); ("description", VStr "");
                 ("created", VStr "2024-01-15"); ("jurisdiction", VStr "EU");
                 ("domain", VStr "finance")]);
         ("rules",
          VList [VDict [("id", VStr "r1"); ("name", VStr "adult"); ("type", VStr "dsl");
                        ("definition", VDict [])]]);
         ("decisions", VList []);
         ("evidence", VList [VDict [("note", VStr "scan")]])].

Lemma lookups_on_constructed_bundle_witness :
  get_rule_by_id (VStr "r1") (MkBundle small_document)
  = Ok (Some (VDict [("id", VStr "r1"); ("name", VStr "adult"); ("type", VStr "dsl");
                     ("definition", VDict [])])).
Proof.
  destruct (lookups_on_constructed_bundle small_document (MkBundle small_document)
              (VStr "r1") eq_refl) as (rs & ds & Hrs & _ & -> & _).
  injection Hrs as <-. reflexivity.
Defined.

(** The evidence of a bundle is not validated: [get_evidence_by_id]
    raises [KeyError] as soon as it meets a piece of evidence without an
    [id] before one that matches. *)
Theorem evidence_lookup_may_raise d (x : dict) rest wanted :
  dict_get "evidence" d = Some (VList (VDict x :: rest)) ->
  dict_get "id" x = None ->
  get_evidence_by_id wanted (MkBundle (VDict d)) = Raise (PyExn KeyError "'id'").
Proof.
  intros He Hx. unfold get_evidence_by_id, evidence. cbn [_data py_get].
  unfold dict_get_default. rewrite He. cbn. now rewrite Hx.
Qed.

Lemma evidence_lookup_may_raise_witness :
  Bundle.new small_document = Ok (MkBundle small_document)
  /\ get_evidence_by_id (VStr "e1") (MkBundle small_document)
     = Raise (PyExn KeyError "'id'").
Proof.
  split; [reflexivity|].
  apply (evidence_lookup_may_raise _ [("note", VStr "scan")] []); reflexivity.
Defined.

End BundleLookups.

(** ** The bundle builder *)

Module BuilderFacts.
Import Py PyValue Bundle Builder.
Import BundleFacts BundleAcceptance.

#[local] Arguments py_in_list : simpl never.
#[local] Arguments py_eq : simpl never.
#[local] Arguments py_str : simpl never.
#[local] Arguments String.append : simpl never.

(** The calls a builder takes. *)
Inductive op :=
| SetName (name : value)
| SetDescription (description : value)
| SetJurisdiction (jurisdiction : value)
| SetAuthor (author : value)
| SetDomain (domain : value)
| AddTag (tag : value)
| AddRule (t1 t2 : datetime.t) (rule : value)
| AddDecision (t1 t2 : datetime.t) (decision : value)
| AddEvidence (t1 t2 : datetime.t) (evidence : value).

Definition call (o : op) (b : DecisionBundleBuilder) : outcome :=
  match o with
  | SetName v => set_name v b
  | SetDescription v => set_description v b
  | SetJurisdiction v => set_jurisdiction v b
  | SetAuthor v => set_author v b
  | SetDomain v => set_domain v b
  | AddTag v => add_tag v b
  | AddRule t1 t2 v => add_rule t1 t2 v b
  | AddDecision t1 t2 v => add_decision t1 t2 v b
  | AddEvidence t1 t2 v => add_evidence t1 t2 v b
  end.

Definition run (ops : list op) (b : DecisionBundleBuilder) : DecisionBundleBuilder :=
  fold_left (fun b o => snd (call o b)) ops b.

(** The rules and the decisions handed to the builder, in order. *)
Definition rules_given (ops : list op) : list value :=
  omap (fun o => match o with AddRule _ _ v => Some v | _ => None end) ops.
Definition decisions_given (ops : list op) : list value :=
  omap (fun o => match o with AddDecision _ _ v => Some v | _ => None end) ops.

(** The shape the builder's dictionary keeps. *)
Definition shape (m : dict) (rs ds es : list value) (a : dict) : dict :=
  [("version", VStr "1.0"); ("metadata", VDict m); ("rules", VList rs);
   ("decisions", VList ds); ("evidence", VList es); ("audit", VDict a)].

Record well_built (b : DecisionBundleBuilder) (rs ds : list value) : Prop := {
  wb_shape : exists m es a tags trail,
    _bundle b = shape m rs ds es a
    /\ has_all required_metadata m
    /\ (exists s, s ∈ domains /\ dict_get "domain" m = Some (VStr s))
    /\ dict_get "tags" m = Some (VList tags)
    /\ dict_get "trail" a = Some (VList trail)
}.

Lemma dict_get_set_same k v d : dict_get k (dict_set k v d) = Some v.
Proof. now rewrite EngineFacts.dict_get_set, String.eqb_refl. Qed.

Lemma dict_get_set_other k k' v d :
  k <> k' -> dict_get k (dict_set k' v d) = dict_get k d.
Proof.
  intros H. rewrite EngineFacts.dict_get_set.
  apply String.eqb_neq in H. now rewrite H.
Qed.

Lemma has_all_set fs k v d : has_all fs d -> has_all fs (dict_set k v d).
Proof.
  intros H. eapply Forall_impl; [exact H|]. intros f [x Hx]. cbn.
  rewrite EngineFacts.dict_get_set. destruct (String.eqb f k); eauto.
Qed.

(** *** The steps on a dictionary of that shape *)

Lemma set_inner_metadata k v m rs ds es a :
  set_inner "metadata" k v (shape m rs ds es a) = Ok (shape (dict_set k v m) rs ds es a).
Proof. reflexivity. Qed.

Lemma set_inner_audit k v m rs ds es a :
  set_inner "audit" k v (shape m rs ds es a) = Ok (shape m rs ds es (dict_set k v a)).
Proof. reflexivity. Qed.

Lemma append_to_inner_metadata k l x m rs ds es a :
  dict_get k m = Some (VList l) ->
  append_to_inner "metadata" k x (shape m rs ds es a)
  = Ok (shape (dict_set k (VList (l ++ [x])) m) rs ds es a).
Proof.
  intros H. unfold append_to_inner.
  change (py_getitem "metadata" (VDict (shape m rs ds es a))) with (Ok (VDict m)).
  cbn [mbind res_bind py_getitem]. rewrite H. cbn [mbind res_bind py_append].
  apply set_inner_metadata.
Qed.

Lemma append_to_inner_audit k l x m rs ds es a :
  dict_get k a = Some (VList l) ->
  append_to_inner "audit" k x (shape m rs ds es a)
  = Ok (shape m rs ds es (dict_set k (VList (l ++ [x])) a)).
Proof.
  intros H. unfold append_to_inner.
  change (py_getitem "audit" (VDict (shape m rs ds es a))) with (Ok (VDict a)).
  cbn [mbind res_bind py_getitem]. rewrite H. cbn [mbind res_bind py_append].
  apply set_inner_audit.
Qed.

Lemma append_to_rules x m rs ds es a :
  append_to "rules" x (shape m rs ds es a) = Ok (shape m (rs ++ [x]) ds es a).
Proof. reflexivity. Qed.

Lemma append_to_decisions x m rs ds es a :
  append_to "decisions" x (shape m rs ds es a) = Ok (shape m rs (ds ++ [x]) es a).
Proof. reflexivity. Qed.

Lemma append_to_evidence x m rs ds es a :
  append_to "evidence" x (shape m rs ds es a) = Ok (shape m rs ds (es ++ [x]) a).
Proof. reflexivity. Qed.

Lemma _add_audit_trail_shape t1 t2 action details m rs ds es a trail :
  dict_get "trail" a = Some (VList trail) ->
  exists a' trail',
    _add_audit_trail t1 t2 action details (shape m rs ds es a)
    = (Ok tt, shape m rs ds es a')
    /\ dict_get "trail" a' = Some (VList trail').
Proof.
  intros Htrail. unfold _add_audit_trail. rewrite set_inner_audit.
  erewrite append_to_inner_audit
    by (rewrite dict_get_set_other by discriminate; exact Htrail).
  do 2 eexists. split; [reflexivity|]. apply dict_get_set_same.
Qed.

(** *** The invariant *)

Lemma shaped_well_built b m rs ds es a tags trail :
  _bundle b = shape m rs ds es a ->
  has_all required_metadata m ->
  (exists s, s ∈ domains /\ dict_get "domain" m = Some (VStr s)) ->
  dict_get "tags" m = Some (VList tags) ->
  dict_get "trail" a = Some (VList trail) ->
  well_built b rs ds.
Proof. intros. constructor. exists m, es, a, tags, trail. repeat split; assumption. Qed.

Lemma init_well_built uuid t1 t2 t3 : well_built (init uuid t1 t2 t3) [] [].
Proof.
  eapply shaped_well_built.
  - reflexivity.
  - repeat constructor; eexists; reflexivity.
  - exists "general". split; [in_list|reflexivity].
  - reflexivity.
  - reflexivity.
Qed.

Lemma getitem_shape_metadata m rs ds es a :
  py_getitem "metadata" (VDict (shape m rs ds es a)) = Ok (VDict m).
Proof. reflexivity. Qed.

#[local] Arguments shape : simpl never.

(** Setting a metadata field other than the domain and the tags. *)
Lemma set_plain_well_built key v b rs ds :
  key <> "domain" -> key <> "tags" ->
  well_built b rs ds ->
  fst (after b (set_inner "metadata" key v (_bundle b))) = Ok tt
  /\ well_built (snd (after b (set_inner "metadata" key v (_bundle b)))) rs ds.
Proof.
  intros Hd Ht [(m & es & a & tags & trail & Hb & Hall & (s & Hs & Hdom) & Htags & Htrail)].
  rewrite Hb, set_inner_metadata. cbn [after fst snd]. split; [reflexivity|].
  apply (shaped_well_built _ (dict_set key v m) rs ds es a tags trail);
    [reflexivity|now apply has_all_set| | |exact Htrail].
  - exists s. split; [exact Hs|].
    now rewrite dict_get_set_other by (intros E; apply Hd; symmetry; exact E).
  - now rewrite dict_get_set_other by (intros E; apply Ht; symmetry; exact E).
Qed.

Lemma set_domain_outcome domain b rs ds :
  well_built b rs ds ->
  if py_in_list domain valid_domains then
    fst (set_domain domain b) = Ok tt /\ well_built (snd (set_domain domain b)) rs ds
  else
    set_domain domain b
    = (Raise (ValidationException ("Invalid domain: " +:+ py_str domain) None), b).
Proof.
  intros [(m & es & a & tags & trail & Hb & Hall & _ & Htags & Htrail)].
  unfold set_domain. destruct (py_in_list domain valid_domains) eqn:Hin; [|reflexivity].
  cbn [negb]. rewrite Hb, set_inner_metadata. cbn [after fst snd].
  split; [reflexivity|].
  change valid_domains with (map VStr domains) in Hin.
  apply py_in_strs_true in Hin as (s & Hs & ->).
  apply (shaped_well_built _ (dict_set "domain" (VStr s) m) rs ds es a tags trail);
    [reflexivity|now apply has_all_set| | |exact Htrail].
  - exists s. split; [exact Hs|apply dict_get_set_same].
  - now rewrite dict_get_set_other by discriminate.
Qed.

Lemma add_tag_well_built tag b rs ds :
  well_built b rs ds ->
  fst (add_tag tag b) = Ok tt /\ well_built (snd (add_tag tag b)) rs ds.
Proof.
  intros [(m & es & a & tags & trail & Hb & Hall & (s & Hs & Hdom) & Htags & Htrail)].
  unfold add_tag. rewrite Hb, getitem_shape_metadata.
  cbn [mbind res_bind py_getitem]. rewrite Htags. cbn [mbind res_bind value_in].
  destruct (py_in_list tag tags); cbn [negb].
  - cbn [after fst snd]. split; [reflexivity|].
    apply (shaped_well_built _ m rs ds es a tags trail); eauto.
  - rewrite (append_to_inner_metadata "tags" tags tag) by exact Htags.
    cbn [after fst snd]. split; [reflexivity|].
    apply (shaped_well_built _ (dict_set "tags" (VList (tags ++ [tag])) m) rs ds es a
             (tags ++ [tag]) trail);
      [reflexivity|now apply has_all_set| |apply dict_get_set_same|exact Htrail].
    exists s. split; [exact Hs|]. now rewrite dict_get_set_other by discriminate.
Qed.

(** The item an [add_*] call hands over. *)
Definition item_of (o : op) : option value :=
  match o with
  | AddRule _ _ v | AddDecision _ _ v | AddEvidence _ _ v => Some v
  | _ => None
  end.

Definition is_mapping (v : value) : bool :=
  match v with VDict _ => true | _ => false end.

Lemma add_item_outcome key action label t1 t2 item b m rs ds es a trail :
  append_to key item (_bundle b) = Ok (shape m rs ds es a) ->
  dict_get "trail" a = Some (VList trail) ->
  exists a' trail',
    snd (add_item key action label t1 t2 item b) = MkBuilder (shape m rs ds es a')
    /\ dict_get "trail" a' = Some (VList trail')
    /\ (fst (add_item key action label t1 t2 item b) = Ok tt
        \/ (is_mapping item = false
            /\ exists msg, fst (add_item key action label t1 t2 item b)
                           = Raise (PyExn AttributeError msg))).
Proof.
  intros Happend Htrail. unfold add_item. rewrite Happend.
  destruct item as [|x|z|f|s0|l|d]; cbn [py_get is_mapping];
    try (exists a, trail; cbn [fst snd]; split; [reflexivity|];
         split; [exact Htrail|right; split; [reflexivity|eauto]]).
  destruct (_add_audit_trail_shape t1 t2 action
              (label +:+ py_str (dict_get_default "id" (VStr "unknown") d))
              m rs ds es a trail Htrail) as (a' & trail' & -> & Htrail').
  exists a', trail'. cbn [fst snd]. split; [reflexivity|]. split; [exact Htrail'|now left].
Qed.

Lemma add_rule_well_built t1 t2 item b rs ds :
  well_built b rs ds ->
  well_built (snd (add_rule t1 t2 item b)) (rs ++ [item]) ds
  /\ (fst (add_rule t1 t2 item b) = Ok tt
      \/ (is_mapping item = false
          /\ exists msg, fst (add_rule t1 t2 item b) = Raise (PyExn AttributeError msg))).
Proof.
  intros [(m & es & a & tags & trail & Hb & Hall & Hdom & Htags & Htrail)].
  pose proof (append_to_rules item m rs ds es a) as Happend. rewrite <- Hb in Happend.
  destruct (add_item_outcome "rules" "rule_added" "Added rule: " t1 t2 item b _ _ _ _ _ _
              Happend Htrail)
    as (a' & trail' & Hsnd & Htrail' & Hfst).
  unfold add_rule. split; [|exact Hfst].
  rewrite Hsnd. eapply shaped_well_built; eauto; reflexivity.
Qed.

Lemma add_decision_well_built t1 t2 item b rs ds :
  well_built b rs ds ->
  well_built (snd (add_decision t1 t2 item b)) rs (ds ++ [item])
  /\ (fst (add_decision t1 t2 item b) = Ok tt
      \/ (is_mapping item = false
          /\ exists msg, fst (add_decision t1 t2 item b) = Raise (PyExn AttributeError msg))).
Proof.
  intros [(m & es & a & tags & trail & Hb & Hall & Hdom & Htags & Htrail)].
  pose proof (append_to_decisions item m rs ds es a) as Happend. rewrite <- Hb in Happend.
  destruct (add_item_outcome "decisions" "decision_added" "Added decision: " t1 t2 item b _ _ _ _ _ _
              Happend Htrail)
    as (a' & trail' & Hsnd & Htrail' & Hfst).
  unfold add_decision. split; [|exact Hfst].
  rewrite Hsnd. eapply shaped_well_built; eauto; reflexivity.
Qed.

Lemma add_evidence_well_built t1 t2 item b rs ds :
  well_built b rs ds ->
  well_built (snd (add_evidence t1 t2 item b)) rs ds
  /\ (fst (add_evidence t1 t2 item b) = Ok tt
      \/ (is_mapping item = false
          /\ exists msg, fst (add_evidence t1 t2 item b) = Raise (PyExn AttributeError msg))).
Proof.
  intros [(m & es & a & tags & trail & Hb & Hall & Hdom & Htags & Htrail)].
  pose proof (append_to_evidence item m rs ds es a) as Happend. rewrite <- Hb in Happend.
  destruct (add_item_outcome "evidence" "evidence_added" "Added evidence: " t1 t2 item b _ _ _ _ _ _
              Happend Htrail)
    as (a' & trail' & Hsnd & Htrail' & Hfst).
  unfold add_evidence. split; [|exact Hfst].
  rewrite Hsnd. eapply shaped_well_built; eauto; reflexivity.
Qed.

Lemma call_well_built o b rs ds :
  well_built b rs ds ->
  well_built (snd (call o b)) (rs ++ rules_given [o]) (ds ++ decisions_given [o])
  /\ (fst (call o b) = Ok tt
      \/ (exists v, o = SetDomain v /\ py_in_list v valid_domains = false
                    /\ call o b
                       = (Raise (ValidationException ("Invalid domain: " +:+ py_str v)
                                   None), b))
      \/ (exists v msg, item_of o = Some v /\ is_mapping v = false
                        /\ fst (call o b) = Raise (PyExn AttributeError msg))).
Proof.
  intros Hwb.
  destruct o as [v|v|v|v|v|v|t1 t2 v|t1 t2 v|t1 t2 v];
    cbn [call rules_given decisions_given omap list_omap]; rewrite ?app_nil_r.
  1: destruct (set_plain_well_built "name" v b rs ds) as [Hok Hwb'];
       [discriminate|discriminate|exact Hwb|split; [exact Hwb'|left; exact Hok]].
  1: destruct (set_plain_well_built "description" v b rs ds) as [Hok Hwb'];
       [discriminate|discriminate|exact Hwb|split; [exact Hwb'|left; exact Hok]].
  1: destruct (set_plain_well_built "jurisdiction" v b rs ds) as [Hok Hwb'];
       [discriminate|discriminate|exact Hwb|split; [exact Hwb'|left; exact Hok]].
  1: destruct (set_plain_well_built "author" v b rs ds) as [Hok Hwb'];
       [discriminate|discriminate|exact Hwb|split; [exact Hwb'|left; exact Hok]].
  - pose proof (set_domain_outcome v b rs ds Hwb) as H.
    destruct (py_in_list v valid_domains) eqn:Hin.
    + destruct H as [Hok Hwb']. split; [exact Hwb'|now left].
    + rewrite H. cbn [fst snd]. split; [exact Hwb|]. right. left. exists v. now rewrite <- H.
  - destruct (add_tag_well_built v b rs ds Hwb) as [Hok Hwb']. split; [exact Hwb'|now left].
  - destruct (add_rule_well_built t1 t2 v b rs ds Hwb) as [Hwb' [Hok|(Hm & msg & Hfst)]];
      (split; [exact Hwb'|]); [now left|right; right; exists v, msg; now repeat split].
  - destruct (add_decision_well_built t1 t2 v b rs ds Hwb) as [Hwb' [Hok|(Hm & msg & Hfst)]];
      (split; [exact Hwb'|]); [now left|right; right; exists v, msg; now repeat split].
  - destruct (add_evidence_well_built t1 t2 v b rs ds Hwb) as [Hwb' [Hok|(Hm & msg & Hfst)]];
      (split; [exact Hwb'|]); [now left|right; right; exists v, msg; now repeat split].
Qed.

Lemma omap_snoc {A B} (f : A -> option B) l x : omap f (l ++ [x]) = omap f l ++ omap f [x].
Proof. apply omap_app. Qed.

Lemma run_well_built ops : forall b rs ds,
  well_built b rs ds ->
  well_built (run ops b) (rs ++ rules_given ops) (ds ++ decisions_given ops).
Proof.
  induction ops as [|o ops IH]; intros b rs ds Hwb.
  - cbn. now rewrite !app_nil_r.
  - cbn [run fold_left]. fold (run ops (snd (call o b))).
    destruct (call_well_built o b rs ds Hwb) as [Hwb' _].
    specialize (IH _ _ _ Hwb').
    change (o :: ops) with ([o] ++ ops).
    unfold rules_given, decisions_given in *. rewrite !omap_app, !app_assoc. exact IH.
Qed.

(** Whatever calls a builder has taken, [build] succeeds exactly when
    every rule handed to [add_rule] and every decision handed to
    [add_decision] is one the constructor accepts: the metadata the
    setters leave is always complete, and a domain that is not valid
    never gets in. *)
Theorem build_succeeds_exactly uuid t1 t2 t3 ops :
  let b := run ops (init uuid t1 t2 t3) in
  (exists bundle, build b = Ok bundle)
  <-> Forall rule_accepted (rules_given ops)
      /\ Forall decision_accepted (decisions_given ops).
Proof.
  intros b.
  pose proof (run_well_built ops _ _ _ (init_well_built uuid t1 t2 t3)) as Hwb.
  fold b in Hwb. cbn [app] in Hwb.
  destruct Hwb as [(m & es & a & tags & trail & Hb & Hall & Hdom & Htags & Htrail)].
  unfold build, Bundle.new. rewrite Hb. split.
  - intros [bundle H].
    destruct (_validate _) as [[]|e] eqn:Hv; [|discriminate].
    apply _validate_inv in Hv
      as (d & m' & rs & ds & [= <-] & _ & _ & _ & _ & _ & (rv & Hrv & Hrs) & Hrules
          & (dv & Hdv & Hds) & Hdecisions).
    unfold shape in Hrv, Hdv. cbn in Hrv, Hdv.
    injection Hrv as <-. injection Hdv as <-. injection Hrs as <-. injection Hds as <-.
    now split.
  - intros [Hrules Hdecisions].
    rewrite (_validate_ok (VDict (shape m (rules_given ops) (decisions_given ops) es a))).
    + cbn. eauto.
    + exists (shape m (rules_given ops) (decisions_given ops) es a), m,
        (rules_given ops), (decisions_given ops).
      split; [reflexivity|]. split; [repeat constructor; eexists; reflexivity|].
      split; [reflexivity|]. split; [reflexivity|]. split; [exact Hall|].
      split; [exact Hdom|]. split; [eexists; split; reflexivity|].
      split; [exact Hrules|]. split; [eexists; split; reflexivity|exact Hdecisions].
Qed.

(** The list an [add_*] call appends to. *)
Definition list_of (o : op) : option string :=
  match o with
  | AddRule _ _ _ => Some "rules"
  | AddDecision _ _ _ => Some "decisions"
  | AddEvidence _ _ _ => Some "evidence"
  | _ => None
  end.

(** An [add_*] call leaves its item at the end of its list, whether it
    returns or raises. *)
Lemma add_appends o b rs ds v :
  well_built b rs ds -> item_of o = Some v ->
  exists key items,
    list_of o = Some key
    /\ dict_get key (_bundle b) = Some (VList items)
    /\ dict_get key (_bundle (snd (call o b))) = Some (VList (items ++ [v])).
Proof.
  intros [(m & es & a & tags & trail & Hb & Hall & Hdom & Htags & Htrail)] Hv.
  destruct o as [x|x|x|x|x|x|t1 t2 x|t1 t2 x|t1 t2 x]; try discriminate;
    injection Hv as ->; cbn [call list_of].
  - pose proof (append_to_rules v m rs ds es a) as Happend. rewrite <- Hb in Happend.
    destruct (add_item_outcome "rules" "rule_added" "Added rule: " t1 t2 v b _ _ _ _ _ _
                Happend Htrail) as (a' & trail' & Hsnd & _).
    exists "rules", rs. unfold add_rule. rewrite Hsnd, Hb. now repeat split.
  - pose proof (append_to_decisions v m rs ds es a) as Happend. rewrite <- Hb in Happend.
    destruct (add_item_outcome "decisions" "decision_added" "Added decision: " t1 t2 v b
                _ _ _ _ _ _ Happend Htrail) as (a' & trail' & Hsnd & _).
    exists "decisions", ds. unfold add_decision. rewrite Hsnd, Hb. now repeat split.
  - pose proof (append_to_evidence v m rs ds es a) as Happend. rewrite <- Hb in Happend.
    destruct (add_item_outcome "evidence" "evidence_added" "Added evidence: " t1 t2 v b
                _ _ _ _ _ _ Happend Htrail) as (a' & trail' & Hsnd & _).
    exists "evidence", es. unfold add_evidence. rewrite Hsnd, Hb. now repeat split.
Qed.

(** A builder that has taken any calls raises only in two cases:
    [set_domain] with a domain that is not one of the four raises a
    [ValidationException] without a field and changes nothing; an [add_*]
    call with an item that is not a mapping raises [AttributeError], and
    leaves the builder with the item appended to its list.  Every other
    call returns. *)
Theorem builder_raises_only uuid t1 t2 t3 ops o :
  let b := run ops (init uuid t1 t2 t3) in
  fst (call o b) = Ok tt
  \/ (exists v, o = SetDomain v /\ py_in_list v valid_domains = false
                /\ call o b
                   = (Raise (ValidationException ("Invalid domain: " +:+ py_str v) None),
                      b))
  \/ (exists v msg, item_of o = Some v /\ is_mapping v = false
                    /\ fst (call o b) = Raise (PyExn AttributeError msg)
                    /\ run (ops ++ [o]) (init uuid t1 t2 t3) = snd (call o b)
                    /\ exists key items,
                         list_of o = Some key
                         /\ dict_get key (to_dict b) = Some (VList items)
                         /\ dict_get key (to_dict (snd (call o b)))
                            = Some (VList (items ++ [v]))).
Proof.
  intros b.
  pose proof (run_well_built ops _ _ _ (init_well_built uuid t1 t2 t3)) as Hwb.
  fold b in Hwb.
  destruct (call_well_built o b _ _ Hwb) as [_ [H|[H|(v & msg & Hv & Hm & H)]]];
    [now left|right; now left|].
  right. right. exists v, msg.
  split; [assumption|]. split; [assumption|]. split; [assumption|].
  split; [unfold run; now rewrite fold_left_app|].
  exact (add_appends o b _ _ v Hwb Hv).
Qed.

End BuilderFacts.

(** ** Executing a bundle *)

Module EngineBundleFacts.
Import Py PyValue Engine EngineBundle.
Import BundleFacts BundleAcceptance.

(** *** Keys that stay *)

Lemma dict_set_keeps k k' v d :
  is_Some (dict_get k d) -> is_Some (dict_get k (dict_set k' v d)).
Proof.
  intros H. rewrite EngineFacts.dict_get_set. destruct (String.eqb k k'); eauto.
Qed.

Lemma dict_update_keeps k other : forall d,
  is_Some (dict_get k d) -> is_Some (dict_get k (dict_update d other)).
Proof.
  unfold dict_update. induction other as [|[k' v] other IH]; intros d H; [exact H|].
  cbn [fold_left]. apply IH, dict_set_keeps, H.
Qed.

Section Executors.

Variable _execute_dsl_rule _execute_expression_rule :
  datetime.t -> dict -> ExecutionContext -> res dict.
Variable clock : nat -> datetime.t.

Abbreviation execute_rule := (Engine.execute_rule _execute_dsl_rule _execute_expression_rule).
Abbreviation execute_one :=
  (EngineBundle.execute_one _execute_dsl_rule _execute_expression_rule clock).
Abbreviation execute_all :=
  (EngineBundle.execute_all _execute_dsl_rule _execute_expression_rule clock).
Abbreviation execute_bundle :=
  (EngineBundle.execute_bundle _execute_dsl_rule _execute_expression_rule clock).

(** What a call of [execute_rule] can leave when the rule is of a
    built-in type. *)
Lemma execute_rule_cases now rule e context :
  EngineFacts.built_in rule ->
  (exists r,
     returned (execute_rule now rule e context) = Ok r
     /\ is_Some (dict_get "result" r)
     /\ errors (context_after (execute_rule now rule e context)) = errors context
     /\ (results (context_after (execute_rule now rule e context)) = results context
         \/ results (context_after (execute_rule now rule e context))
            = results context ++ [r]))
  \/ (exists x,
        returned (execute_rule now rule e context) = Raise x
        /\ context_after (execute_rule now rule e context) = context
        /\ engine_after (execute_rule now rule e context) = e).
Proof.
  intros Hb.
  assert (Hblank : forall x, is_Some (dict_get "result" (dict_update (EngineFacts.blank now rule) x))).
  { intros x. apply dict_update_keeps. cbn. eauto. }
  pose proof (EngineFacts.built_in_reads_only _execute_dsl_rule _execute_expression_rule
                now rule e context Hb) as Hleft.
  unfold EngineFacts.left_by_executor in Hleft.
  unfold Engine.execute_rule. cbv zeta.
  destruct (cache e !! _get_cache_key rule context) as [cached|].
  - left. eexists. cbn [returned context_after]. split; [reflexivity|].
    split; [apply dict_set_keeps, Hblank|]. split; [reflexivity|now left].
  - destruct (dispatch _ _ _ _ _ _ _ _) as [[x|ex] left]; cbn [snd] in Hleft; subst left.
    + left. eexists. cbn [returned context_after add_result results errors].
      split; [reflexivity|]. split; [apply Hblank|]. split; [reflexivity|now right].
    + right. eexists. cbn. now repeat split.
Qed.

(** *** The books the loop keeps *)

Record balanced (s : summary) : Prop := {
  bal_executed : rules_executed s = rules_passed s + rules_failed s;
  bal_results : Z.of_nat (length (rule_results s)) = rules_executed s;
  bal_passed : 0 <= rules_passed s;
  bal_failed : 0 <= rules_failed s;
  bal_overall : overall_result s = (rules_failed s =? 0)
}.

(** How far a state is from the one the loop started in. *)
Record advanced (n : nat) (st0 st : loop_state) : Prop := {
  adv_executed :
    rules_executed (ls_summary st) = rules_executed (ls_summary st0) + Z.of_nat n;
  adv_errors :
    Z.of_nat (length (errors (ls_context st)))
    <= Z.of_nat (length (errors (ls_context st0)))
       + (rules_failed (ls_summary st) - rules_failed (ls_summary st0));
  adv_total :
    (length (results (ls_context st)) + length (errors (ls_context st))
     <= length (results (ls_context st0)) + length (errors (ls_context st0)) + n)%nat;
  adv_names :
    bundle_id (ls_summary st) = bundle_id (ls_summary st0)
    /\ bundle_name (ls_summary st) = bundle_name (ls_summary st0)
}.

Lemma advanced_refl st : advanced 0 st st.
Proof. constructor; try lia; auto. Qed.

Lemma advanced_trans n m st0 st1 st2 :
  advanced n st0 st1 -> advanced m st1 st2 -> advanced (n + m) st0 st2.
Proof.
  intros [E1 R1 T1 [I1 N1]] [E2 R2 T2 [I2 N2]]. constructor; try lia.
  split; congruence.
Qed.

Lemma execute_one_mapping r st :
  EngineFacts.built_in r ->
  balanced (ls_summary st) ->
  exists st',
    execute_one (VDict r) st = Ok st'
    /\ balanced (ls_summary st') /\ advanced 1 st st'.
Proof.
  intros Hb [He Hr Hp Hf Ho]. unfold EngineBundle.execute_one. cbv zeta.
  destruct (execute_rule_cases (clock (ls_ticks st)) r (ls_engine st) (ls_context st) Hb)
    as [(x & -> & [v Hv] & Herr & Hres)|(x & -> & Hctx & _)].
  - rewrite Hv. eexists. split; [reflexivity|]. cbn [ls_summary ls_context].
    destruct (py_bool v); cbn [passed failed record]; split.
    + constructor; cbn; rewrite ?length_app; cbn [length];
        first [lia | assumption].
    + constructor; cbn; rewrite ?Herr;
        first [ lia | now split
              | destruct Hres as [-> | ->]; rewrite ?length_app; cbn [length]; lia ].
    + constructor; cbn; rewrite ?length_app; cbn [length];
        first [lia | symmetry; apply Z.eqb_neq; lia].
    + constructor; cbn; rewrite ?Herr;
        first [ lia | now split
              | destruct Hres as [-> | ->]; rewrite ?length_app; cbn [length]; lia ].
  - eexists. split; [reflexivity|]. unfold handle. cbn [ls_summary ls_context].
    rewrite Hctx. split.
    + constructor; cbn; rewrite ?length_app; cbn [length];
        first [lia | symmetry; apply Z.eqb_neq; lia].
    + constructor; cbn; rewrite ?length_app; cbn [length]; first [lia | now split].
Qed.

Lemma execute_all_mappings rs : forall st,
  Forall rule_accepted rs ->
  balanced (ls_summary st) ->
  exists st',
    execute_all rs st = (Ok st', st')
    /\ balanced (ls_summary st') /\ advanced (length rs) st st'.
Proof.
  induction rs as [|rule rs IH]; intros st Hrs Hbal.
  - exists st. split; [reflexivity|]. split; [exact Hbal|apply advanced_refl].
  - inversion Hrs as [|? ? (r & -> & _ & Hty) Hrest]; subst.
    destruct (execute_one_mapping r st Hty Hbal) as (st1 & H1 & Hbal1 & Hadv1).
    destruct (IH st1 Hrest Hbal1) as (st2 & H2 & Hbal2 & Hadv2).
    exists st2. cbn [EngineBundle.execute_all]. rewrite H1, H2.
    split; [reflexivity|]. split; [exact Hbal2|].
    exact (advanced_trans 1 (length rs) _ _ _ Hadv1 Hadv2).
Qed.

(** On a constructed bundle [execute_bundle] never raises: a rule that
    fails is counted and recorded, not propagated.  The summary carries
    the id and the name of the bundle, one result per rule, as many rules
    executed as the bundle has, each of them either passed or failed, and
    an overall result that is true exactly when no rule failed.  The
    context gains at most one error per failed rule and, results and
    errors together, at most one entry per rule. *)
Theorem execute_bundle_accounts v b e context ticks :
  Bundle.new v = Ok b ->
  exists s st m rs,
    execute_bundle b e context ticks = (Ok s, st)
    /\ Bundle.metadata b = Ok (VDict m)
    /\ (rv ← Bundle.rules b; py_iter rv) = Ok rs
    /\ dict_get "id" m = Some (bundle_id s)
    /\ dict_get "name" m = Some (bundle_name s)
    /\ rules_executed s = Z.of_nat (length rs)
    /\ length (rule_results s) = length rs
    /\ rules_passed s + rules_failed s = rules_executed s
    /\ 0 <= rules_passed s /\ 0 <= rules_failed s
    /\ overall_result s = (rules_failed s =? 0)
    /\ Z.of_nat (length (errors (ls_context st)))
       <= Z.of_nat (length (errors context)) + rules_failed s
    /\ (length (results (ls_context st)) + length (errors (ls_context st))
        <= length (results context) + length (errors context) + length rs)%nat.
Proof.
  intros H. unfold Bundle.new in H.
  destruct (Bundle._validate v) as [[]|x] eqn:Hv; [|discriminate]. injection H as <-.
  apply _validate_inv in Hv
    as (d & m & rs & ds & -> & _ & _ & Hmd & Hmeta & _ & (rv & Hrv & Hrs) & Hrules & _).
  unfold has_all in Hmeta. rewrite Forall_forall in Hmeta.
  destruct (Hmeta "id") as [bid Hid]; [in_list|].
  destruct (Hmeta "name") as [bname Hname]; [in_list|].
  unfold EngineBundle.execute_bundle, Bundle.metadata, Bundle.rules.
  cbn [Bundle._data py_getitem]. rewrite Hmd, Hrv. cbn [mbind res_bind py_getitem].
  rewrite Hid, Hname. cbn [mbind res_bind]. rewrite Hrs. cbn [mbind res_bind].
  set (s0 := Summary bid bname _ _ 0 0 0 [] true).
  set (st0 := LoopState s0 e context ticks).
  assert (Hbal0 : balanced (ls_summary st0)) by (constructor; cbn; lia || reflexivity).
  destruct (execute_all_mappings rs st0 Hrules Hbal0)
    as (st & -> & [He Hr Hp Hf Ho] & [Hn Herr Htot [Hi Hnm]]).
  cbn in Hn, Herr, Htot, Hi, Hnm.
  exists (ls_summary st), st, m, rs. rewrite Hi, Hnm.
  repeat split; try assumption; try lia.
Qed.

(** *** Handlers and the built-in rule types *)

Definition builtin_types : list string :=
  ["dsl"; "expression"; "decision_table"; "decision_tree"].

Lemma dispatch_builtin now rule rule_id ty e e' context :
  ty ∈ builtin_types ->
  dispatch _execute_dsl_rule _execute_expression_rule now rule rule_id (VStr ty) e context
  = dispatch _execute_dsl_rule _execute_expression_rule now rule rule_id (VStr ty) e' context.
Proof.
  intros H. unfold builtin_types in H.
  repeat (apply elem_of_cons in H as [->|H]; [reflexivity|]).
  now apply elem_of_nil in H.
Qed.

Lemma dispatch_custom now rule rule_id ty e context :
  ty ∉ builtin_types ->
  dispatch _execute_dsl_rule _execute_expression_rule now rule rule_id (VStr ty) e context
  = match custom_handlers e !! ty with
    | Some h => h rule context
    | None => (Raise (RuleExecutionException ("Unsupported rule type: " +:+ ty)
                        (rule_id_text rule_id)),
               context)
    end.
Proof.
  intros H. unfold dispatch, is_op. cbn [py_eq as_num find_handler].
  assert (Hne : forall s, s ∈ builtin_types -> String.eqb ty s = false).
  { intros s Hs. apply String.eqb_neq. intros ->. contradiction. }
  rewrite !Hne by (apply list_elem_of_In; simpl; tauto).
  reflexivity.
Qed.

(** The four built-in rule types always run the built-in executors:
    whatever handlers are registered, under their names or others, the
    outcome of [execute_rule] on such a rule is the same.  For a rule of
    any other type that is not in the cache the registered handler
    decides, and without one the call raises. *)
Theorem handlers_serve_other_types_only now rule e context ty :
  dict_get "type" rule = Some (VStr ty) ->
  (ty ∈ builtin_types ->
   forall handlers,
     let e' := Engine handlers (cache e) in
     returned (execute_rule now rule e' context) = returned (execute_rule now rule e context)
     /\ context_after (execute_rule now rule e' context)
        = context_after (execute_rule now rule e context)
     /\ cache (engine_after (execute_rule now rule e' context))
        = cache (engine_after (execute_rule now rule e context)))
  /\ (ty ∉ builtin_types ->
      cache e !! _get_cache_key rule context = None ->
      returned (execute_rule now rule e context)
      = match custom_handlers e !! ty with
        | Some h =>
            match fst (h rule context) with
            | Ok x => Ok (dict_update (EngineFacts.blank now rule) x)
            | Raise x =>
                Raise (RuleExecutionException ("Rule execution failed: " +:+ exn_str x)
                         (rule_id_text (dict_get_default "id" (VStr "unknown") rule)))
            end
        | None =>
            Raise (RuleExecutionException
                     ("Rule execution failed: "
                      +:+ exn_str (RuleExecutionException
                                     ("Unsupported rule type: " +:+ ty)
                                     (rule_id_text
                                        (dict_get_default "id" (VStr "unknown") rule))))
                     (rule_id_text (dict_get_default "id" (VStr "unknown") rule)))
        end).
Proof.
  intros Hty.
  assert (Htype : dict_get_default "type" (VStr "unknown") rule = VStr ty).
  { unfold dict_get_default. now rewrite Hty. }
  split.
  - intros Hb handlers e'. subst e'. unfold Engine.execute_rule. cbv zeta.
    cbn [cache custom_handlers]. rewrite Htype.
    destruct (cache e !! _get_cache_key rule context) as [cached|]; [now repeat split|].
    rewrite (dispatch_builtin now rule _ ty (Engine handlers (cache e)) e context Hb).
    destruct (dispatch _ _ _ _ _ _ _ _) as [[x|x] left]; now repeat split.
  - intros Hb Hmiss. unfold Engine.execute_rule. cbv zeta. rewrite Hmiss, Htype.
    rewrite (dispatch_custom now rule _ ty e context Hb).
    unfold EngineFacts.blank. rewrite Htype.
    destruct (custom_handlers e !! ty) as [h|]; [|reflexivity].
    destruct (h rule context) as [[x|x] left]; reflexivity.
Qed.

End Executors.

(** *** Examples *)

Definition never_called (now : datetime.t) (rule : dict) (context : ExecutionContext)
  : res dict :=
  Raise (PyExn ValueError "not called").

Definition at_noon (n : nat) : datetime.t := datetime.DateTime 2024 1 15 12 0 0 0 (Some 0).

Definition table_rule : dict :=
  [("id", VStr "r1"); ("name", VStr "adult"); ("type", VStr "decision_table");
   ("definition",
    VDict [("table",
            VDict [("conditions",
                    VList [VDict [("field", VStr "user.age"); ("operator", VStr ">=");
                                  ("value", VInt 18)]])])])].

Definition table_document : value :=
  VDict [("version", VStr "1.0");
         ("metadata",
          VDict [("id", VStr "b1"); ("name", VStr "kyc"); ("description", VStr "");
                 ("created", VStr "2024-01-15"); ("jurisdiction", VStr "EU");
                 ("domain", VStr "finance")]);
         ("rules", VList [VDict table_rule]);
         ("decisions", VList [])].

Definition applicant_context : ExecutionContext :=
  new_context "e1" (at_noon 0) [("user", VDict [("age", VInt 20)])] None.

Lemma execute_bundle_accounts_witness :
  exists s st,
    EngineBundle.execute_bundle never_called never_called at_noon
      (Bundle.MkBundle table_document) Engine.init applicant_context 0 = (Ok s, st)
    /\ rules_executed s = 1
    /\ rules_passed s + rules_failed s = 1.
Proof.
  destruct (execute_bundle_accounts never_called never_called at_noon table_document
              (Bundle.MkBundle table_document) Engine.init applicant_context 0 eq_refl)
    as (s & st & m & rs & H & _ & Hrs & _ & _ & Hn & _ & Hsum & _).
  injection Hrs as <-. exists s, st. split; [exact H|]. split; [exact Hn|].
  rewrite Hsum. exact Hn.
Defined.

Definition scoring (rule : dict) (context : ExecutionContext)
  : res dict * ExecutionContext :=
  (Ok [("result", VBool true); ("reason", VStr "scored")], context).

Lemma handlers_serve_other_types_only_witness :
  returned (Engine.execute_rule never_called never_called (at_noon 0) table_rule
              (register_handler "decision_table" scoring Engine.init) applicant_context)
  = returned (Engine.execute_rule never_called never_called (at_noon 0) table_rule
                Engine.init applicant_context).
Proof.
  destruct (handlers_serve_other_types_only never_called never_called (at_noon 0)
              table_rule Engine.init applicant_context "decision_table" eq_refl)
    as [H _].
  apply (H ltac:(apply list_elem_of_In; simpl; tauto)
           (<["decision_table" := scoring]> ∅)).
Defined.

End EngineBundleFacts.

(** ** The execution context and the comparison operators *)

Module ContextFacts.
Import Py PyValue Engine.

Lemma dict_get_update k other : forall d,
  NoDup (map fst other) ->
  dict_get k (dict_update d other)
  = match dict_get k other with Some v => Some v | None => dict_get k d end.
Proof.
  unfold dict_update. induction other as [|[k' v] other IH]; intros d Hnd; [reflexivity|].
  cbn [map fst] in Hnd. apply NoDup_cons in Hnd as [Hk' Hnd].
  cbn [fold_left fst snd dict_get]. rewrite (IH _ Hnd), EngineFacts.dict_get_set.
  destruct (String.eqb_spec k k') as [->|Hne]; [|reflexivity].
  assert (Hnone : dict_get k' other = None).
  { clear -Hk'. induction other as [|[k v] other IH]; [reflexivity|].
    cbn [dict_get]. destruct (String.eqb_spec k' k) as [->|Hne].
    - exfalso. apply Hk'. cbn. now left.
    - apply IH. intros H. apply Hk'. cbn. now right. }
  now rewrite Hnone.
Qed.

(** What a rule sees of a context: the [_execution] record under its key,
    whatever the data or the variables hold there; under any other key the
    variable of that name when there is one, the datum otherwise. *)
Theorem context_data_precedence c k :
  NoDup (map fst (variables c)) ->
  dict_get k (get_context_data c)
  = if String.eqb k "_execution" then
      Some (VDict [("id", VStr (execution_id c));
                   ("timestamp", VStr (datetime.isoformat (timestamp c)))])
    else match dict_get k (variables c) with
         | Some v => Some v
         | None => dict_get k (data c)
         end.
Proof.
  intros Hnd. unfold get_context_data. rewrite EngineFacts.dict_get_set.
  destruct (String.eqb k "_execution"); [reflexivity|].
  now apply dict_get_update.
Qed.

Definition shadowing : ExecutionContext :=
  Context [("limit", VInt 10); ("_execution", VStr "mine")] [("limit", VInt 99)]
          "e1" (datetime.DateTime 2024 1 15 12 0 0 0 (Some 0)) [] [] [].

Lemma context_data_precedence_witness :
  dict_get "limit" (get_context_data shadowing) = Some (VInt 99)
  /\ dict_get "_execution" (get_context_data shadowing)
     = Some (VDict [("id", VStr "e1"); ("timestamp", VStr "2024-01-15T12:00:00+00:00")]).
Proof.
  split.
  - rewrite (context_data_precedence shadowing "limit"); [reflexivity|].
    repeat constructor. intros H. inversion H.
  - rewrite (context_data_precedence shadowing "_execution"); [reflexivity|].
    repeat constructor. intros H. inversion H.
Defined.

End ContextFacts.

Module OperatorFacts.
Import Py PyValue DSL.

(** An ordering comparison raises nothing but [TypeError]. *)
Lemma py_cmp_error op : forall a b e,
  py_cmp op a b = Raise e -> exists msg, e = PyExn TypeError msg.
Proof.
  fix IH 1. intros a b e.
  destruct a as [|x|z|f|s|l|d]; destruct b as [|y|z'|f'|s'|l'|d']; cbn;
    try discriminate; try (intros [= <-]; unfold not_supported; eauto).
  revert l'. induction l as [|x l IHl]; intros [|y l']; try discriminate.
  destruct (py_eq x y); [apply IHl|apply IH].
Qed.

(** Every operator but [LIKE] answers a truth value whatever the two
    operands are: an ordering operator answers what Python's comparison
    answers and false when Python cannot make the comparison, and an
    operator that is not known answers false. *)
Theorem comparison_never_raises re_match lhs operator rhs :
  operator <> "LIKE" ->
  (exists b, _apply_operator re_match lhs operator rhs = Ok b)
  /\ (forall op,
        (operator, op) ∈ [(">", OpGt); (">=", OpGe); ("<", OpLt); ("<=", OpLe)] ->
        _apply_operator re_match lhs operator rhs
        = Ok match py_cmp op lhs rhs with Ok b => b | Raise _ => false end)
  /\ (operator ∉ ["="; "!="; ">"; ">="; "<"; "<="] ->
      _apply_operator re_match lhs operator rhs = Ok false).
Proof.
  intros Hop.
  assert (Hcmp : forall op,
            catch_type_value (py_cmp op lhs rhs) false
            = Ok match py_cmp op lhs rhs with Ok b => b | Raise _ => false end).
  { intros op. destruct (py_cmp op lhs rhs) as [b|e] eqn:E; [reflexivity|].
    apply py_cmp_error in E as [msg ->]. reflexivity. }
  split; [|split].
  - unfold _apply_operator.
    repeat match goal with
           | |- context [if String.eqb operator ?s then _ else _] =>
               destruct (String.eqb_spec operator s)
           end;
      try (cbn; eauto; fail); try (rewrite Hcmp; eauto).
    contradiction.
  - intros op Hin. unfold _apply_operator.
    repeat (apply elem_of_cons in Hin as [[= -> ->]|Hin]; [apply Hcmp|]).
    now apply elem_of_nil in Hin.
  - intros Hno. unfold _apply_operator.
    assert (Hne : forall s, s ∈ ["="; "!="; ">"; ">="; "<"; "<="] ->
                            String.eqb operator s = false).
    { intros s Hs. apply String.eqb_neq. intros ->. contradiction. }
    rewrite !Hne by (apply list_elem_of_In; simpl; tauto).
    apply String.eqb_neq in Hop. rewrite Hop. reflexivity.
Qed.

Definition no_match (pattern s : string) : res bool := Ok false.

Lemma comparison_never_raises_witness :
  _apply_operator no_match (VStr "abc") "<" (VInt 3) = Ok false.
Proof.
  destruct (comparison_never_raises no_match (VStr "abc") "<" (VInt 3)) as [[b H] _];
    [discriminate|].
  rewrite H. vm_compute in H. injection H as <-. reflexivity.
Defined.

End OperatorFacts.
(* ===================================================================== *)
(** ** The parser: what it returns and what it raises                     *)
(* ===================================================================== *)

Module ParserFacts.
Import Py PyValue Tokenizer DSL Parser.

(** *** The bind of parser results *)

Lemma bind_parsed {A B} (m : presult A) (f : A -> presult B) b :
  m ≫= f = Parsed b -> exists a, m = Parsed a /\ f a = Parsed b.
Proof. destruct m as [a| |]; cbn; [eauto | discriminate..]. Qed.

Lemma bind_failed {A B} (m : presult A) (f : A -> presult B) e :
  m ≫= f = Failed e -> m = Failed e \/ exists a, m = Parsed a /\ f a = Failed e.
Proof. destruct m as [a| |]; cbn; [eauto | intros [= ->]; eauto | discriminate]. Qed.

(** *** Recursion that does not move *)

Lemma boolean_expression_stuck tokens depth i :
  value_in tokens ["TRUE"; "FALSE"] i = false ->
  type_is tokens TIdentifier i = false ->
  value_in tokens ["NOT"] i = false ->
  _parse_boolean_expression tokens depth i = TooDeep.
Proof.
  intros Hlit Hid Hnot. induction depth as [|depth IH]; [reflexivity|].
  cbn [_parse_boolean_expression]. rewrite Hlit, Hid, Hnot, IH. reflexivity.
Qed.

(** *** Shapes the parser builds *)

Fixpoint plain_condition (c : condition) : bool :=
  match c with
  | NotCondition c => plain_condition c
  | CompoundCondition _ _ _ | OtherCondition _ => false
  | _ => true
  end.

Fixpoint plain_expression (e : bexpr) : bool :=
  match e with
  | NotExpression e => plain_expression e
  | BooleanExpression _ _ _ => false
  | _ => true
  end.

Definition plain_consequence (k : consequence) : bool :=
  match k with
  | Expression e => plain_expression e
  | OtherConsequence _ => false
  | _ => true
  end.

Ltac split_bind H :=
  let a := fresh "a" in let i := fresh "i" in let H1 := fresh "H" in
  apply bind_parsed in H as ([a i] & H1 & H).

Lemma _parse_condition_plain tokens depth i c j :
  _parse_condition tokens depth i = Parsed (c, j) -> plain_condition c = true.
Proof.
  revert i c j. induction depth as [|depth IH]; intros i c j; [discriminate|].
  cbn [_parse_condition]. unfold _parse_compound_condition.
  destruct (value_in tokens ["NOT"] i) eqn:Hnot.
  { intros H. split_bind H. injection H as <- <-. cbn. eauto. }
  destruct (value_in tokens ["("] i) eqn:Hpar.
  { intros H. split_bind H. split_bind H. injection H as <- <-. eauto. }
  destruct (_is_temporal_condition tokens i).
  { unfold _parse_temporal_condition. intros H.
    do 4 split_bind H. injection H as <- <-. reflexivity. }
  intros H. split_bind H.
  destruct (type_is tokens TOperator i0).
  { unfold _parse_simple_condition in H. do 2 split_bind H. injection H as <- <-. reflexivity. }
  destruct (value_in tokens ["IN"] i0).
  { unfold _parse_list_condition in H. do 2 split_bind H. injection H as <- <-. reflexivity. }
  destruct (value_in tokens _ i0).
  { unfold _parse_pattern_condition in H. do 2 split_bind H. injection H as <- <-. reflexivity. }
  injection H as <- <-. reflexivity.
Qed.

Lemma _parse_boolean_expression_plain tokens depth i e j :
  _parse_boolean_expression tokens depth i = Parsed (e, j) -> plain_expression e = true.
Proof.
  revert i e j. induction depth as [|depth IH]; intros i e j; [discriminate|].
  cbn [_parse_boolean_expression].
  destruct (value_in tokens ["TRUE"; "FALSE"] i) eqn:Hlit.
  { intros H. split_bind H. injection H as <- <-. reflexivity. }
  destruct (type_is tokens TIdentifier i) eqn:Hid.
  { intros H. split_bind H. injection H as <- <-. reflexivity. }
  destruct (value_in tokens ["NOT"] i) eqn:Hnot.
  { intros H. split_bind H. injection H as <- <-. cbn. eauto. }
  rewrite boolean_expression_stuck by assumption. discriminate.
Qed.

Lemma _parse_consequence_plain tokens depth i k j :
  _parse_consequence tokens depth i = Parsed (k, j) -> plain_consequence k = true.
Proof.
  unfold _parse_consequence.
  destruct (value_in tokens _ i).
  { unfold _parse_requirement. intros H. do 2 split_bind H. injection H as <- <-. reflexivity. }
  destruct (_is_constraint tokens i).
  { unfold _parse_constraint. intros H. split_bind H.
    destruct (value_in tokens ["IN"] i0).
    { destruct (value_in tokens ["NOT"] _);
        split_bind H; injection H as <- <-; reflexivity. }
    destruct (value_in tokens ["BETWEEN"] i0).
    { do 3 split_bind H. injection H as <- <-. reflexivity. }
    do 2 split_bind H. injection H as <- <-. reflexivity. }
  intros H. split_bind H. injection H as <- <-.
  cbn. eapply _parse_boolean_expression_plain; eassumption.
Qed.

(** A token has one value: [DO] is not [THEN]. *)
Lemma do_is_not_then tokens i :
  value_in tokens ["DO"] i = true -> value_in tokens ["THEN"] i = false.
Proof.
  unfold value_in. destruct (current_token tokens i) as [t|]; [|discriminate].
  unfold mem. cbn [existsb]. rewrite !orb_false_r.
  intros H%String.eqb_eq. rewrite H. reflexivity.
Qed.

Lemma _parse_rule_plain tokens depth i a j :
  _parse_rule tokens depth i = Parsed (a, j) ->
  exists c k, a = Rule c (Some k) None
              /\ plain_condition c = true /\ plain_consequence k = true.
Proof.
  unfold _parse_rule. intros H. split_bind H.
  unfold _parse_condition_clause in H0.
  destruct (value_in tokens ["WHEN"; "IF"] i); [|discriminate].
  apply _parse_condition_plain in H0.
  destruct (type_is tokens TKeyword i0 && value_in tokens ["THEN"; "MUST"; "SHOULD"] i0).
  { split_bind H. injection H as <- <-.
    unfold _parse_consequence_clause in H1.
    destruct (value_in tokens ["THEN"] i0); [|discriminate].
    apply _parse_consequence_plain in H1. eauto. }
  destruct (type_is tokens TKeyword i0 && value_in tokens ["DO"] i0) eqn:Hdo; [|discriminate].
  apply andb_true_iff in Hdo as [_ Hdo]. apply do_is_not_then in Hdo.
  unfold _parse_action_clause in H. rewrite Hdo in H. discriminate.
Qed.

(** *** The loops run as long as the source's *)

Lemma current_token_lt tokens i t : current_token tokens i = Some t -> (i < length tokens)%nat.
Proof. unfold current_token. apply lookup_lt_Some. Qed.

Lemma variable_loop_rounds tokens extra rounds parts i :
  (length tokens - i <= rounds)%nat ->
  variable_loop tokens (rounds + extra) parts i = variable_loop tokens rounds parts i.
Proof.
  revert parts i. induction rounds as [|rounds IH]; intros parts i Hle.
  - destruct extra as [|extra]; [reflexivity|]. cbn [Nat.add variable_loop].
    destruct (current_token tokens i) as [t|] eqn:Ht; [|reflexivity].
    apply current_token_lt in Ht. lia.
  - cbn [Nat.add variable_loop].
    destruct (current_token tokens i) as [t|] eqn:Ht; [|reflexivity].
    apply current_token_lt in Ht.
    destruct (type_eqb _ _); [|reflexivity].
    destruct (value_in _ _ _); [|reflexivity].
    apply IH. unfold _advance. lia.
Qed.

Lemma variable_loop_moves tokens rounds parts i parts' j :
  variable_loop tokens rounds parts i = (parts', j) ->
  (i <= j)%nat /\ (parts' = parts /\ j = i \/ parts' <> [] /\ (i < j)%nat).
Proof.
  revert parts i. induction rounds as [|rounds IH]; intros parts i.
  - intros [= <- <-]. split; [lia|]. left. split; reflexivity.
  - cbn [variable_loop].
    destruct (current_token tokens i) as [t|];
      [|intros [= <- <-]; split; [lia|left; split; reflexivity]].
    destruct (type_eqb _ _);
      [|intros [= <- <-]; split; [lia|left; split; reflexivity]].
    destruct (value_in _ _ _).
    + intros H. apply IH in H as [Hle [[-> ->]|[Hne Hlt]]]; unfold _advance in *.
      * split; [lia|]. right. split; [|lia]. now destruct parts.
      * split; [lia|]. right. split; [assumption|lia].
    + intros [= <- <-]. unfold _advance. split; [lia|]. right.
      split; [|lia]. now destruct parts.
Qed.

Lemma _parse_variable_moves tokens i v j :
  _parse_variable tokens i = Parsed (v, j) -> (i < j)%nat.
Proof.
  unfold _parse_variable.
  destruct (variable_loop tokens (length tokens - i) [] i) as [parts k] eqn:Hloop.
  apply variable_loop_moves in Hloop as [_ [[-> ->]|[Hne Hlt]]]; [discriminate|].
  destruct parts; [congruence|]. intros [= _ <-]. assumption.
Qed.

Lemma _expect_moves tokens ty v i t j :
  _expect tokens ty v i = Parsed (t, j) -> j = S i.
Proof.
  unfold _expect. destruct (current_token tokens i); [|discriminate].
  destruct (negb _); [discriminate|].
  destruct v; [destruct (negb _); [discriminate|]|]; now intros [= _ <-].
Qed.

Lemma _parse_value_moves tokens i v j :
  _parse_value tokens i = Parsed (v, j) -> (i < j)%nat.
Proof.
  unfold _parse_value. destruct (current_token tokens i) as [t|]; [|discriminate].
  destruct (type_eqb _ TString); [intros [= _ <-]; unfold _advance; lia|].
  destruct (type_eqb _ TNumber).
  { intros H. apply bind_parsed in H as (n & _ & [= _ <-]). unfold _advance. lia. }
  destruct (mem _ _).
  { intros H. split_bind H. injection H as _ <-. apply _expect_moves in H0. lia. }
  destruct (type_eqb _ TIdentifier); [|discriminate].
  destruct (_looks_like_datetime _); [intros [= _ <-]; unfold _advance; lia|].
  apply _parse_variable_moves.
Qed.

Lemma list_loop_rounds tokens extra rounds values i :
  (length tokens - i <= rounds)%nat ->
  list_loop tokens (rounds + extra) values i = list_loop tokens rounds values i.
Proof.
  revert values i. induction rounds as [|rounds IH]; intros values i Hle.
  - destruct extra as [|extra]; [reflexivity|]. cbn [Nat.add list_loop].
    destruct (current_token tokens i) as [t|] eqn:Ht; [|reflexivity].
    apply current_token_lt in Ht. lia.
  - cbn [Nat.add list_loop].
    destruct (current_token tokens i) as [t|] eqn:Ht; [|reflexivity].
    destruct (negb _); [|reflexivity].
    destruct (_parse_value tokens i) as [[v j]| |] eqn:Hv; [|reflexivity..].
    apply _parse_value_moves in Hv. cbn.
    apply IH. unfold _advance. destruct (value_in _ _ _); lia.
Qed.

(** *** The exceptions that leave the parser *)

(** The parser's own exception, or the [ValueError] of [int] and
    [float]. *)
Definition parser_or_value_error (e : exn) : Prop :=
  (exists message line column, e = DSLParserException message line column)
  \/ (exists message, e = PyExn ValueError message).

Lemma error_is_parser_error {A} message e :
  @error A message = Failed e -> parser_or_value_error e.
Proof. intros [= <-]. left. eauto. Qed.

Lemma py_int_raises s e : py_int s = Raise e -> parser_or_value_error e.
Proof.
  unfold py_int. destruct (negb _ && _).
  - destruct (Nat.ltb _ _); [|discriminate]. intros [= <-]. right. eauto.
  - intros [= <-]. right. eauto.
Qed.

Lemma py_float_raises s e : py_float s = Raise e -> parser_or_value_error e.
Proof.
  unfold py_float.
  destruct (split_at _ s) as [mantissa exponent].
  destruct (split_at _ mantissa) as [whole fraction].
  match goal with |- context [match ?x with Some _ => _ | None => _ end = _] =>
    destruct x as [ex|] end.
  - destruct (_ && _ && _); [destruct (_ =? 0); discriminate|].
    intros [= <-]. right. eauto.
  - intros [= <-]. right. eauto.
Qed.

Lemma _expect_raises tokens ty v i e :
  _expect tokens ty v i = Failed e -> parser_or_value_error e.
Proof.
  unfold _expect. destruct (current_token tokens i); [|apply error_is_parser_error].
  destruct (negb _); [apply error_is_parser_error|].
  destruct v; [destruct (negb _); [apply error_is_parser_error|]|]; discriminate.
Qed.

Lemma _parse_variable_raises tokens i e :
  _parse_variable tokens i = Failed e -> parser_or_value_error e.
Proof.
  unfold _parse_variable. destruct (variable_loop _ _ _ _) as [[|p parts] j].
  - apply error_is_parser_error.
  - discriminate.
Qed.

Lemma _parse_value_raises tokens i e :
  _parse_value tokens i = Failed e -> parser_or_value_error e.
Proof.
  unfold _parse_value.
  destruct (current_token tokens i) as [t|]; [|apply error_is_parser_error].
  destruct (type_eqb _ TString); [discriminate|].
  destruct (type_eqb _ TNumber).
  { destruct (str_contains _ _).
    - destruct (py_float _) eqn:H; [discriminate|]. intros [= <-].
      eapply py_float_raises; eassumption.
    - destruct (py_int _) eqn:H; [discriminate|]. intros [= <-].
      eapply py_int_raises; eassumption. }
  destruct (mem _ _).
  { intros [H|([t' j] & _ & H)]%bind_failed; [|discriminate].
    eapply _expect_raises; eassumption. }
  destruct (type_eqb _ TIdentifier); [|apply error_is_parser_error].
  destruct (_looks_like_datetime _); [discriminate|].
  apply _parse_variable_raises.
Qed.

Lemma list_loop_raises tokens rounds values i e :
  list_loop tokens rounds values i = Failed e -> parser_or_value_error e.
Proof.
  revert values i. induction rounds as [|rounds IH]; intros values i; [discriminate|].
  cbn [list_loop]. destruct (current_token tokens i); [|discriminate].
  destruct (negb _); [|discriminate].
  intros [H|([v j] & _ & H)]%bind_failed.
  - eapply _parse_value_raises; eassumption.
  - eapply IH; eassumption.
Qed.

(** One step of a sequence of calls: the call raised, or the rest did. *)
Ltac raised H :=
  first
    [ discriminate H
    | apply error_is_parser_error in H; exact H
    | apply _expect_raises in H; exact H
    | apply _parse_variable_raises in H; exact H
    | apply _parse_value_raises in H; exact H
    | apply list_loop_raises in H; exact H ].

Ltac through H :=
  let H1 := fresh "H" in let a := fresh "a" in let i := fresh "i" in
  apply bind_failed in H as [H|([a i] & H1 & H)]; [raised H|].

Lemma _parse_list_raises tokens i e :
  _parse_list tokens i = Failed e -> parser_or_value_error e.
Proof.
  unfold _parse_list. intros H. do 3 through H. raised H.
Qed.

Lemma _parse_condition_raises tokens depth i e :
  _parse_condition tokens depth i = Failed e -> parser_or_value_error e.
Proof.
  revert i. induction depth as [|depth IH]; intros i; [discriminate|].
  cbn [_parse_condition]. unfold _parse_compound_condition.
  destruct (value_in tokens ["NOT"] i).
  { intros [H|([c j] & _ & H)]%bind_failed; [eauto|discriminate]. }
  destruct (value_in tokens ["("] i).
  { intros [H|([c j] & _ & H)]%bind_failed; [eauto|]. through H. raised H. }
  destruct (_is_temporal_condition tokens i).
  { unfold _parse_temporal_condition. intros H. do 2 through H.
    apply bind_failed in H as [H|([t j] & _ & H)].
    - destruct (String.eqb _ _); raised H.
    - through H. raised H. }
  intros H. through H.
  destruct (type_is tokens TOperator i0).
  { unfold _parse_simple_condition in H. do 2 through H. raised H. }
  destruct (value_in tokens ["IN"] i0).
  { unfold _parse_list_condition in H. through H.
    apply bind_failed in H as [H|([vs j] & _ & H)]; [|discriminate].
    eapply _parse_list_raises; eassumption. }
  destruct (value_in tokens _ i0).
  { unfold _parse_pattern_condition in H. do 2 through H. raised H. }
  discriminate.
Qed.

Lemma _parse_boolean_expression_raises tokens depth i e :
  _parse_boolean_expression tokens depth i = Failed e -> parser_or_value_error e.
Proof.
  revert i. induction depth as [|depth IH]; intros i; [discriminate|].
  cbn [_parse_boolean_expression].
  destruct (value_in tokens ["TRUE"; "FALSE"] i) eqn:Hlit.
  { intros H. through H. raised H. }
  destruct (type_is tokens TIdentifier i) eqn:Hid.
  { intros H. through H. raised H. }
  destruct (value_in tokens ["NOT"] i) eqn:Hnot.
  { intros [H|([c j] & _ & H)]%bind_failed; [eauto|discriminate]. }
  rewrite boolean_expression_stuck by assumption. discriminate.
Qed.

Lemma _parse_consequence_raises tokens depth i e :
  _parse_consequence tokens depth i = Failed e -> parser_or_value_error e.
Proof.
  unfold _parse_consequence.
  destruct (value_in tokens _ i).
  { unfold _parse_requirement. intros H. do 2 through H. raised H. }
  destruct (_is_constraint tokens i).
  { unfold _parse_constraint. intros H. through H.
    destruct (value_in tokens ["IN"] i0).
    { destruct (value_in tokens ["NOT"] _);
        (apply bind_failed in H as [H|([vs j] & _ & H)]; [|discriminate]);
        eapply _parse_list_raises; eassumption. }
    destruct (value_in tokens ["BETWEEN"] i0).
    { do 3 through H. raised H. }
    do 2 through H. raised H. }
  intros [H|([c j] & _ & H)]%bind_failed; [|discriminate].
  eapply _parse_boolean_expression_raises; eassumption.
Qed.

Lemma _parse_rule_raises tokens depth i e :
  _parse_rule tokens depth i = Failed e -> parser_or_value_error e.
Proof.
  unfold _parse_rule. intros [H|([c j] & _ & H)]%bind_failed.
  { unfold _parse_condition_clause in H.
    destruct (value_in tokens _ i); [|raised H].
    eapply _parse_condition_raises; eassumption. }
  destruct (_ && _).
  { apply bind_failed in H as [H|([k j'] & _ & H)]; [|discriminate].
    unfold _parse_consequence_clause in H.
    destruct (value_in tokens ["THEN"] j); [|raised H].
    eapply _parse_consequence_raises; eassumption. }
  destruct (_ && _); [|raised H].
  apply bind_failed in H as [H|([k j'] & _ & H)]; [|discriminate].
  unfold _parse_action_clause in H.
  destruct (value_in tokens ["THEN"] j); [|raised H].
  through H. unfold _parse_action in H. do 2 through H. raised H.
Qed.

(** The tokenizer raises its own exception only. *)
Lemma tokenize_loop_raises fuel text pos tokens e :
  tokenize_loop fuel text pos tokens = Some (Raise e) ->
  exists message line column, e = DSLParserException message line column.
Proof.
  revert pos tokens. induction fuel as [|fuel IH]; intros pos tokens.
  - cbn [tokenize_loop]. destruct (String.get pos text); discriminate.
  - cbn [tokenize_loop]. destruct (String.get pos text) as [c|] eqn:Hget; [|discriminate].
    destruct (isspace c); [apply IH|].
    destruct (isdigit c); [apply IH|].
    destruct (is_one_of _ c).
    { destruct (_parse_string text pos) as [t|e'] eqn:Hs; [apply IH|].
      intros [= ->]. unfold _parse_string in Hs. rewrite Hget in Hs.
      destruct (Nat.leb _ _); [|discriminate]. injection Hs as <-. eauto. }
    destruct (isalpha c || Ascii.eqb c "_"); [apply IH|].
    destruct (is_one_of _ c).
    { destruct (_parse_operator text pos) as [t|e'] eqn:Ho; [apply IH|].
      intros [= ->]. unfold _parse_operator in Ho.
      destruct (_ && _); [discriminate|]. rewrite Hget in Ho.
      destruct (mem _ _); [discriminate|]. injection Ho as <-. eauto. }
    destruct (is_one_of _ c); [apply IH|].
    intros [= <-]. eauto.
Qed.

(** *** [parse] *)

Lemma parse_inv depth text r :
  parse depth text = Some r ->
  r = error "Empty DSL rule"
  \/ (exists e, _tokenize (strip text) = Some (Raise e) /\ r = Failed e)
  \/ exists tokens,
       _tokenize (strip text) = Some (Ok tokens)
       /\ match _parse_rule tokens depth 0 with
          | Parsed (a, i) =>
              match current_token tokens i with
              | Some t => r = error ("Unexpected token: " +:+ tok_value t)
              | None => r = Parsed a
              end
          | Failed e => r = Failed e
          | TooDeep => r = TooDeep
          end.
Proof.
  unfold parse. destruct (String.eqb (strip text) ""); [intros [= <-]; now left|].
  destruct (_tokenize (strip text)) as [[tokens|e]|]; [|intros [= <-]; eauto|discriminate].
  intros [= <-]. right. right. exists tokens. split; [reflexivity|].
  destruct (_parse_rule tokens depth 0) as [[a i]|e|] eqn:Hrule; cbn.
  - destruct (current_token tokens i); reflexivity.
  - apply _parse_rule_raises in Hrule as [(m & l & c & ->)|(m & ->)]; reflexivity.
  - reflexivity.
Qed.

(** The bound of the tokenizer's loop is never what [parse] answers. *)
Lemma parse_is_defined depth text : exists r, parse depth text = Some r.
Proof.
  unfold parse. destruct (String.eqb (strip text) ""); [eauto|].
  destruct (TokenizerTotal.tokenize_loop_total
              (String.length (strip text)) (strip text) 0 []) as [r Hr]; [lia|].
  unfold _tokenize. rewrite Hr. destruct r; eauto.
Qed.

(** A rule that [parse] returns has a consequence and no action;
    its condition is a single test under any number of [NOT]s, never an
    [AND] or [OR] of two, and a consequence that is an expression is a
    literal or a variable under any number of [NOT]s. *)
Theorem parse_returns_plain_rules depth text a :
  parse depth text = Some (Parsed a) ->
  exists c k, a = Rule c (Some k) None
              /\ plain_condition c = true /\ plain_consequence k = true.
Proof.
  intros [H|[(e & _ & H)|(tokens & _ & H)]]%parse_inv; [discriminate..|].
  destruct (_parse_rule tokens depth 0) as [[a' i]|e|] eqn:Hrule; [|discriminate..].
  destruct (current_token tokens i); [discriminate|]. injection H as ->.
  eapply _parse_rule_plain; eassumption.
Qed.

Lemma parse_returns_plain_rules_witness :
  parse 20 "WHEN NOT (account.balance >= 1000.50) THEN MUST NOT flagged"
  = Some (Parsed (Rule (NotCondition
                          (SimpleCondition (VariableNode "account.balance") ">="
                             (NumberValue (VFloat 1000.5))))
                       (Some (Expression (NotExpression
                                (VariableExpression (VariableNode "flagged")))))
                       None))
  /\ exists c k,
       Rule (NotCondition
               (SimpleCondition (VariableNode "account.balance") ">="
                  (NumberValue (VFloat 1000.5))))
            (Some (Expression (NotExpression
                     (VariableExpression (VariableNode "flagged")))))
            None
       = Rule c (Some k) None
       /\ plain_condition c = true /\ plain_consequence k = true.
Proof.
  split; [vm_compute; reflexivity|].
  apply (parse_returns_plain_rules 20
           "WHEN NOT (account.balance >= 1000.50) THEN MUST NOT flagged").
  vm_compute. reflexivity.
Defined.

(** An exception that leaves [parse] is a [DSLParserException] or
    the [ValueError] of [int] or [float] on a number token; the handler
    for [IndexError] is never entered, since [_parse_rule] raises no
    [IndexError] on any tokens. *)
Theorem parse_raises_only depth text e :
  parse depth text = Some (Failed e) ->
  ((exists message line column, e = DSLParserException message line column)
   \/ (exists message, e = PyExn ValueError message))
  /\ (forall tokens message,
        _parse_rule tokens depth 0 <> Failed (PyExn IndexError message)).
Proof.
  intros Hparse. split.
  2:{ intros tokens message Hrule.
      apply _parse_rule_raises in Hrule as [(m & l & c & [=])|(m & [=])]. }
  revert Hparse.
  intros [H|[(e' & Htok & H)|(tokens & _ & H)]]%parse_inv.
  - injection H as ->. left. eauto.
  - injection H as ->. left. eapply tokenize_loop_raises. exact Htok.
  - destruct (_parse_rule tokens depth 0) as [[a' i]|e'|] eqn:Hrule; [| |discriminate].
    + destruct (current_token tokens i); [|discriminate]. injection H as ->. left. eauto.
    + injection H as ->. eapply _parse_rule_raises. exact Hrule.
Qed.

Lemma parse_raises_only_witness :
  parse 20 "WHEN amount > 1e5 THEN MUST approved"
  = Some (Failed (PyExn ValueError "invalid literal for int() with base 10: '1e5'"))
  /\ ((exists message line column,
         PyExn ValueError "invalid literal for int() with base 10: '1e5'"
         = DSLParserException message line column)
      \/ (exists message,
            PyExn ValueError "invalid literal for int() with base 10: '1e5'"
            = PyExn ValueError message)).
Proof.
  split; [vm_compute; reflexivity|].
  apply (parse_raises_only 20 "WHEN amount > 1e5 THEN MUST approved").
  vm_compute. reflexivity.
Defined.

(** Where a consequence is expected and the token is neither an
    identifier nor one of [REQUIRE], [ENSURE], [VALIDATE], [TRUE],
    [FALSE], [NOT] (or the tokens have ended), [_parse_consequence] calls
    [_parse_boolean_expression], which calls itself at the same token:
    whatever the recursion limit, the call ends in [RecursionError]. *)
Theorem consequence_recursion_never_ends tokens depth i :
  (forall t, current_token tokens i = Some t ->
     tok_type t <> TIdentifier
     /\ ~ In (tok_value t) ["REQUIRE"; "ENSURE"; "VALIDATE"; "TRUE"; "FALSE"; "NOT"]) ->
  _parse_consequence tokens depth i = TooDeep.
Proof.
  intros Hnone.
  assert (Hid : type_is tokens TIdentifier i = false).
  { unfold type_is. destruct (current_token tokens i) as [t|]; [|reflexivity].
    destruct (Hnone t eq_refl) as [Hty _]. destruct (tok_type t); try reflexivity.
    now destruct Hty. }
  assert (Hval : forall vs, incl vs ["REQUIRE"; "ENSURE"; "VALIDATE"; "TRUE"; "FALSE"; "NOT"] ->
                            value_in tokens vs i = false).
  { intros vs Hvs. unfold value_in. destruct (current_token tokens i) as [t|]; [|reflexivity].
    destruct (Hnone t eq_refl) as [_ Hv]. unfold mem.
    destruct (existsb _ vs) eqn:Hex; [|reflexivity].
    apply existsb_exists in Hex as (v & Hin & Heq%String.eqb_eq).
    destruct Hv. rewrite Heq. apply Hvs, Hin. }
  unfold _parse_consequence, _is_constraint.
  rewrite Hval, Hid by (intros v; cbn; tauto). cbn [andb].
  rewrite boolean_expression_stuck; [reflexivity| |assumption|];
    apply Hval; intros v; cbn; tauto.
Qed.

(** The tokens of [WHEN amount > 100 THEN 5]; the consequence starts at
    the number 5. *)
Definition number_as_consequence : list token :=
  [Token TKeyword "WHEN" 0; Token TIdentifier "amount" 5; Token TOperator ">" 12;
   Token TNumber "100" 14; Token TKeyword "THEN" 18; Token TNumber "5" 23].

Lemma consequence_recursion_never_ends_witness :
  _tokenize "WHEN amount > 100 THEN 5" = Some (Ok number_as_consequence)
  /\ _parse_consequence number_as_consequence 1000 5 = TooDeep.
Proof.
  split; [vm_compute; reflexivity|].
  apply (consequence_recursion_never_ends number_as_consequence 1000 5).
  intros t [= <-]. cbn. split; [discriminate|].
  intros H. repeat destruct H as [H|H]; discriminate || contradiction.
Defined.

End ParserFacts.
